(** * Netflix content analysis: data loading, chart rendering and deck assembly

    A shallow embedding of [automate_presentation.py].  The script is a
    sequence of calls into pandas, matplotlib/seaborn and python-pptx; the
    embedding keeps the script's own control flow (the [try]/[except], the
    [if]/[elif] chain on the chart kind, the loop over the chart directory,
    the order of the mutations of the presentation object) and gives each
    library call the behaviour its documentation states, including the
    exception it raises when a lookup fails.

    Conventions and limits of the model.
    - Text is [string]: a sequence of 8-bit characters.  On ASCII text the
      Python operations used by the script ([\d], [str.split], [str.title],
      [str.replace]) coincide with the definitions below; beyond ASCII
      Python knows more digits and more letters than they do, and the
      statements about digits and titles are made for ASCII text
      ([is_ascii]).
    - A file path is a string.  [Path / name] is [path_join]: an absolute
      name stands for itself, empty and [.] components are dropped.  matplotlib writes a figure at
      [savefig_target]: a name without an extension gets [.png].  The file
      system is a map from paths to nodes; opening a path that names
      nothing fails with [missing_path_error]: what the operating system
      objects to in the path itself ([path_refused]), else
      [NotADirectoryError] below a regular file, else
      [FileNotFoundError].
    - A CSV file is given by its header and its records, field by field,
      with the fields pandas takes for missing already marked.  [read_csv]
      decides column by column whether the fields stay text (dtype
      [object]) or become numbers or booleans ([numeric]); the decision is
      the platform's ([reads_as_text]).  The values of a [numeric] column
      are kept as [Num] with the text they were read from: the script
      computes with none of them, but [.str] refuses such a column and
      [to_datetime] takes its numbers for nanoseconds.  pandas refuses a
      column of booleans in [to_datetime] whatever its rows; the model does
      so at the first row.  The renaming of repeated column names and the
      use of a surplus first field as the index are left out.
    - The message of an exception that names a path or a key holds its
      [repr], as Python prints it ([py_repr]).
    - Lengths of python-pptx are integers in EMU, as in the library. *)

From Stdlib Require Import ZArith QArith List Ascii String Permutation Lia Bool.
From stdpp Require Import base option list gmap strings.

Local Open Scope string_scope.
Local Open Scope Z_scope.

(** ** Exceptions and results

    The exceptions the script can meet.  [StrAccessorError] is the
    [AttributeError] pandas raises for [.str] on a column that holds no
    text; [OSError] stands for an error of the operating system that has no
    class of its own, such as a file name that is too long. *)

Inductive exn :=
| FileNotFoundError (path : string)
| IsADirectoryError (path : string)
| NotADirectoryError (path : string)
| FileExistsError (path : string)
| UnicodeDecodeError
| ParserError
| KeyError (key : string)
| IndexError
| AttributeError
| StrAccessorError
| ValueError (msg : string)
| TypeError (msg : string)
| OSError (msg : string)
| EmptyDataError
| UnidentifiedImageError (path : string).

Definition is_FileNotFoundError (e : exn) : bool :=
  match e with FileNotFoundError _ => true | _ => false end.

Definition QUOTE : ascii := ascii_of_nat 39.
Definition DQUOTE : ascii := ascii_of_nat 34.
Definition BACKSLASH : ascii := ascii_of_nat 92.

Definition lower_hex_digit (n : nat) : ascii :=
  if (n <? 10)%nat then ascii_of_nat (48 + n) else ascii_of_nat (87 + n).

Definition repr_char (quote c : ascii) : string :=
  let n := nat_of_ascii c in
  if Ascii.eqb c quote || Ascii.eqb c BACKSLASH then String BACKSLASH (String c EmptyString)
  else if (n =? 9)%nat then String BACKSLASH "t"
  else if (n =? 10)%nat then String BACKSLASH "n"
  else if (n =? 13)%nat then String BACKSLASH "r"
  else if (n <? 32)%nat || (n =? 127)%nat
       then String BACKSLASH
              (String "x" (String (lower_hex_digit (n / 16))
                             (String (lower_hex_digit (n mod 16)) EmptyString)))
  else String c EmptyString.

Fixpoint repr_body (quote : ascii) (s : string) : string :=
  match s with
  | EmptyString => EmptyString
  | String c s' => repr_char quote c ++ repr_body quote s'
  end.

Fixpoint contains_char (c : ascii) (s : string) : bool :=
  match s with
  | EmptyString => false
  | String d s' => Ascii.eqb d c || contains_char c s'
  end.

(** [repr(s)] of a Python string: the text between single quotes (between
    double quotes when it holds a single quote and no double quote), with
    the quote character and the backslash escaped and control characters
    written [\t], [\n], [\r] or [\xHH]. *)
Definition py_repr (s : string) : string :=
  let quote := if contains_char QUOTE s && negb (contains_char DQUOTE s)
               then DQUOTE else QUOTE in
  String quote (repr_body quote s ++ String quote EmptyString).

(** [str(e)]: the message of an exception. *)
Definition exn_message (e : exn) : string :=
  match e with
  | FileNotFoundError p => "[Errno 2] No such file or directory: " ++ py_repr p
  | IsADirectoryError p => "[Errno 21] Is a directory: " ++ py_repr p
  | NotADirectoryError p => "[Errno 20] Not a directory: " ++ py_repr p
  | FileExistsError p => "[Errno 17] File exists: " ++ py_repr p
  | UnicodeDecodeError => "'utf-8' codec can't decode byte"
  | ParserError => "Error tokenizing data"
  | KeyError k => py_repr k
  | IndexError => "list index out of range"
  | AttributeError => "'NoneType' object has no attribute"
  | StrAccessorError => "Can only use .str accessor with string values!"
  | ValueError m => m
  | TypeError m => m
  | OSError m => m
  | EmptyDataError => "No columns to parse from file"
  | UnidentifiedImageError p => "cannot identify image file " ++ py_repr p
  end.

(** How a call ends: it returns a value, raises an exception, or the
    interpreter exits through [sys.exit]. *)
Inductive outcome (A : Type) :=
| Returned (a : A)
| Raised (e : exn)
| Exited (code : Z).
Arguments Returned {A} a.
Arguments Raised {A} e.
Arguments Exited {A} code.

(** ** Text operations *)

Definition is_digit (c : ascii) : bool :=
  let n := nat_of_ascii c in (48 <=? n)%nat && (n <=? 57)%nat.

Definition digit_value (c : ascii) : Z := Z.of_nat (nat_of_ascii c) - 48.

(** Text of ASCII characters only. *)
Definition is_ascii (s : string) : bool :=
  forallb (fun c => (nat_of_ascii c <? 128)%nat) (list_ascii_of_string s).

(** The longest prefix of decimal digits. *)
Fixpoint take_digits (s : string) : string :=
  match s with
  | String c s' => if is_digit c then String c (take_digits s') else ""
  | EmptyString => ""
  end.

(** [re.search('(\d+)', s)]: the first, greedy run of digits anywhere in
    [s]; [None] when [s] has no digit. *)
Fixpoint search_digits (s : string) : option string :=
  match s with
  | EmptyString => None
  | String c s' => if is_digit c then Some (take_digits s) else search_digits s'
  end.

(** The integer a string of decimal digits denotes. *)
Fixpoint int_of_digits_from (acc : Z) (s : string) : Z :=
  match s with
  | EmptyString => acc
  | String c s' => int_of_digits_from (10 * acc + digit_value c) s'
  end.
Definition int_of_digits (s : string) : Z := int_of_digits_from 0 s.

(** Python's [s.split(sep)] for a one-character separator. *)
Fixpoint split_on (sep : ascii) (s : string) : list string :=
  match s with
  | EmptyString => [EmptyString]
  | String c s' =>
      if Ascii.eqb c sep then EmptyString :: split_on sep s'
      else match split_on sep s' with
           | t :: ts => String c t :: ts
           | [] => [String c EmptyString]
           end
  end.

(** ** Numbers

    [float64] holds the values [astype(float)] can produce from a run of
    digits: a finite double with an integral value, or infinity. *)
Inductive float64 := Finite (z : Z) | Inf.

(** [float(n)] for a non-negative integer: exact below [2^53], otherwise
    rounded to 53 significant bits, ties to even; infinity from
    [2^1024 - 2^970] on. *)
Definition float_of_Z (n : Z) : float64 :=
  if n <? 2 ^ 53 then Finite n
  else
    let e := Z.log2 n - 52 in
    let q := n / 2 ^ e in
    let r := n mod 2 ^ e in
    let half := 2 ^ (e - 1) in
    let q' := if r <? half then q
              else if half <? r then q + 1
              else if Z.even q then q else q + 1 in
    let v := q' * 2 ^ e in
    if 2 ^ 1024 <=? v then Inf else Finite v.

(** The same for an integer of either sign (a 64-bit integer never reaches
    infinity). *)
Definition float_of_int (n : Z) : float64 :=
  if 0 <=? n then float_of_Z n
  else match float_of_Z (- n) with
       | Finite z => Finite (- z)
       | Inf => Inf
       end.

(** ** Tables *)

(** A value of a table.  [Num text] is the number (or boolean) [read_csv]
    has made of a field with that text, in a column it does not keep as
    text. *)
Inductive cell :=
| NaN
| Str (s : string)
| Float (x : float64)
| Int (n : Z)
| StrList (l : list string)
| Num (text : string).

(** The dtype of a column, as far as the script depends on it: [object] for
    a column of text, [numeric] for any other. *)
Inductive dtype := object | numeric.

Global Instance float64_eq_dec : EqDecision float64.
Proof. solve_decision. Defined.
Global Instance cell_eq_dec : EqDecision cell.
Proof. solve_decision. Defined.

(** A pandas Series: index labels paired with values, in order. *)
Definition Series := list (cell * cell).

(** A pandas DataFrame: the column names, the dtype of each column, and the
    rows, each with its index label and one cell per column. *)
Record DataFrame := {
  columns : list string;
  dtypes : list dtype;
  rows : list (cell * list cell)
}.

(** The text of a CSV file: the header line and the records.  A field is
    [None] when the text at that place is one of the markers [read_csv]
    takes for a missing value (the empty field, [NA], [NaN], ...). *)
Record csv := {
  header : list string;
  records : list (list (option string))
}.

(** The cell [read_csv] makes of a field of a column of that dtype. *)
Definition cell_of_field (dt : dtype) (f : option string) : cell :=
  match f with
  | Some s => match dt with object => Str s | numeric => Num s end
  | None => NaN
  end.

Definition is_nan (c : cell) : bool :=
  match c with NaN => true | _ => false end.

(** ** Charts *)

Inductive ndarray :=
| Array1 (l : list cell)
| Array2 (l : list (list cell)).

(** What [create_chart] receives as [data]: a Series or a DataFrame. *)
Inductive chart_data :=
| SeriesData (s : Series)
| FrameData (df : DataFrame).

Definition data_index (d : chart_data) : list cell :=
  match d with
  | SeriesData s => map fst s
  | FrameData df => map fst (rows df)
  end.

Definition data_values (d : chart_data) : ndarray :=
  match d with
  | SeriesData s => Array1 (map snd s)
  | FrameData df => Array2 (map snd (rows df))
  end.

(** The seaborn calls of [create_chart], with their arguments. *)
Inductive plot_call :=
| barplot (x : list cell) (y : ndarray)
| lineplot (x : list cell) (y : ndarray)
| histplot (data : chart_data) (kde : bool)
| scatterplot (data : chart_data) (x y : string)
| countplot (data : chart_data) (y : string) (order : list cell).

(** A matplotlib figure: what has been drawn and set on it so far. *)
Record figure := {
  fig_size : Q * Q;
  fig_plot : option plot_call;
  fig_title : option (string * Z);
  fig_xlabel : option string;
  fig_xticks_rotation : option Z;
  fig_tight : bool
}.

Definition new_figure (size : Q * Q) : figure :=
  {| fig_size := size; fig_plot := None; fig_title := None;
     fig_xlabel := None; fig_xticks_rotation := None; fig_tight := false |}.

(** ** Presentations (python-pptx) *)

Definition RGBColor : Type := Z * Z * Z.

Definition DARK_BLUE : RGBColor := (0, 32, 96).
Definition LIGHT_BLUE : RGBColor := (197, 217, 241).

Definition EMU_PER_INCH : Z := 914400.
Definition EMU_PER_PT : Z := 12700.
(** [Inches(x)] for [x = num/den]: [int(x * 914400)]. *)
Definition Inches (num den : Z) : Z := num * EMU_PER_INCH / den.
Definition Pt (points : Z) : Z := points * EMU_PER_PT.

(** Character formatting; [None] means "not set here, inherited". *)
Record Font := {
  font_name : option string;
  font_size : option Z;
  font_color : option RGBColor
}.

Definition inherited_font : Font :=
  {| font_name := None; font_size := None; font_color := None |}.

Record Paragraph := {
  p_text : string;
  p_font : Font
}.

Inductive ph_type :=
| PhTitle | PhCenterTitle | PhSubtitle | PhBody | PhObject | PhPicture
| PhDate | PhFooter | PhSlideNumber.

Global Instance ph_type_eq_dec : EqDecision ph_type.
Proof. solve_decision. Defined.

(** A placeholder of a slide layout; [lph_font] is the font of the first
    paragraph of its text frame. *)
Record LayoutPlaceholder := {
  lph_idx : nat;
  lph_type : ph_type;
  lph_font : Font
}.

Record SlideLayout := {
  layout_name : string;
  layout_placeholders : list LayoutPlaceholder
}.

Inductive Shape :=
| Placeholder (idx : nat) (ty : ph_type) (paragraphs : list Paragraph)
| Picture (image : figure) (left top width height : Z).

(** A slide refers to its layout by the layout's place among
    [slide_layouts]: what the slide does not format itself it inherits from
    there. *)
Record Slide := {
  slide_layout : nat;
  shapes : list Shape
}.

Inductive Fill :=
| InheritedFill
| SolidFill (color : option RGBColor).

(** The presentation object: the background fill of the slide master, the
    layouts of the slide master (which [prs.slide_layouts] and
    [prs.slide_master.slide_layouts] both denote), and the slides in
    order. *)
Record Presentation := {
  master_background : Fill;
  slide_layouts : list SlideLayout;
  slides : list Slide
}.

(** ** The world the script runs in *)

Inductive file :=
| Csv (t : csv)
| Image (f : figure)
| Deck (p : Presentation).

Inductive node :=
| Dir
| File (c : file).

Inductive level := INFO | ERROR.

Record world := {
  fs : gmap string node;          (* the file system, by path *)
  log : list (level * string);    (* what loguru has written *)
  sns_style : option string;      (* seaborn's global style *)
  figures : list figure           (* pyplot's open figures, current first *)
}.

Definition set_fs (f : gmap string node) (w : world) : world :=
  {| fs := f; log := log w; sns_style := sns_style w; figures := figures w |}.
Definition set_log (l : list (level * string)) (w : world) : world :=
  {| fs := fs w; log := l; sns_style := sns_style w; figures := figures w |}.
Definition set_style (s : option string) (w : world) : world :=
  {| fs := fs w; log := log w; sns_style := s; figures := figures w |}.
Definition set_figures (l : list figure) (w : world) : world :=
  {| fs := fs w; log := log w; sns_style := sns_style w; figures := l |}.

(** ** Computations: a state over [S] that may raise or exit *)

Definition M (S A : Type) : Type := S -> outcome A * S.

Definition ret {S A} (a : A) : M S A := fun s => (Returned a, s).

Definition bind {S A B} (m : M S A) (k : A -> M S B) : M S B :=
  fun s =>
    match m s with
    | (Returned a, s') => k a s'
    | (Raised e, s') => (Raised e, s')
    | (Exited c, s') => (Exited c, s')
    end.

Definition raise {S A} (e : exn) : M S A := fun s => (Raised e, s).
Definition sys_exit {S A} (code : Z) : M S A := fun s => (Exited code, s).
Definition get {S} : M S S := fun s => (Returned s, s).
Definition modify {S} (f : S -> S) : M S unit := fun s => (Returned tt, f s).

(** [try: body except E as e: handler e], where [catches e] tells whether
    [e] is an instance of [E]. *)
Definition try_except {S A} (body : M S A) (catches : exn -> bool)
    (handler : exn -> M S A) : M S A :=
  fun s =>
    match body s with
    | (Raised e, s') => if catches e then handler e s' else (Raised e, s')
    | r => r
    end.

Declare Scope prog_scope.
Delimit Scope prog_scope with prog.
Notation "x <- m ;; k" := (bind m (fun x => k))
  (at level 100, m at next level, right associativity) : prog_scope.
Notation "m ;;; k" := (bind m (fun _ => k))
  (at level 100, right associativity) : prog_scope.

(** A [for] loop over a list. *)
Fixpoint for_each {S A} (l : list A) (body : A -> M S unit) : M S unit :=
  match l with
  | [] => ret tt
  | x :: l' => bind (body x) (fun _ => for_each l' body)
  end.

Definition logger_info (msg : string) : M world unit :=
  modify (fun w => set_log (log w ++ [(INFO, msg)]) w).
Definition logger_error (msg : string) : M world unit :=
  modify (fun w => set_log (log w ++ [(ERROR, msg)]) w).

(** ** What the libraries and the operating system decide

    The parts of pandas, seaborn, matplotlib and the operating system whose
    results the script takes as they come. *)
Class Platform := {
  (** the calendar year of a date text as [pd.to_datetime(.., format='mixed')]
      reads it; [None] when the text cannot be parsed as a date *)
  parse_year : string -> option Z;
  (** the calendar year [pd.to_datetime] gives the value of a field that
      [read_csv] has read as a number: it counts the number as nanoseconds
      from the start of 1970; [None] when it refuses the value (a
      boolean) *)
  number_year : string -> option Z;
  (** [Series.value_counts()] of the values of a column *)
  value_counts : list cell -> Series;
  (** [Series.nlargest(n)] *)
  nlargest : nat -> Series -> Series;
  (** [Series.sort_index()] *)
  sort_index : Series -> Series;
  (** whether [read_csv] keeps a column with these fields as text (dtype
      object); it does not when it can read them all as numbers or as
      booleans *)
  reads_as_text : list (option string) -> bool;
  (** whether seaborn accepts a plotting call and draws it *)
  renders : plot_call -> bool;
  (** the exception matplotlib raises when it cannot write a figure under
      a path (no format for the file-name extension, no writable place);
      [None] when it can *)
  save_error : string -> option exn;
  (** the exception opening a path raises whatever the file system holds
      (an embedded NUL character, a name longer than the system allows);
      it is never the one for a file that is not there *)
  path_refused : string -> option exn;
  path_refused_other :
    forall path e, path_refused path = Some e -> is_FileNotFoundError e = false;
  (** the order in which the operating system enumerates directory entries *)
  enumerate : list string -> list string;
  enumerate_perm : forall l, Permutation (enumerate l) l
}.

(** Whether matplotlib can write a figure under a path. *)
Definition can_save {P : Platform} (path : string) : bool :=
  match save_error path with
  | None => true
  | Some _ => false
  end.

Definition lift {S A} (o : outcome A) : M S A := fun s => (o, s).

(** ** pandas *)

Section Pandas.
Context {P : Platform}.

(** Index labels of a freshly read frame: 0, 1, 2, ... *)
Fixpoint label_from {A} (i : Z) (l : list A) : list (cell * A) :=
  match l with
  | [] => []
  | x :: l' => (Int i, x) :: label_from (i + 1) l'
  end.

(** One cell per column of the header: a record with fewer fields than the
    header is filled with missing values. *)
Definition fields (width : nat) (r : list (option string)) : list (option string) :=
  map (fun i => nth i r None) (seq 0 width).

Definition too_long (width : nat) (r : list (option string)) : bool :=
  (width <? length r)%nat.

(** The fields of the column [j] of a CSV text, record by record. *)
Definition column_fields (t : csv) (j : nat) : list (option string) :=
  map (fun r => nth j r None) (records t).

(** The dtype [read_csv] infers for the column [j]. *)
Definition column_dtype (t : csv) (j : nat) : dtype :=
  if reads_as_text (column_fields t j) then object else numeric.

(** The cells of a record, column by column. *)
Definition cells_of_record (t : csv) (r : list (option string)) : list cell :=
  map (fun j => cell_of_field (column_dtype t j) (nth j r None))
      (seq 0 (length (header t))).

(** The frame [read_csv] makes of a CSV text: the header gives the column
    names, each column gets the dtype inferred from its fields, the records
    give the rows, labelled from 0. *)
Definition frame_of_csv (t : csv) : DataFrame :=
  {| columns := header t;
     dtypes := map (column_dtype t) (seq 0 (length (header t)));
     rows := label_from 0 (map (cells_of_record t) (records t)) |}.

(** The directories a path names on its way: the text before each of its
    slashes. *)
Fixpoint ancestors_from (acc s : string) : list string :=
  match s with
  | EmptyString => []
  | String c s' =>
      if Ascii.eqb c "/"%char
      then match acc with
           | EmptyString => ancestors_from (String c EmptyString) s'
           | _ => acc :: ancestors_from (acc ++ String c EmptyString) s'
           end
      else ancestors_from (acc ++ String c EmptyString) s'
  end.
Definition ancestors (path : string) : list string := ancestors_from EmptyString path.

Definition is_regular_file (f : gmap string node) (path : string) : bool :=
  match f !! path with
  | Some (File _) => true
  | _ => false
  end.

(** Whether a path leads through something that is a regular file. *)
Definition below_a_file (f : gmap string node) (path : string) : bool :=
  existsb (is_regular_file f) (ancestors path).

(** The exception [open] raises for a path under which nothing is. *)
Definition missing_path_error (f : gmap string node) (path : string) : exn :=
  match path_refused path with
  | Some e => e
  | None => if below_a_file f path then NotADirectoryError path
            else FileNotFoundError path
  end.

(** [pd.read_csv(path)].  A file without a header line has no columns to
    parse; a record with more fields than the header has columns makes the
    parser fail. *)
Definition read_csv (path : string) : M world DataFrame :=
  fun w =>
    match fs w !! path with
    | None => (Raised (missing_path_error (fs w) path), w)
    | Some Dir => (Raised (IsADirectoryError path), w)
    | Some (File (Csv t)) =>
        match header t with
        | [] => (Raised EmptyDataError, w)
        | _ =>
            if existsb (too_long (length (header t))) (records t)
            then (Raised ParserError, w)
            else (Returned (frame_of_csv t), w)
        end
    | Some (File _) => (Raised UnicodeDecodeError, w)
    end.

Definition row_complete (cs : list cell) : bool :=
  forallb (fun c => negb (is_nan c)) cs.

(** [df.dropna(inplace=True)]: keep the rows without a missing value. *)
Definition dropna (df : DataFrame) : DataFrame :=
  {| columns := columns df;
     dtypes := dtypes df;
     rows := List.filter (fun r => row_complete (snd r)) (rows df) |}.

Fixpoint position (name : string) (cols : list string) : option nat :=
  match cols with
  | [] => None
  | c :: cs => if String.eqb c name then Some 0%nat
               else option_map S (position name cs)
  end.

(** [df[name]]: the column as a Series, [KeyError] when there is none. *)
Definition getitem (df : DataFrame) (name : string) : outcome Series :=
  match position name (columns df) with
  | None => Raised (KeyError name)
  | Some i => Returned (map (fun r => (fst r, nth i (snd r) NaN)) (rows df))
  end.

(** [s == v]: the boolean mask, row by row. *)
Definition eq_mask (s : Series) (v : cell) : list bool :=
  map (fun r => bool_decide (snd r = v)) s.

(** [df[mask]] for a mask computed from a column of [df]. *)
Definition getitem_mask (df : DataFrame) (mask : list bool) : DataFrame :=
  {| columns := columns df;
     dtypes := dtypes df;
     rows := map fst (List.filter snd (combine (rows df) mask)) |}.

(** The value a Series holds for a label; missing when it has none. *)
Fixpoint lookup_label (l : cell) (s : Series) : cell :=
  match s with
  | [] => NaN
  | (l', v) :: s' => if decide (l' = l) then v else lookup_label l s'
  end.

(** [df[name] = s] for a Series [s] of dtype [dt]: the values of [s] are
    aligned with the rows of [df] by index label; a row whose label [s]
    lacks gets a missing value.  The column is replaced when [df] has one
    of that name, added last otherwise. *)
Definition setitem (df : DataFrame) (name : string) (dt : dtype) (s : Series)
    : DataFrame :=
  match position name (columns df) with
  | Some i =>
      {| columns := columns df;
         dtypes := <[i := dt]> (dtypes df);
         rows := map (fun r => (fst r, <[i := lookup_label (fst r) s]> (snd r)))
                     (rows df) |}
  | None =>
      {| columns := columns df ++ [name];
         dtypes := dtypes df ++ [dt];
         rows := map (fun r => (fst r, (snd r ++ [lookup_label (fst r) s])%list))
                     (rows df) |}
  end.

(** The dtype of the column [df[name]]. *)
Definition dtype_of (df : DataFrame) (name : string) : dtype :=
  match position name (columns df) with
  | Some i => nth i (dtypes df) object
  | None => object
  end.

(** [s.str] for a Series of dtype [dt]: the accessor of the text
    operations, which pandas refuses on a Series that is not of text. *)
Definition str_accessor (dt : dtype) (s : Series) : outcome Series :=
  match dt with
  | object => Returned s
  | numeric => Raised StrAccessorError
  end.

(** [.str.extract('(\d+)')]: the one column of the resulting frame. *)
Definition str_extract_digits (s : Series) : Series :=
  map (fun r => (fst r,
                 match snd r with
                 | Str t => match search_digits t with
                            | Some ds => Str ds
                            | None => NaN
                            end
                 | _ => NaN
                 end)) s.

Definition all_digits (s : string) : bool :=
  forallb is_digit (list_ascii_of_string s).

(** [float(text)] on the text the script converts, a run of decimal digits;
    any other text stands for a failed conversion. *)
Definition float_of_str (t : string) : option float64 :=
  match t with
  | EmptyString => None
  | _ => if all_digits t then Some (float_of_Z (int_of_digits t)) else None
  end.

Fixpoint traverse {A B} (f : A -> outcome B) (l : list A) : outcome (list B) :=
  match l with
  | [] => Returned []
  | x :: l' =>
      match f x with
      | Returned y =>
          match traverse f l' with
          | Returned ys => Returned (y :: ys)
          | Raised e => Raised e
          | Exited c => Exited c
          end
      | Raised e => Raised e
      | Exited c => Exited c
      end
  end.

(** [.astype(float)]. *)
Definition astype_float (s : Series) : outcome Series :=
  traverse (fun r =>
              match snd r with
              | NaN => Returned (fst r, NaN)
              | Str t => match float_of_str t with
                         | Some x => Returned (fst r, Float x)
                         | None => Raised (ValueError ("could not convert string to float: '" ++ t ++ "'"))
                         end
              | Float x => Returned (fst r, Float x)
              | Int n => Returned (fst r, Float (float_of_int n))
              | Num t => Returned (fst r, Num t)
              | StrList _ => Raised (ValueError "setting an array element with a sequence")
              end) s.

(** [.str.split(sep)]: text becomes the list of its pieces; a value that is
    not text becomes missing. *)
Definition str_split (sep : ascii) (s : Series) : Series :=
  map (fun r => (fst r,
                 match snd r with
                 | Str t => StrList (split_on sep t)
                 | _ => NaN
                 end)) s.

(** [.str[i]]: the element [i] of a list, the character [i] of a text;
    missing when out of range. *)
Definition str_get (i : nat) (s : Series) : Series :=
  map (fun r => (fst r,
                 match snd r with
                 | StrList l => match nth_error l i with
                                | Some t => Str t
                                | None => NaN
                                end
                 | Str t => match String.get i t with
                            | Some c => Str (String c EmptyString)
                            | None => NaN
                            end
                 | _ => NaN
                 end)) s.

(** [pd.to_datetime(s, format='mixed').dt.year], on a column read from a
    file.  With the default [errors='raise'] a text that is no date makes
    [to_datetime] raise; a number is no text to parse but a count of
    nanoseconds.  The years are integers; a missing date turns the whole
    result into floats.  (The script passes no column of the other cells.) *)
Definition to_datetime_year (s : Series) : outcome Series :=
  match traverse (fun r =>
                    match snd r with
                    | NaN => Returned (fst r, None)
                    | Str t =>
                        match parse_year t with
                        | Some y => Returned (fst r, Some y)
                        | None => Raised (ValueError
                                    ("Unknown datetime string format, unable to parse: " ++ t))
                        end
                    | Num t =>
                        match number_year t with
                        | Some y => Returned (fst r, Some y)
                        | None => Raised (TypeError
                                    "<class 'bool'> is not convertible to datetime")
                        end
                    | _ => Raised (ValueError "unsupported value for to_datetime")
                    end) s with
  | Returned ys =>
      if forallb (fun r => bool_decide (is_Some (snd r))) ys
      then Returned (map (fun r => (fst r, match snd r with
                                           | Some y => Int y
                                           | None => NaN
                                           end)) ys)
      else Returned (map (fun r => (fst r, match snd r with
                                           | Some y => Float (float_of_int y)
                                           | None => NaN
                                           end)) ys)
  | Raised e => Raised e
  | Exited c => Exited c
  end.

Local Open Scope prog_scope.

(** [load_and_clean_data(file_path)]. *)
Definition load_and_clean_data (file_path : string) : M world DataFrame :=
  try_except
    (df <- read_csv file_path ;;
     (* Drop null values *)
     let df := dropna df in
     (* Convert duration to minutes for movies *)
     type_col <- lift (getitem df "type") ;;
     let movies := getitem_mask df (eq_mask type_col (Str "Movie")) in
     duration <- lift (getitem movies "duration") ;;
     duration_str <- lift (str_accessor (dtype_of movies "duration") duration) ;;
     minutes <- lift (astype_float (str_extract_digits duration_str)) ;;
     let df := setitem df "duration_min" numeric minutes in
     (* Add 'genre' column *)
     listed_in <- lift (getitem df "listed_in") ;;
     listed_in_str <- lift (str_accessor (dtype_of df "listed_in") listed_in) ;;
     let df := setitem df "genre" object (str_get 0 (str_split "," listed_in_str)) in
     (* Convert 'date_added' to datetime *)
     date_added <- lift (getitem df "date_added") ;;
     years <- lift (to_datetime_year date_added) ;;
     let df := setitem df "year_added" numeric years in
     logger_info "Data loaded and cleaned successfully." ;;;
     ret df)
    is_FileNotFoundError
    (fun e =>
       logger_error ("Error loading data: " ++ exn_message e) ;;;
       sys_exit 1).

End Pandas.

(** ** Paths *)

Definition SLASH : ascii := ascii_of_nat 47.
Definition DOT : ascii := ascii_of_nat 46.
Definition UNDERSCORE : ascii := ascii_of_nat 95.
Definition SPACE : ascii := ascii_of_nat 32.

(** The final component of a path. *)
Fixpoint basename_from (acc s : string) : string :=
  match s with
  | EmptyString => acc
  | String c s' => if Ascii.eqb c SLASH then basename_from EmptyString s'
                   else basename_from (acc ++ String c EmptyString) s'
  end.
Definition basename (path : string) : string := basename_from EmptyString path.

(** The place of the last occurrence of [c]. *)
Fixpoint rfind_from (c : ascii) (i : nat) (found : option nat) (s : string) : option nat :=
  match s with
  | EmptyString => found
  | String d s' => rfind_from c (S i) (if Ascii.eqb d c then Some i else found) s'
  end.
Definition rfind (c : ascii) (s : string) : option nat := rfind_from c 0%nat None s.

(** The components of a path text that [pathlib] keeps: those that are
    neither empty nor [.]. *)
Definition path_parts (s : string) : list string :=
  List.filter (fun c => negb (String.eqb c "") && negb (String.eqb c "."))
              (split_on SLASH s).

Fixpoint join_parts (l : list string) : string :=
  match l with
  | [] => EmptyString
  | [c] => c
  | c :: l' => c ++ "/" ++ join_parts l'
  end.

(** The root of a path text: [/] for an absolute one, [//] for one that
    starts with exactly two slashes, none for a relative one. *)
Definition path_root (s : string) : string :=
  match s with
  | String "/" (String "/" (String "/" _)) => "/"
  | String "/" (String "/" _) => "//"
  | String "/" _ => "/"
  | _ => EmptyString
  end.

(** [parent / name] of [pathlib], for a [parent] written without redundant
    slashes and dots: an absolute [name] stands for itself, a relative one
    is appended; the empty components of [name] and those that are [.] are
    dropped. *)
Definition path_join (parent name : string) : string :=
  match path_root name with
  | EmptyString =>
      match path_parts name with
      | [] => parent
      | parts => parent ++ "/" ++ join_parts parts
      end
  | root => root ++ join_parts (path_parts name)
  end.

(** [os.path.splitext(path)[1]] without its dot: what follows the last dot
    of the final component, when something other than dots precedes that
    dot there. *)
Definition extension (path : string) : string :=
  let name := basename path in
  match rfind DOT name with
  | Some i =>
      if existsb (fun c => negb (Ascii.eqb c DOT))
                 (list_ascii_of_string (substring 0 i name))
      then substring (S i) (String.length name - S i) name
      else EmptyString
  | None => EmptyString
  end.

(** [s.rstrip('.')]. *)
Fixpoint rstrip_dots (s : string) : string :=
  match s with
  | EmptyString => EmptyString
  | String c s' =>
      match rstrip_dots s' with
      | EmptyString => if Ascii.eqb c DOT then EmptyString else String c EmptyString
      | t => String c t
      end
  end.

(** The path matplotlib writes for [savefig(path)]: a path without an
    extension gets that of the default format, [png]. *)
Definition savefig_target (path : string) : string :=
  match extension path with
  | EmptyString => rstrip_dots path ++ ".png"
  | _ => path
  end.

(** ** matplotlib, seaborn and the chart directory *)

Section Charts.
Context {P : Platform}.
Local Open Scope prog_scope.

(** pyplot's implicit default figure size, [(6.4, 4.8)]. *)
Definition default_figsize : Q * Q := (64 # 10, 48 # 10)%Q.

(** [plt.figure(figsize=..)]: a new figure, which becomes the current one. *)
Definition plt_figure (figsize : Q * Q) : M world unit :=
  modify (fun w => set_figures (new_figure figsize :: figures w) w).

Definition sns_set_style (style : string) : M world unit :=
  modify (set_style (Some style)).

(** pyplot acts on the current figure and makes one when there is none. *)
Definition on_current_figure (f : figure -> figure) : M world unit :=
  modify (fun w =>
            match figures w with
            | fg :: rest => set_figures (f fg :: rest) w
            | [] => set_figures [f (new_figure default_figsize)] w
            end).

(** A seaborn plotting call: it draws on the current figure, or raises when
    seaborn does not accept its arguments. *)
Definition draw (p : plot_call) : M world unit :=
  if renders p
  then on_current_figure (fun fg =>
         {| fig_size := fig_size fg; fig_plot := Some p;
            fig_title := fig_title fg; fig_xlabel := fig_xlabel fg;
            fig_xticks_rotation := fig_xticks_rotation fg;
            fig_tight := fig_tight fg |})
  else raise (ValueError "seaborn cannot draw this data").

Definition plt_title (t : string) (fontsize : Z) : M world unit :=
  on_current_figure (fun fg =>
    {| fig_size := fig_size fg; fig_plot := fig_plot fg;
       fig_title := Some (t, fontsize); fig_xlabel := fig_xlabel fg;
       fig_xticks_rotation := fig_xticks_rotation fg;
       fig_tight := fig_tight fg |}).

Definition plt_xlabel (t : string) : M world unit :=
  on_current_figure (fun fg =>
    {| fig_size := fig_size fg; fig_plot := fig_plot fg;
       fig_title := fig_title fg; fig_xlabel := Some t;
       fig_xticks_rotation := fig_xticks_rotation fg;
       fig_tight := fig_tight fg |}).

Definition plt_xticks (rotation : Z) : M world unit :=
  on_current_figure (fun fg =>
    {| fig_size := fig_size fg; fig_plot := fig_plot fg;
       fig_title := fig_title fg; fig_xlabel := fig_xlabel fg;
       fig_xticks_rotation := Some rotation;
       fig_tight := fig_tight fg |}).

Definition plt_tight_layout : M world unit :=
  on_current_figure (fun fg =>
    {| fig_size := fig_size fg; fig_plot := fig_plot fg;
       fig_title := fig_title fg; fig_xlabel := fig_xlabel fg;
       fig_xticks_rotation := fig_xticks_rotation fg;
       fig_tight := true |}).

(** [plt.close()]: the current figure is released. *)
Definition plt_close : M world unit :=
  modify (fun w => set_figures (tail (figures w)) w).

(** [Path(parent/name).mkdir(parents=True, exist_ok=True)] for a directory
    [name] inside a directory [parent] of the working directory. *)
Definition mkdir_parents (parent name : string) : M world unit :=
  fun w =>
    let p := path_join parent name in
    match fs w !! p with
    | Some Dir => (Returned tt, w)
    | Some (File _) => (Raised (FileExistsError p), w)
    | None =>
        match fs w !! parent with
        | Some Dir => (Returned tt, set_fs (<[p := Dir]> (fs w)) w)
        | Some (File _) => (Raised (NotADirectoryError p), w)
        | None => (Returned tt, set_fs (<[p := Dir]> (<[parent := Dir]> (fs w))) w)
        end
    end.

(** [plt.savefig(path)]: the current figure is written to the path
    matplotlib makes of [path], when it has a format for it. *)
Definition plt_savefig (path : string) : M world unit :=
  fun w =>
    let target := savefig_target path in
    match save_error target with
    | Some e => (Raised e, w)
    | None =>
        match fs w !! target with
        | Some Dir => (Raised (IsADirectoryError target), w)
        | _ =>
            let fg := match figures w with
                      | fg :: _ => fg
                      | [] => new_figure default_figsize
                      end in
            (Returned tt, set_fs (<[target := File (Image fg)]> (fs w)) w)
        end
    end.

(** [data['rating'].value_counts().index], the [order] argument of the
    count plot.  On a frame [data['rating']] is the column; on a Series it
    is a lookup by label, which yields a scalar (without [value_counts])
    when the label occurs once. *)
Definition rating_order (data : chart_data) : outcome (list cell) :=
  match data with
  | FrameData df =>
      match getitem df "rating" with
      | Returned col => Returned (map fst (value_counts (map snd col)))
      | Raised e => Raised e
      | Exited c => Exited c
      end
  | SeriesData s =>
      match List.filter (fun r => bool_decide (fst r = Str "rating")) s with
      | [] => Raised (KeyError "rating")
      | [_] => Raised AttributeError
      | found => Returned (map fst (value_counts (map snd found)))
      end
  end.

(** [create_chart(data, title, filename, kind, figsize)]. *)
Definition create_chart (data : chart_data) (title filename kind : string)
    (figsize : Q * Q) : M world unit :=
  plt_figure figsize ;;;
  sns_set_style "whitegrid" ;;;
  (if String.eqb kind "bar" then
     draw (barplot (data_index data) (data_values data))
   else if String.eqb kind "line" then
     draw (lineplot (data_index data) (data_values data))
   else if String.eqb kind "hist" then
     draw (histplot data true)
   else if String.eqb kind "scatter" then
     draw (scatterplot data "release_year" "duration_min")
   else if String.eqb kind "count" then
     (order <- lift (rating_order data) ;;
      draw (countplot data "rating" order))
   else ret tt) ;;;
  plt_title title 16 ;;;
  plt_xlabel "" ;;;   (* Remove default x-axis label *)
  plt_xticks 45 ;;;
  plt_tight_layout ;;;
  mkdir_parents "img" "slides" ;;;
  plt_savefig (path_join "img/slides" filename) ;;;
  logger_info ("Saved chart: " ++ filename) ;;;
  plt_close.

End Charts.

(** ** python-pptx *)

Definition hex_digit (n : nat) : ascii :=
  if (n <? 10)%nat then ascii_of_nat (48 + n) else ascii_of_nat (55 + n).

(** The control characters python-pptx does not store as they are: all of
    [\x00-\x1F] but tab, line feed (which separates paragraphs) and vertical
    tab (which becomes a line break). *)
Definition is_escaped_ctrl (c : ascii) : bool :=
  let n := nat_of_ascii c in
  (n <=? 8)%nat || ((12 <=? n)%nat && (n <=? 31)%nat).

(** Such a character is stored as the plain text [_xHHHH_]. *)
Fixpoint escape_ctrl_chars (s : string) : string :=
  match s with
  | EmptyString => EmptyString
  | String c s' =>
      if is_escaped_ctrl c
      then let n := nat_of_ascii c in
           "_x00" ++ String (hex_digit (n / 16)) (String (hex_digit (n mod 16)) "_")
                  ++ escape_ctrl_chars s'
      else String c (escape_ctrl_chars s')
  end.

Definition LF : ascii := ascii_of_nat 10.

(** Assigning [shape.text]: the text frame is emptied and gets one new
    paragraph per line of the text. *)
Definition paragraphs_of_text (text : string) : list Paragraph :=
  map (fun t => {| p_text := escape_ctrl_chars t; p_font := inherited_font |})
      (split_on LF text).

Fixpoint join_lines (l : list string) : string :=
  match l with
  | [] => EmptyString
  | [t] => t
  | t :: l' => t ++ String LF (join_lines l')
  end.

(** Reading [shape.text]: the paragraphs' texts, separated by line feeds. *)
Definition text_of_paragraphs (ps : list Paragraph) : string :=
  join_lines (map p_text ps).

Definition shape_text (sh : Shape) : option string :=
  match sh with
  | Placeholder _ _ ps => Some (text_of_paragraphs ps)
  | Picture _ _ _ _ _ => None
  end.

Definition is_placeholder_idx (i : nat) (sh : Shape) : bool :=
  match sh with
  | Placeholder idx _ _ => Nat.eqb idx i
  | Picture _ _ _ _ _ => false
  end.

Fixpoint find_index {A} (p : A -> bool) (l : list A) : option nat :=
  match l with
  | [] => None
  | x :: l' => if p x then Some 0%nat else option_map S (find_index p l')
  end.

(** The placeholders of a layout that a new slide does not take over. *)
Definition latent (ty : ph_type) : bool :=
  match ty with
  | PhDate | PhFooter | PhSlideNumber => true
  | _ => false
  end.

Definition clone_placeholder (lp : LayoutPlaceholder) : Shape :=
  Placeholder (lph_idx lp) (lph_type lp)
              [{| p_text := EmptyString; p_font := inherited_font |}].

(** The shapes of a new slide: a copy of each placeholder of its layout
    that is not latent. *)
Definition new_shapes (phs : list LayoutPlaceholder) : list Shape :=
  map clone_placeholder (List.filter (fun lp => negb (latent (lph_type lp))) phs).

Definition set_slides (l : list Slide) (prs : Presentation) : Presentation :=
  {| master_background := master_background prs;
     slide_layouts := slide_layouts prs;
     slides := l |}.
Definition set_layouts (l : list SlideLayout) (prs : Presentation) : Presentation :=
  {| master_background := master_background prs;
     slide_layouts := l;
     slides := slides prs |}.
Definition set_background (f : Fill) (prs : Presentation) : Presentation :=
  {| master_background := f;
     slide_layouts := slide_layouts prs;
     slides := slides prs |}.

Section Pptx.
Local Open Scope prog_scope.

(** [prs.slide_layouts[i]]: a reference to the layout, [IndexError] when
    out of range. *)
Definition slide_layouts_getitem (i : nat) : M Presentation nat :=
  fun prs =>
    match slide_layouts prs !! i with
    | Some _ => (Returned i, prs)
    | None => (Raised IndexError, prs)
    end.

(** [prs.slides.add_slide(layout)]: a new last slide with a copy of each
    placeholder of the layout that is not latent.  The result refers to the
    new slide by its place among [slides]. *)
Definition add_slide (layout : nat) : M Presentation nat :=
  fun prs =>
    let phs := match slide_layouts prs !! layout with
               | Some l => layout_placeholders l
               | None => []
               end in
    let sl := {| slide_layout := layout; shapes := new_shapes phs |} in
    (Returned (length (slides prs)), set_slides (slides prs ++ [sl])%list prs).

(** [slide.shapes.title]: the first placeholder with idx 0, or [None]. *)
Definition shapes_title (sid : nat) : M Presentation (option nat) :=
  fun prs =>
    (Returned (match slides prs !! sid with
               | Some sl => find_index (is_placeholder_idx 0) (shapes sl)
               | None => None
               end), prs).

(** The decimal numeral of a natural number. *)
Fixpoint decimal_from (fuel n : nat) (acc : string) : string :=
  match fuel with
  | O => acc
  | S fuel' =>
      let acc' := String (ascii_of_nat (48 + n mod 10)) acc in
      match (n / 10)%nat with
      | O => acc'
      | q => decimal_from fuel' q acc'
      end
  end.
Definition decimal (n : nat) : string := decimal_from (S n) n EmptyString.

(** [slide.placeholders[idx]]: the placeholder with that idx, [KeyError]
    when the slide has none. *)
Definition placeholders_getitem (sid idx : nat) : M Presentation (option nat) :=
  fun prs =>
    match slides prs !! sid with
    | Some sl =>
        match find_index (is_placeholder_idx idx) (shapes sl) with
        | Some pos => (Returned (Some pos), prs)
        | None => (Raised (KeyError ("no placeholder on this slide with idx == "
                                      ++ decimal idx)), prs)
        end
    | None => (Raised IndexError, prs)
    end.

(** A change of one shape of one slide, in place.  [shape] is what
    [shapes_title] or [placeholders_getitem] returned; using [None] as a
    shape raises [AttributeError]. *)
Definition update_shape (sid : nat) (shape : option nat)
    (f : Shape -> outcome Shape) : M Presentation unit :=
  fun prs =>
    match shape with
    | None => (Raised AttributeError, prs)
    | Some pos =>
        match slides prs !! sid with
        | None => (Raised IndexError, prs)
        | Some sl =>
            match shapes sl !! pos with
            | None => (Raised IndexError, prs)
            | Some sh =>
                match f sh with
                | Returned sh' =>
                    (Returned tt,
                     set_slides (<[sid := {| slide_layout := slide_layout sl;
                                             shapes := <[pos := sh']> (shapes sl) |}]>
                                   (slides prs)) prs)
                | Raised e => (Raised e, prs)
                | Exited c => (Exited c, prs)
                end
            end
        end
    end.

(** [shape.text = text]. *)
Definition set_text (sid : nat) (shape : option nat) (text : string)
    : M Presentation unit :=
  update_shape sid shape
    (fun sh => match sh with
               | Placeholder idx ty _ => Returned (Placeholder idx ty (paragraphs_of_text text))
               | Picture _ _ _ _ _ => Raised AttributeError
               end).

(** A change of [shape.text_frame.paragraphs[0].font]. *)
Definition set_paragraph0_font (sid : nat) (shape : option nat) (g : Font -> Font)
    : M Presentation unit :=
  update_shape sid shape
    (fun sh => match sh with
               | Placeholder idx ty (p :: ps) =>
                   Returned (Placeholder idx ty
                               ({| p_text := p_text p; p_font := g (p_font p) |} :: ps))
               | Placeholder _ _ [] => Raised IndexError
               | Picture _ _ _ _ _ => Raised AttributeError
               end).

Definition with_color (c : RGBColor) (f : Font) : Font :=
  {| font_name := font_name f; font_size := font_size f; font_color := Some c |}.
Definition with_size (sz : Z) (f : Font) : Font :=
  {| font_name := font_name f; font_size := Some sz; font_color := font_color f |}.
Definition with_name (n : string) (f : Font) : Font :=
  {| font_name := Some n; font_size := font_size f; font_color := font_color f |}.

(** [add_title_slide(prs, title, subtitle)]. *)
Definition add_title_slide (title subtitle : string) : M Presentation unit :=
  layout <- slide_layouts_getitem 0 ;;
  slide <- add_slide layout ;;
  title_ph <- shapes_title slide ;;
  set_text slide title_ph title ;;;
  subtitle_ph <- placeholders_getitem slide 1 ;;
  set_text slide subtitle_ph subtitle ;;;
  title_shape <- shapes_title slide ;;
  set_paragraph0_font slide title_shape (with_color DARK_BLUE) ;;;
  set_paragraph0_font slide title_shape (with_size (Pt 44)).

End Pptx.

(** The script's state once the presentation object exists: the world and
    the object [prs] refers to. *)
Definition on_prs {A} (m : M Presentation A) : M (world * Presentation) A :=
  fun s => match m (snd s) with (r, prs') => (r, (fst s, prs')) end.

Definition on_world {A} (m : M world A) : M (world * Presentation) A :=
  fun s => match m (fst s) with (r, w') => (r, (w', snd s)) end.

(** Running a block in which [prs] is bound to a new object [init]. *)
Definition with_presentation {A} (init : Presentation)
    (m : M (world * Presentation) A) : M world A :=
  fun w => match m (w, init) with (r, s') => (r, fst s') end.

Section Deck.
Context {P : Platform}.
Local Open Scope prog_scope.

(** [slide.shapes.add_picture(image_path, left, top, width, height)]: the
    image file is read and a picture shape is added after the slide's other
    shapes. *)
Definition add_picture (sid : nat) (image_path : string) (left top width height : Z)
    : M (world * Presentation) unit :=
  fun s =>
    match fs (fst s) !! image_path with
    | None => (Raised (missing_path_error (fs (fst s)) image_path), s)
    | Some Dir => (Raised (IsADirectoryError image_path), s)
    | Some (File (Image img)) =>
        match slides (snd s) !! sid with
        | None => (Raised IndexError, s)
        | Some sl =>
            (Returned tt,
             (fst s,
              set_slides (<[sid := {| slide_layout := slide_layout sl;
                                      shapes := (shapes sl ++ [Picture img left top width height])%list |}]>
                            (slides (snd s))) (snd s)))
        end
    | Some (File _) => (Raised (UnidentifiedImageError image_path), s)
    end.

(** [add_content_slide(prs, title, image_path)]. *)
Definition add_content_slide (title image_path : string) : M (world * Presentation) unit :=
  layout <- on_prs (slide_layouts_getitem 5) ;;
  slide <- on_prs (add_slide layout) ;;
  title_ph <- on_prs (shapes_title slide) ;;
  on_prs (set_text slide title_ph title) ;;;
  let left := Inches 1 1 in
  let top := Inches 3 2 in
  let width := Inches 8 1 in
  let height := Inches 11 2 in
  add_picture slide image_path left top width height ;;;
  (* Customize title font *)
  title_shape <- on_prs (shapes_title slide) ;;
  on_prs (set_paragraph0_font slide title_shape (with_color DARK_BLUE)) ;;;
  on_prs (set_paragraph0_font slide title_shape (with_size (Pt 32))).

(** [slide_master.slide_layouts[i].placeholders[j].text_frame.paragraphs[0].font]:
    a reference to that font; both indexings are by position and raise
    [IndexError] out of range. *)
Definition layout_placeholder_font (i j : nat) : M Presentation (nat * nat) :=
  fun prs =>
    match slide_layouts prs !! i with
    | None => (Raised IndexError, prs)
    | Some l =>
        match layout_placeholders l !! j with
        | None => (Raised IndexError, prs)
        | Some _ => (Returned (i, j), prs)
        end
    end.

Definition alter_layout_font (g : Font -> Font) (j : nat) (l : SlideLayout) : SlideLayout :=
  {| layout_name := layout_name l;
     layout_placeholders :=
       alter (fun lp => {| lph_idx := lph_idx lp; lph_type := lph_type lp;
                           lph_font := g (lph_font lp) |}) j (layout_placeholders l) |}.

(** An assignment to an attribute of such a font. *)
Definition set_layout_font (ref : nat * nat) (g : Font -> Font) : M Presentation unit :=
  modify (fun prs =>
            set_layouts (alter (alter_layout_font g (snd ref)) (fst ref) (slide_layouts prs)) prs).

(** [customize_slide_master(prs)]. *)
Definition customize_slide_master : M Presentation unit :=
  modify (set_background (SolidFill None)) ;;;                 (* fill.solid() *)
  modify (set_background (SolidFill (Some LIGHT_BLUE))) ;;;
  title_style <- layout_placeholder_font 0 0 ;;
  set_layout_font title_style (with_name "Arial") ;;;
  set_layout_font title_style (with_size (Pt 44)) ;;;
  set_layout_font title_style (with_color DARK_BLUE) ;;;
  body_style <- layout_placeholder_font 1 1 ;;
  set_layout_font body_style (with_name "Arial") ;;;
  set_layout_font body_style (with_size (Pt 18)) ;;;
  set_layout_font body_style (with_color (0, 0, 0)).

(** [prs.save(path)]: the presentation as it is now is written to [path]. *)
Definition save (path : string) : M (world * Presentation) unit :=
  fun s =>
    match fs (fst s) !! path with
    | Some Dir => (Raised (IsADirectoryError path), s)
    | _ => (Returned tt, (set_fs (<[path := File (Deck (snd s))]> (fs (fst s))) (fst s), snd s))
    end.

(** The layouts of the template [Presentation()] starts from. *)
Definition layout_ph (idx : nat) (ty : ph_type) : LayoutPlaceholder :=
  {| lph_idx := idx; lph_type := ty; lph_font := inherited_font |}.

Definition footers : list LayoutPlaceholder :=
  [layout_ph 10 PhDate; layout_ph 11 PhFooter; layout_ph 12 PhSlideNumber].

Definition default_layouts : list SlideLayout :=
  [ {| layout_name := "Title Slide";
       layout_placeholders := layout_ph 0 PhCenterTitle :: layout_ph 1 PhSubtitle :: footers |};
    {| layout_name := "Title and Content";
       layout_placeholders := layout_ph 0 PhTitle :: layout_ph 1 PhObject :: footers |};
    {| layout_name := "Section Header";
       layout_placeholders := layout_ph 0 PhTitle :: layout_ph 1 PhBody :: footers |};
    {| layout_name := "Two Content";
       layout_placeholders :=
         layout_ph 0 PhTitle :: layout_ph 1 PhObject :: layout_ph 2 PhObject :: footers |};
    {| layout_name := "Comparison";
       layout_placeholders :=
         layout_ph 0 PhTitle :: layout_ph 1 PhBody :: layout_ph 2 PhObject
           :: layout_ph 3 PhBody :: layout_ph 4 PhObject :: footers |};
    {| layout_name := "Title Only";
       layout_placeholders := layout_ph 0 PhTitle :: footers |};
    {| layout_name := "Blank"; layout_placeholders := footers |};
    {| layout_name := "Content with Caption";
       layout_placeholders :=
         layout_ph 0 PhTitle :: layout_ph 1 PhObject :: layout_ph 2 PhBody :: footers |};
    {| layout_name := "Picture with Caption";
       layout_placeholders :=
         layout_ph 0 PhTitle :: layout_ph 1 PhPicture :: layout_ph 2 PhBody :: footers |};
    {| layout_name := "Title and Vertical Text";
       layout_placeholders := layout_ph 0 PhTitle :: layout_ph 1 PhBody :: footers |};
    {| layout_name := "Vertical Title and Text";
       layout_placeholders := layout_ph 0 PhTitle :: layout_ph 1 PhBody :: footers |} ].

(** [Presentation()]: the default template, without slides. *)
Definition new_presentation : Presentation :=
  {| master_background := InheritedFill;
     slide_layouts := default_layouts;
     slides := [] |}.

(** *** The chart directory and the names of its files *)

(** The name of [k] inside the directory [dir], when [k] is an entry of
    [dir] itself. *)
Fixpoint strip_prefix (p s : string) : option string :=
  match p, s with
  | EmptyString, _ => Some s
  | String a p', String b s' => if Ascii.eqb a b then strip_prefix p' s' else None
  | String _ _, EmptyString => None
  end.

Definition entry_name (dir k : string) : option string :=
  match strip_prefix (dir ++ "/") k with
  | Some name =>
      if negb (String.eqb name "") && negb (contains_char SLASH name)
      then Some name else None
  | None => None
  end.

Definition is_entry (dir k : string) : bool :=
  bool_decide (is_Some (entry_name dir k)).

(** The paths of the entries of [dir], in no particular order. *)
Definition entries (f : gmap string node) (dir : string) : list string :=
  map fst (map_to_list (filter (fun kv => is_entry dir (fst kv) = true) f)).

(** [Path(dir).iterdir()]: the entries in the order the operating system
    enumerates them. *)
Definition iterdir (dir : string) : M world (list string) :=
  fun w =>
    match fs w !! dir with
    | Some Dir => (Returned (enumerate (entries (fs w) dir)), w)
    | Some (File _) => (Raised (NotADirectoryError dir), w)
    | None => (Raised (missing_path_error (fs w) dir), w)
    end.

(** [path.stem]: the final component without its last suffix; a dot that
    starts or ends the name starts no suffix. *)
Definition stem (path : string) : string :=
  let name := basename path in
  match rfind DOT name with
  | Some i => if (0 <? i)%nat && (i <? String.length name - 1)%nat
              then substring 0 i name else name
  | None => name
  end.

(** [s.replace(a, b)] for single characters. *)
Fixpoint replace_char (a b : ascii) (s : string) : string :=
  match s with
  | EmptyString => EmptyString
  | String c s' => String (if Ascii.eqb c a then b else c) (replace_char a b s')
  end.

Definition is_upper (c : ascii) : bool :=
  let n := nat_of_ascii c in (65 <=? n)%nat && (n <=? 90)%nat.
Definition is_lower (c : ascii) : bool :=
  let n := nat_of_ascii c in (97 <=? n)%nat && (n <=? 122)%nat.
Definition to_upper (c : ascii) : ascii :=
  if is_lower c then ascii_of_nat (nat_of_ascii c - 32) else c.
Definition to_lower (c : ascii) : ascii :=
  if is_upper c then ascii_of_nat (nat_of_ascii c + 32) else c.

(** [s.title()]: a letter that follows a letter is lower-cased, any other
    letter is upper-cased. *)
Fixpoint title_from (previous_is_cased : bool) (s : string) : string :=
  match s with
  | EmptyString => EmptyString
  | String c s' =>
      if is_upper c || is_lower c
      then String (if previous_is_cased then to_lower c else to_upper c) (title_from true s')
      else String c (title_from false s')
  end.
Definition title_case (s : string) : string := title_from false s.

(** [img_path.stem.replace('_', ' ').title()]. *)
Definition slide_title (img_path : string) : string :=
  title_case (replace_char UNDERSCORE SPACE (stem img_path)).

End Deck.

(** ** The script *)

Section Main.
Context {P : Platform}.
Local Open Scope prog_scope.

Definition figsize_default : Q * Q := (10 # 1, 6 # 1)%Q.

(** The charts of [main] ("Generate Charts" and "Movie-specific charts"). *)
Definition generate_charts (df : DataFrame) : M world unit :=
  type_col <- lift (getitem df "type") ;;
  create_chart (SeriesData (value_counts (map snd type_col)))
    "Movies vs. TV Shows" "content_types.png" "bar" figsize_default ;;;
  country <- lift (getitem df "country") ;;
  create_chart (SeriesData (nlargest 10 (value_counts (map snd country))))
    "Top 10 Countries Producing Netflix Content" "top_countries.png" "bar" figsize_default ;;;
  year_added <- lift (getitem df "year_added") ;;
  create_chart (SeriesData (sort_index (value_counts (map snd year_added))))
    "Content Added by Year" "content_by_year.png" "line" figsize_default ;;;
  genre <- lift (getitem df "genre") ;;
  create_chart (SeriesData (nlargest 10 (value_counts (map snd genre))))
    "Top 10 Genres on Netflix" "top_genres.png" "bar" figsize_default ;;;
  (* Movie-specific charts *)
  type_col <- lift (getitem df "type") ;;
  duration_min <- lift (getitem (getitem_mask df (eq_mask type_col (Str "Movie"))) "duration_min") ;;
  create_chart (SeriesData duration_min)
    "Distribution of Movie Durations" "movie_duration_dist.png" "hist" figsize_default ;;;
  type_col <- lift (getitem df "type") ;;
  create_chart (FrameData (getitem_mask df (eq_mask type_col (Str "Movie"))))
    "Movie Duration vs. Release Year" "duration_vs_year.png" "scatter" figsize_default ;;;
  create_chart (FrameData df)
    "Distribution of Content Ratings" "rating_distribution.png" "count" figsize_default.

(** The deck of [main] up to the loop's end ("Create Presentation" and "Add
    slides with images"), on the object [prs] refers to. *)
Definition build_deck : M (world * Presentation) unit :=
  on_prs (add_title_slide "Netflix Content Analysis"
            "Insights from the Netflix Movies and TV Shows Dataset") ;;;
  (* Add slides with images *)
  img_paths <- on_world (iterdir "img/slides") ;;
  for_each img_paths (fun img_path =>
    add_content_slide (slide_title img_path) img_path).

(** [main()]. *)
Definition main : M world unit :=
  logger_info "Starting Netflix content analysis..." ;;;
  (* Load and clean data *)
  df <- load_and_clean_data "./data/netflix_titles.csv" ;;
  (* Generate Charts *)
  generate_charts df ;;;
  (* Create Presentation *)
  with_presentation new_presentation
    (build_deck ;;;
     (* Save the presentation *)
     save "Netflix_Content_Analysis.pptx" ;;;
     on_world (logger_info "Presentation saved as Netflix_Content_Analysis.pptx") ;;;
     (* Customize and Save Themed Presentation *)
     on_prs customize_slide_master ;;;
     save "Netflix_Content_Analysis_Themed.pptx" ;;;
     on_world (logger_info
       "Themed presentation saved as Netflix_Content_Analysis_Themed.pptx")).

End Main.

(** ** A platform to run on

    One choice for what [Platform] leaves open, simple enough to compute
    with: dates written [Month D, YYYY] as in the Netflix data, counts in the
    order of first occurrence with the larger count first, columns of digit
    runs read as numbers, a renderer that draws every call, the file formats
    of matplotlib by extension, paths refused for a NUL character or an
    over-long component, and an enumeration of a directory in the order
    [map_to_list] gives. *)
Module Sample.

Definition months : list string :=
  ["January"; "February"; "March"; "April"; "May"; "June"; "July";
   "August"; "September"; "October"; "November"; "December"].

Fixpoint strip_spaces (s : string) : string :=
  match s with
  | String c s' => if Ascii.eqb c SPACE then strip_spaces s' else s
  | EmptyString => EmptyString
  end.

(** [Month D, YYYY], leading spaces allowed. *)
Definition parse_year (s : string) : option Z :=
  match split_on SPACE (strip_spaces s) with
  | [month; day; year] =>
      if existsb (String.eqb month) months
         && negb (String.eqb (take_digits day) "")
         && String.eqb day (take_digits day ++ ",")
         && (String.length year =? 4)%nat
         && forallb is_digit (list_ascii_of_string year)
      then Some (int_of_digits year) else None
  | _ => None
  end.

Fixpoint count_into (v : cell) (acc : list (cell * Z)) : list (cell * Z) :=
  match acc with
  | [] => [(v, 1)]
  | (u, n) :: acc' => if decide (u = v) then (u, n + 1) :: acc'
                      else (u, n) :: count_into v acc'
  end.

Fixpoint insert_by_count (x : cell * Z) (l : list (cell * Z)) : list (cell * Z) :=
  match l with
  | [] => [x]
  | y :: l' => if snd y <? snd x then x :: l else y :: insert_by_count x l'
  end.

Definition value_counts (values : list cell) : Series :=
  map (fun x => (fst x, Int (snd x)))
      (fold_right insert_by_count []
         (fold_left (fun acc v => count_into v acc) values [])).

Definition cell_lt (a b : cell) : bool :=
  match a, b with
  | Int m, Int n => m <? n
  | Str s, Str t => String.ltb s t
  | _, _ => false
  end.

Fixpoint insert_by_label (x : cell * cell) (l : Series) : Series :=
  match l with
  | [] => [x]
  | y :: l' => if cell_lt (fst x) (fst y) then x :: l else y :: insert_by_label x l'
  end.

Fixpoint insert_by_value (x : cell * cell) (l : Series) : Series :=
  match l with
  | [] => [x]
  | y :: l' => if cell_lt (snd y) (snd x) then x :: l else y :: insert_by_value x l'
  end.

Definition nlargest (n : nat) (s : Series) : Series :=
  firstn n (fold_right insert_by_value [] s).

Definition sort_index (s : Series) : Series :=
  fold_right insert_by_label [] s.

(** A column stays text unless its fields are there and are all runs of
    digits. *)
Definition is_number_text (s : string) : bool :=
  negb (String.eqb s "") && all_digits s.

Definition reads_as_text (col : list (option string)) : bool :=
  match omap id col with
  | [] => bool_decide (col = [])
  | present => negb (forallb is_number_text present)
  end.

(** A number counts nanoseconds from the start of 1970: below 365 days of
    them the year is 1970, beyond it is taken by the mean length of a
    year. *)
Definition number_year (s : string) : option Z :=
  if is_number_text s
  then let n := int_of_digits s in
       if n <? 31536000000000000 then Some 1970
       else Some (1970 + n / 31556952000000000)
  else None.

(** The formats matplotlib writes, by file-name extension. *)
Definition supported_formats : list string :=
  ["eps"; "jpeg"; "jpg"; "pdf"; "pgf"; "png"; "ps"; "raw"; "rgba"; "svg"; "svgz";
   "tif"; "tiff"; "webp"].

Fixpoint lower (s : string) : string :=
  match s with
  | EmptyString => EmptyString
  | String c s' => String (to_lower c) (lower s')
  end.

Definition save_error (path : string) : option exn :=
  let format := lower (extension path) in
  if existsb (String.eqb format) supported_formats then None
  else Some (ValueError ("Format " ++ py_repr format ++ " is not supported (supported formats: "
                         ++ "eps, jpeg, jpg, pdf, pgf, png, ps, raw, rgba, svg, svgz, tif, tiff, webp)")).

(** A path with a NUL character is refused, and so is one with a component
    of more than 255 characters. *)
Definition path_refused (path : string) : option exn :=
  if contains_char (ascii_of_nat 0) path
  then Some (ValueError "embedded null byte")
  else if existsb (fun c => (255 <? String.length c)%nat) (split_on SLASH path)
       then Some (OSError ("[Errno 36] File name too long: " ++ py_repr path))
       else None.

Lemma path_refused_other path e :
  path_refused path = Some e -> is_FileNotFoundError e = false.
Proof.
  unfold path_refused.
  destruct (contains_char _ path); [now intros [= <-] |].
  destruct (existsb _ _); [now intros [= <-] | discriminate].
Qed.

Definition platform : Platform :=
  Build_Platform parse_year number_year value_counts nlargest sort_index reads_as_text
    (fun _ => true) save_error path_refused path_refused_other
    id (fun l => Permutation_refl l).

(** The path [main] reads. *)
Definition INPUT : string := "./data/netflix_titles.csv".

Definition sample_header : list string :=
  ["type"; "duration"; "listed_in"; "date_added"; "country"; "rating"; "release_year"].

(** Five records, one of them without a country. *)
Definition sample_csv : csv :=
  {| header := sample_header;
     records :=
       [ [Some "Movie"; Some "90 min"; Some "Dramas, International Movies";
          Some "September 25, 2021"; Some "India"; Some "PG-13"; Some "2020"];
         [Some "TV Show"; Some "2 Seasons"; Some "Crime TV Shows";
          Some " August 4, 2017"; Some "United States"; Some "TV-MA"; Some "2017"];
         [Some "Movie"; Some "104 min"; Some "Comedies";
          Some "January 1, 2019"; None; Some "R"; Some "2018"];
         [Some "Movie"; Some "125 min"; Some "Dramas";
          Some "March 3, 2020"; Some "India"; Some "PG-13"; Some "2019"];
         [Some "TV Show"; Some "1 Season"; Some "Kids' TV";
          Some "July 7, 2018"; Some "Japan"; Some "TV-Y"; Some "2018"] ] |}.

Definition sample_world : world :=
  {| fs := {[ INPUT := File (Csv sample_csv) ]};
     log := []; sns_style := None; figures := [] |}.

(** A file whose only record has a date that is none. *)
Definition bad_date_record : list (option string) :=
  [Some "Movie"; Some "90 min"; Some "Dramas"; Some "not a date";
   Some "India"; Some "PG-13"; Some "2020"].

Definition bad_date_csv : csv :=
  {| header := sample_header; records := [bad_date_record] |}.

Definition bad_date_world : world :=
  {| fs := {[ INPUT := File (Csv bad_date_csv) ]};
     log := []; sns_style := None; figures := [] |}.

(** A file whose dates are plain numbers. *)
Definition numeric_dates_csv : csv :=
  {| header := sample_header;
     records :=
       [ [Some "Movie"; Some "90 min"; Some "Dramas"; Some "5";
          Some "India"; Some "PG-13"; Some "2020"];
         [Some "Movie"; Some "104 min"; Some "Comedies"; Some "7";
          Some "Japan"; Some "R"; Some "2018"] ] |}.

Definition numeric_dates_world : world :=
  {| fs := {[ INPUT := File (Csv numeric_dates_csv) ]};
     log := []; sns_style := None; figures := [] |}.

(** A world without any file. *)
Definition empty_world : world :=
  {| fs := ∅; log := []; sns_style := None; figures := [] |}.

(** A world in which [./data] is a regular file, not a directory. *)
Definition blocked_world : world :=
  {| fs := {[ "./data" := File (Csv sample_csv) ]};
     log := []; sns_style := None; figures := [] |}.

(** A file of two movies: the duration of one does not start with its
    number, that of the other is a number beyond 2^53. *)
Definition odd_durations_csv : csv :=
  {| header := sample_header;
     records :=
       [ [Some "Movie"; Some "about 125 min"; Some "Dramas";
          Some "March 3, 2020"; Some "India"; Some "PG-13"; Some "2019"];
         [Some "Movie"; Some "9007199254740993 min"; Some "Dramas";
          Some "March 3, 2020"; Some "India"; Some "PG-13"; Some "2019"] ] |}.

Definition odd_durations_world : world :=
  {| fs := {[ INPUT := File (Csv odd_durations_csv) ]};
     log := []; sns_style := None; figures := [] |}.

(** A presentation opened from a template whose only layout is blank. *)
Definition blank_template : Presentation :=
  {| master_background := InheritedFill;
     slide_layouts := [{| layout_name := "Blank"; layout_placeholders := footers |}];
     slides := [] |}.

(** A world with one chart in the chart directory. *)
Definition chart_path : string := "img/slides/content_types.png".

Definition picture_world : world :=
  {| fs := {[ chart_path := File (Image (new_figure figsize_default)) ]};
     log := []; sns_style := None; figures := [] |}.

(** A title with the control character BEL. *)
Definition bell_title : string := String (ascii_of_nat 7) EmptyString.

Definition empty_frame : DataFrame := {| columns := []; dtypes := []; rows := [] |}.

(** What the script computes on the sample. *)
Definition sample_frame : DataFrame :=
  Eval vm_compute in
    match fst (@load_and_clean_data platform INPUT sample_world) with
    | Returned df => df
    | _ => empty_frame
    end.

Definition world_after_load : world :=
  Eval vm_compute in snd (@load_and_clean_data platform INPUT sample_world).

Definition world_after_main : world :=
  Eval vm_compute in snd (@main platform sample_world).

(** The new presentation with its title slide, before and after theming. *)
Definition titled_presentation : Presentation :=
  Eval vm_compute in
    snd (add_title_slide "Netflix Content Analysis"
           "Insights from the Netflix Movies and TV Shows Dataset" new_presentation).

Definition themed_presentation : Presentation :=
  Eval vm_compute in snd (customize_slide_master titled_presentation).

(** The first row of the sample frame, a movie, and its second, a show. *)
Definition movie_row : list cell :=
  Eval vm_compute in match rows sample_frame with r :: _ => snd r | [] => [] end.

Definition show_row : list cell :=
  Eval vm_compute in match rows sample_frame with _ :: r :: _ => snd r | _ => [] end.

End Sample.

(** ** More worlds to run on *)
Module Scenarios.
Import Sample.

(** A file without the [duration] column. *)
Definition no_duration_csv : csv :=
  {| header := ["type"; "listed_in"; "date_added"];
     records := [[Some "Movie"; Some "Dramas"; Some "March 3, 2020"]] |}.

Definition no_duration_world : world :=
  {| fs := {[ INPUT := File (Csv no_duration_csv) ]};
     log := []; sns_style := None; figures := [] |}.

(** A file whose durations are plain numbers: [read_csv] makes a numeric
    column of them. *)
Definition numeric_duration_csv : csv :=
  {| header := ["type"; "duration"; "listed_in"; "date_added"];
     records := [[Some "Movie"; Some "90"; Some "Dramas"; Some "March 3, 2020"];
                 [Some "Movie"; Some "104"; Some "Comedies"; Some "January 1, 2019"]] |}.

Definition numeric_duration_world : world :=
  {| fs := {[ INPUT := File (Csv numeric_duration_csv) ]};
     log := []; sns_style := None; figures := [] |}.

(** The sample with a text file left in the chart directory. *)
Definition STRAY : string := "img/slides/notes.txt".

Definition stray_world : world :=
  {| fs := {[ INPUT := File (Csv sample_csv); "img" := Dir; "img/slides" := Dir;
              STRAY := File (Csv no_duration_csv) ]};
     log := []; sns_style := None; figures := [] |}.

Definition world_after_stray : world :=
  Eval vm_compute in snd (@main platform stray_world).

(** The sample world after a chart of no data, under a name matplotlib
    writes, under a name without an extension, and under one it has no
    format for. *)
Definition world_after_chart : world :=
  Eval vm_compute in
    snd (@create_chart platform (SeriesData []) "Shares" "shares.png" "bar"
           figsize_default sample_world).

Definition world_after_bare_chart : world :=
  Eval vm_compute in
    snd (@create_chart platform (SeriesData []) "Shares" "shares" "bar"
           figsize_default sample_world).


(** A world in which [img/slides.png] is a directory. *)
Definition png_directory_world : world :=
  {| fs := {[ "img/slides.png" := Dir ]};
     log := []; sns_style := None; figures := [] |}.


(** The layout of the default template that [add_content_slide] uses. *)
Definition title_only : SlideLayout :=
  {| layout_name := "Title Only"; layout_placeholders := layout_ph 0 PhTitle :: footers |}.

(** A presentation opened from a template with that layout only. *)
Definition title_only_template : Presentation :=
  {| master_background := InheritedFill; slide_layouts := [title_only]; slides := [] |}.

End Scenarios.

(** ** The specification's wording

    Definitions that follow the words of the specification, to be compared
    with what the script computes. *)

(** The text before the first occurrence of a character. *)
Fixpoint before_char (sep : ascii) (s : string) : string :=
  match s with
  | EmptyString => EmptyString
  | String c s' => if Ascii.eqb c sep then EmptyString else String c (before_char sep s')
  end.

(** "The prefix of the listed_in field up to (excluding) the first comma,
    the entire string when it contains no comma." *)
Definition prefix_before_first_comma (s : string) : string :=
  match String.index 0 "," s with
  | Some i => substring 0 i s
  | None => s
  end.

(** A text without a decimal digit, and a text that starts with one. *)
Definition digit_free (s : string) : bool :=
  forallb (fun c => negb (is_digit c)) (list_ascii_of_string s).

Definition starts_with_digit (s : string) : bool :=
  match s with
  | String c _ => is_digit c
  | EmptyString => false
  end.

(** "The leading integer of the duration text": the number its leading
    digits denote, when it starts with a digit. *)
Definition leading_integer (s : string) : option Z :=
  match take_digits s with
  | EmptyString => None
  | ds => Some (int_of_digits ds)
  end.

(** The cell a row holds in the column called [name]. *)
Definition cell_at (df : DataFrame) (name : string) (cs : list cell) : cell :=
  match position name (columns df) with
  | Some i => nth i cs NaN
  | None => NaN
  end.

(** A record of a CSV file with a missing value in some column. *)
Definition record_incomplete (t : csv) (r : list (option string)) : bool :=
  existsb (fun f => bool_decide (f = None)) (fields (length (header t)) r).


(** The cells of a row once the column [name] holds [v]. *)
Definition set_cell (df : DataFrame) (name : string) (v : cell) (cs : list cell)
    : list cell :=
  match position name (columns df) with
  | Some i => <[i := v]> cs
  | None => (cs ++ [v])%list
  end.

(** Every row has one cell per column. *)
Definition wf_frame (df : DataFrame) : Prop :=
  Forall (fun r => length (snd r) = length (columns df)) (rows df).

(** What [.str.extract('(\d+)').astype(float)] makes of a cell. *)
Definition minutes_cell (c : cell) : cell :=
  match c with
  | Str t => match search_digits t with
             | Some ds => Float (float_of_Z (int_of_digits ds))
             | None => NaN
             end
  | _ => NaN
  end.

(** What [.str.split(',').str[0]] makes of a cell. *)
Definition genre_cell (c : cell) : cell :=
  match c with
  | Str t => Str (before_char "," t)
  | _ => NaN
  end.

(** The columns [load_and_clean_data] reads. *)
Definition has_columns (t : csv) : Prop :=
  is_Some (position "type" (header t)) /\
  is_Some (position "duration" (header t)) /\
  is_Some (position "listed_in" (header t)) /\
  is_Some (position "date_added" (header t)).

(** [read_csv] keeps the column called [name] as text, when there is
    one. *)
Definition text_column {P : Platform} (t : csv) (name : string) : Prop :=
  forall j, position name (header t) = Some j -> column_dtype t j = object.

(** It keeps as text the columns the script treats as text. *)
Definition text_columns {P : Platform} (t : csv) : Prop :=
  text_column t "duration" /\ text_column t "listed_in" /\ text_column t "date_added".

(** No record has more fields than the header has columns. *)
Definition rectangular (t : csv) : Prop :=
  existsb (too_long (length (header t))) (records t) = false.

(** The date of every complete record can be parsed. *)
Definition dates_parse {P : Platform} (t : csv) : Prop :=
  forall r i s,
    In r (records t) -> record_incomplete t r = false ->
    position "date_added" (header t) = Some i ->
    nth i r None = Some s -> is_Some (parse_year s).

(** The frame after "Convert duration to minutes for movies". *)
Definition with_minutes (df : DataFrame) : DataFrame :=
  setitem df "duration_min" numeric
    (map (fun r => (fst r, minutes_cell (cell_at df "duration" (snd r))))
         (List.filter (fun r => bool_decide (cell_at df "type" (snd r) = Str "Movie"))
                      (rows df))).

(** The frame after "Add 'genre' column". *)
Definition with_genre (df : DataFrame) : DataFrame :=
  setitem df "genre" object
    (map (fun r => (fst r, genre_cell (cell_at df "listed_in" (snd r)))) (rows df)).

(** The [date_added] column as a Series. *)
Definition date_series (df : DataFrame) : Series :=
  map (fun r => (fst r, cell_at df "date_added" (snd r))) (rows df).

(** The minutes a row gets: those of its duration when it is a movie. *)
Definition minutes_of (df : DataFrame) (cs : list cell) : cell :=
  if bool_decide (cell_at df "type" cs = Str "Movie")
  then minutes_cell (cell_at df "duration" cs)
  else NaN.

(** A pure step that neither exits nor raises [FileNotFoundError]. *)
Definition pure_calm {A} (o : outcome A) : Prop :=
  match o with
  | Returned _ => True
  | Raised e => is_FileNotFoundError e = false
  | Exited _ => False
  end.

(** The same for a step on the world, which moreover leaves the world as it
    was when it raises. *)
Definition calm {A} (w : world) (r : outcome A * world) : Prop :=
  match r with
  | (Returned _, _) => True
  | (Raised e, w') => is_FileNotFoundError e = false /\ w' = w
  | (Exited _, _) => False
  end.

(** The world after the failed load: one more line in the log. *)
Definition after_load_error (path : string) (w : world) : world :=
  set_log (log w ++ [(ERROR, ("Error loading data: "
                               ++ exn_message (FileNotFoundError path))%string)])%list w.

(** What [create_chart] sets on the figure after the plotting branch. *)
Definition decorate (title : string) (fg : figure) : figure :=
  {| fig_size := fig_size fg; fig_plot := fig_plot fg;
     fig_title := Some (title, 16); fig_xlabel := Some EmptyString;
     fig_xticks_rotation := Some 45; fig_tight := true |}.

(** The chart directory can be made, or is there already. *)
Definition chart_dir_available (f : gmap string node) : Prop :=
  match f !! "img/slides" with
  | Some Dir => True
  | Some (File _) => False
  | None => match f !! "img" with
            | Some (File _) => False
            | _ => True
            end
  end.

Definition code_kinds : list string := ["bar"; "line"; "hist"; "scatter"; "count"].

(** The path under which [create_chart] writes the chart [filename]: what
    matplotlib makes of [img/slides/filename]. *)
Definition chart_target (filename : string) : string :=
  savefig_target (path_join "img/slides" filename).

(** The image a run of [create_chart] has left under the chart's path. *)
Definition saved_chart (w : world) (filename : string) : option figure :=
  match fs w !! chart_target filename with
  | Some (File (Image fg)) => Some fg
  | _ => None
  end.

(** [create_chart] from the title on: what follows the plotting branch. *)
Definition finish_chart {P : Platform} (title filename : string) : M world unit :=
  (plt_title title 16 ;;;
   plt_xlabel "" ;;;
   plt_xticks 45 ;;;
   plt_tight_layout ;;;
   mkdir_parents "img" "slides" ;;;
   plt_savefig (path_join "img/slides" filename) ;;;
   logger_info ("Saved chart: " ++ filename) ;;;
   plt_close)%prog.

(** The [if]/[elif] chain of [create_chart]. *)
Definition plot_branch {P : Platform} (data : chart_data) (kind : string) : M world unit :=
  if String.eqb kind "bar" then
    draw (barplot (data_index data) (data_values data))
  else if String.eqb kind "line" then
    draw (lineplot (data_index data) (data_values data))
  else if String.eqb kind "hist" then
    draw (histplot data true)
  else if String.eqb kind "scatter" then
    draw (scatterplot data "release_year" "duration_min")
  else if String.eqb kind "count" then
    bind (lift (rating_order data)) (fun order => draw (countplot data "rating" order))
  else ret tt.

Definition with_plot (p : plot_call) (fg : figure) : figure :=
  {| fig_size := fig_size fg; fig_plot := Some p;
     fig_title := fig_title fg; fig_xlabel := fig_xlabel fg;
     fig_xticks_rotation := fig_xticks_rotation fg;
     fig_tight := fig_tight fg |}.

(** The placeholder [j] of the layout [i]. *)
Definition placeholder_at (prs : Presentation) (i j : nat) : option LayoutPlaceholder :=
  match slide_layouts prs !! i with
  | Some l => layout_placeholders l !! j
  | None => None
  end.

(** The two placeholders [customize_slide_master] styles. *)
Definition styled (i j : nat) : Prop :=
  (i = 0%nat /\ j = 0%nat) \/ (i = 1%nat /\ j = 1%nat).

(** What a step of [customize_slide_master] may change: the background of
    the master and the fonts of the two styled placeholders.  The slides,
    the layouts' names, every other placeholder, and the idx and type of
    every placeholder stay as they are. *)
Definition theme_frame (prs prs' : Presentation) : Prop :=
  slides prs' = slides prs /\
  map layout_name (slide_layouts prs') = map layout_name (slide_layouts prs) /\
  (forall i j, ~ styled i j -> placeholder_at prs' i j = placeholder_at prs i j) /\
  (forall i j, option_map (fun lp => (lph_idx lp, lph_type lp)) (placeholder_at prs' i j)
               = option_map (fun lp => (lph_idx lp, lph_type lp)) (placeholder_at prs i j)).

(** The font a title run shows: what the slide sets directly wins over what
    the layout's title placeholder provides. *)
Definition effective_font (direct inherited : Font) : Font :=
  {| font_name := match font_name direct with Some n => Some n | None => font_name inherited end;
     font_size := match font_size direct with Some z => Some z | None => font_size inherited end;
     font_color := match font_color direct with Some c => Some c | None => font_color inherited end |}.

(** The text python-pptx gives back for a text assigned to a shape. *)
Definition stored_text (text : string) : string :=
  text_of_paragraphs (paragraphs_of_text text).

(** A text without the control characters python-pptx escapes. *)
Definition plain_text (text : string) : bool :=
  forallb (fun c => negb (is_escaped_ctrl c)) (list_ascii_of_string text).

(** The shape [slide.placeholders[idx]] (for idx 0: [slide.shapes.title]). *)
Definition placeholder_shape (sl : Slide) (idx : nat) : option Shape :=
  match find_index (is_placeholder_idx idx) (shapes sl) with
  | Some pos => shapes sl !! pos
  | None => None
  end.

(** Its text. *)
Definition placeholder_text (sl : Slide) (idx : nat) : option string :=
  match placeholder_shape sl idx with
  | Some sh => shape_text sh
  | None => None
  end.

(** The font set directly on the first paragraph of the title. *)
Definition title_font (sl : Slide) : option Font :=
  match placeholder_shape sl 0 with
  | Some (Placeholder _ _ (p :: _)) => Some (p_font p)
  | _ => None
  end.

Definition is_picture (sh : Shape) : bool :=
  match sh with Picture _ _ _ _ _ => true | Placeholder _ _ _ => false end.

(** The pictures of a slide, in order. *)
Definition pictures (sl : Slide) : list Shape :=
  List.filter is_picture (shapes sl).

(** A layout with a placeholder of that idx which new slides take over. *)
Definition has_placeholder (l : SlideLayout) (idx : nat) : bool :=
  existsb (fun lp => Nat.eqb (lph_idx lp) idx && negb (latent (lph_type lp)))
          (layout_placeholders l).

(** The picture [add_content_slide] places. *)
Definition placed_picture (img : figure) : Shape :=
  Picture img (Inches 1 1) (Inches 3 2) (Inches 8 1) (Inches 11 2).

(** What the image file under a path holds, when it is one. *)
Definition image_at (w : world) (path : string) : option figure :=
  match fs w !! path with
  | Some (File (Image img)) => Some img
  | _ => None
  end.

(** A content slide made for the image file under [path]. *)
Definition content_slide_for (w : world) (path : string) (sl : Slide) : Prop :=
  exists img,
    image_at w path = Some img /\
    slide_layout sl = 5%nat /\
    placeholder_text sl 0 = Some (stored_text (slide_title path)) /\
    pictures sl = [placed_picture img].

(** The file names of the charts [main] writes. *)
Definition chart_files : list string :=
  ["content_types.png"; "top_countries.png"; "content_by_year.png"; "top_genres.png";
   "movie_duration_dist.png"; "duration_vs_year.png"; "rating_distribution.png"].

(** A world in which [main] can write its charts and its two documents:
    the chart directory is there or can be made, what it holds already are
    readable images, and no directory is in the way of a file. *)
Definition writable (w : world) : Prop :=
  chart_dir_available (fs w) /\
  (forall f, In f chart_files -> fs w !! path_join "img/slides" f <> Some Dir) /\
  (forall p, In p (entries (fs w) "img/slides") -> is_Some (image_at w p)) /\
  fs w !! "Netflix_Content_Analysis.pptx" <> Some Dir /\
  fs w !! "Netflix_Content_Analysis_Themed.pptx" <> Some Dir.

(** What one run of [create_chart] for [filename] has changed. *)
Definition charted (filename : string) (w w' : world) : Prop :=
  figures w' = figures w /\
  fs w' !! "img/slides" = Some Dir /\
  is_Some (image_at w' (chart_target filename)) /\
  (forall p, p <> chart_target filename -> p <> "img/slides" -> p <> "img" ->
     fs w' !! p = fs w !! p).

(** Whether a readable image is under a path. *)
Definition is_Some_image (w : world) (path : string) : bool :=
  match image_at w path with Some _ => true | None => false end.

(** ** Further notions

    What the further properties of the script are stated with. *)

(** The columns [load_and_clean_data] reads, in the order in which it reads
    them, and the columns it assigns. *)
Definition required_columns : list string := ["type"; "duration"; "listed_in"; "date_added"].
Definition derived_columns : list string := ["duration_min"; "genre"; "year_added"].

(** Whether a list of column names lacks a name. *)
Definition lacks (cols : list string) (name : string) : bool :=
  match position name cols with
  | None => true
  | Some _ => false
  end.

(** The first of the columns read that a file has not. *)
Definition first_missing (t : csv) : option string :=
  List.find (lacks (header t)) required_columns.

(** What the script finds wrong with the column called [name], if
    anything: the file has none of that name, or the script uses [.str] on
    it and [read_csv] has not kept it as text. *)
Definition column_refusal {P : Platform} (t : csv) (name : string) (uses_str : bool)
    : option exn :=
  match position name (header t) with
  | None => Some (KeyError name)
  | Some j =>
      match column_dtype t j with
      | object => None
      | numeric => if uses_str then Some StrAccessorError else None
      end
  end.

(** The first such finding, in the order in which the script uses the
    columns. *)
Definition first_refusal {P : Platform} (t : csv) : option exn :=
  match column_refusal t "type" false with
  | Some e => Some e
  | None =>
      match column_refusal t "duration" true with
      | Some e => Some e
      | None =>
          match column_refusal t "listed_in" true with
          | Some e => Some e
          | None => column_refusal t "date_added" false
          end
      end
  end.


(** Nothing outside [paths] differs between the file systems of two
    worlds. *)
Definition untouched (paths : list string) (w w' : world) : Prop :=
  forall p, ~ In p paths -> fs w' !! p = fs w !! p.

(** The paths [create_chart] may write: the chart and the two directories
    [mkdir] may make. *)
Definition chart_paths (filename : string) : list string :=
  [chart_target filename; "img/slides"; "img"].

(** The world once [create_chart] has opened its figure and set the
    style. *)
Definition chart_opened (figsize : Q * Q) (w : world) : world :=
  set_style (Some "whitegrid") (set_figures (new_figure figsize :: figures w) w).

(** The exception [add_picture] raises for what is under a path that holds
    no readable image. *)
Definition image_error {P : Platform} (w : world) (path : string) : exn :=
  match fs w !! path with
  | None => missing_path_error (fs w) path
  | Some Dir => IsADirectoryError path
  | Some (File _) => UnidentifiedImageError path
  end.

(** The slide [add_slide] makes from a layout, before anything is set on
    it. *)
Definition fresh_slide (layout : nat) (l : SlideLayout) : Slide :=
  {| slide_layout := layout; shapes := new_shapes (layout_placeholders l) |}.

(** What a step on the presentation may do to it: add slides after those
    that are there, at most [n] of them; the master and the layouts stay. *)
Definition appends_at_most (n : nat) (prs prs' : Presentation) : Prop :=
  master_background prs' = master_background prs /\
  slide_layouts prs' = slide_layouts prs /\
  exists extra, slides prs' = (slides prs ++ extra)%list /\ (length extra <= n)%nat.

(** The fonts [customize_slide_master] gives the title style and the body
    style. *)
Definition title_style : Font :=
  {| font_name := Some "Arial"; font_size := Some (Pt 44); font_color := Some DARK_BLUE |}.
Definition body_style : Font :=
  {| font_name := Some "Arial"; font_size := Some (Pt 18); font_color := Some (0, 0, 0) |}.

(** The layouts with the title style set. *)
Definition title_styled (ls : list SlideLayout) : list SlideLayout :=
  alter (alter_layout_font (fun _ => title_style) 0) 0%nat ls.

(** The presentation with the theme applied. *)
Definition themed (prs : Presentation) : Presentation :=
  set_layouts
    (alter (alter_layout_font (fun _ => body_style) 1) 1%nat (title_styled (slide_layouts prs)))
    (set_background (SolidFill (Some LIGHT_BLUE)) prs).

(** A computation that does not look at what a change [T] of the state
    changes: run after [T], it ends the same way, in the state [T] makes of
    the one it ends in otherwise. *)
Definition unaware {S A} (T : S -> S) (m : M S A) : Prop :=
  forall s, m (T s) = (fst (m s), T (snd (m s))).

(** A change of the presentation, seen on the script's state. *)
Definition on_deck (T : Presentation -> Presentation) (s : world * Presentation)
    : world * Presentation :=
  (fst s, T (snd s)).

(** The shapes a new slide takes from the layout [i]. *)
Definition layout_shapes (prs : Presentation) (i : nat) : option (list Shape) :=
  option_map (fun l => new_shapes (layout_placeholders l)) (slide_layouts prs !! i).

(** The names of the two documents [main] saves. *)
Definition PLAIN_DECK : string := "Netflix_Content_Analysis.pptx".
Definition THEMED_DECK : string := "Netflix_Content_Analysis_Themed.pptx".

(** The paths of the charts, and all the paths [main] may write. *)
Definition chart_file_paths : list string := map (path_join "img/slides") chart_files.
Definition generated_paths : list string := ("img/slides" :: "img" :: chart_file_paths)%list.
Definition main_paths : list string := (PLAIN_DECK :: THEMED_DECK :: generated_paths)%list.

(** A readable image is under the path of each of these chart files. *)
Definition has_charts (files : list string) (w : world) : Prop :=
  forall f, In f files -> is_Some (image_at w (path_join "img/slides" f)).

(** The lines of the log of a run of [main] that returns. *)
Definition chart_lines : list (level * string) :=
  map (fun f => (INFO, ("Saved chart: " ++ f)%string)) chart_files.
Definition main_lines : list (level * string) :=
  ((INFO, "Starting Netflix content analysis...")
   :: (INFO, "Data loaded and cleaned successfully.")
   :: chart_lines
   ++ [(INFO, "Presentation saved as Netflix_Content_Analysis.pptx");
       (INFO, "Themed presentation saved as Netflix_Content_Analysis_Themed.pptx")])%list.

(** Every run of the computation relates the state before to the state
    after. *)
Definition keeps {S A} (R : S -> S -> Prop) (m : M S A) : Prop :=
  forall s o s', m s = (o, s') -> R s s'.

(** No run of the computation ends the process. *)
Definition never_exits {S A} (m : M S A) : Prop :=
  forall s o s' c, m s = (o, s') -> o <> Exited c.

(** The world is the same, for a state with a presentation. *)
Definition same_world (s s' : world * Presentation) : Prop := fst s' = fst s.

(** Nothing outside [paths] differs, for a state with a presentation. *)
Definition deck_untouched (paths : list string) (s s' : world * Presentation) : Prop :=
  untouched paths (fst s) (fst s').

(** The block of [main] in which the presentation is built and saved. *)
Definition deck_block {P : Platform} : M (world * Presentation) unit :=
  (build_deck ;;;
   save "Netflix_Content_Analysis.pptx" ;;;
   on_world (logger_info "Presentation saved as Netflix_Content_Analysis.pptx") ;;;
   on_prs customize_slide_master ;;;
   save "Netflix_Content_Analysis_Themed.pptx" ;;;
   on_world (logger_info
     "Themed presentation saved as Netflix_Content_Analysis_Themed.pptx"))%prog.

(** * Properties *)

(** ** Running a computation *)

Lemma bind_returned {S A B} (m : M S A) (k : A -> M S B) s a s1 :
  m s = (Returned a, s1) -> bind m k s = k a s1.
Proof. intros Hm. unfold bind. now rewrite Hm. Qed.

Lemma bind_raised {S A B} (m : M S A) (k : A -> M S B) s e s1 :
  m s = (Raised e, s1) -> bind m k s = (Raised e, s1).
Proof. intros Hm. unfold bind. now rewrite Hm. Qed.

Lemma bind_exited {S A B} (m : M S A) (k : A -> M S B) s c s1 :
  m s = (Exited c, s1) -> bind m k s = (Exited c, s1).
Proof. intros Hm. unfold bind. now rewrite Hm. Qed.

(** A sequence that returns has returned at each step. *)
Lemma bind_inv {S A B} (m : M S A) (k : A -> M S B) s b s2 :
  bind m k s = (Returned b, s2) ->
  exists a s1, m s = (Returned a, s1) /\ k a s1 = (Returned b, s2).
Proof.
  unfold bind. destruct (m s) as [[a | e | c] s1]; intros Hk; try discriminate.
  exists a, s1. split; [reflexivity | exact Hk].
Qed.

Lemma Returned_inj {A} (a b : A) : Returned a = Returned b -> a = b.
Proof. now intros [=]. Qed.

Lemma lift_inv {S A} (o : outcome A) (s s' : S) a :
  lift o s = (Returned a, s') -> o = Returned a /\ s' = s.
Proof. unfold lift. intros Heq. inversion Heq. split; reflexivity. Qed.

(** A pure step that has returned is passed over. *)
Ltac step_lift :=
  match goal with
  | |- context [bind (lift (Returned ?a)) ?k ?s] =>
      change (bind (lift (Returned a)) k s) with (k a s); cbv beta
  end.

(** ** Text *)

Lemma split_on_nonempty sep s : split_on sep s <> [].
Proof.
  destruct s as [| c s]; simpl; [discriminate |].
  destruct (Ascii.eqb c sep); [discriminate |].
  destruct (split_on sep s); discriminate.
Qed.

Lemma hd_split_on sep s : hd EmptyString (split_on sep s) = before_char sep s.
Proof.
  induction s as [| c s IH]; simpl; [reflexivity |].
  destruct (Ascii.eqb c sep); [reflexivity |].
  destruct (split_on sep s) as [| t ts] eqn:Hs.
  - now apply split_on_nonempty in Hs.
  - simpl in *. now rewrite IH.
Qed.

Lemma nth_error_split_on_0 sep s : nth_error (split_on sep s) 0 = Some (before_char sep s).
Proof.
  rewrite <- hd_split_on. destruct (split_on sep s) eqn:Hs; [| reflexivity].
  now apply split_on_nonempty in Hs.
Qed.


Lemma prefix_before_first_comma_eq s :
  prefix_before_first_comma s = before_char "," s.
Proof.
  unfold prefix_before_first_comma.
  induction s as [| c s IH]; [reflexivity |].
  cbn [String.index before_char String.prefix].
  destruct (ascii_dec "," c) as [Heq | Hne].
  - subst c. rewrite Ascii.eqb_refl.
    destruct s; reflexivity.
  - destruct (Ascii.eqb_spec c ","); [congruence |].
    destruct (String.index 0 "," s) as [i |]; cbn [substring]; now rewrite <- IH.
Qed.

Lemma take_digits_all_digits s : forallb is_digit (list_ascii_of_string (take_digits s)) = true.
Proof.
  induction s as [| c s IH]; simpl; [reflexivity |].
  destruct (is_digit c) eqn:Hc; simpl; [now rewrite Hc | reflexivity].
Qed.

Lemma search_digits_Some s ds :
  search_digits s = Some ds -> ds <> EmptyString /\ all_digits ds = true.
Proof.
  induction s as [| c s IH]; simpl; [discriminate |].
  destruct (is_digit c) eqn:Hc.
  - intros [= <-]. split; [discriminate |].
    unfold all_digits. simpl. now rewrite Hc, take_digits_all_digits.
  - exact IH.
Qed.

(** A text that starts with a digit: the first run of digits is the leading
    one. *)
Lemma search_digits_leading s :
  take_digits s <> EmptyString -> search_digits s = Some (take_digits s).
Proof.
  destruct s as [| c s]; simpl; [congruence |].
  destruct (is_digit c); congruence.
Qed.

Lemma float_of_str_digits s ds :
  search_digits s = Some ds -> float_of_str ds = Some (float_of_Z (int_of_digits ds)).
Proof.
  intros Hs. apply search_digits_Some in Hs as [Hne Hall].
  unfold float_of_str. destruct ds; [congruence |]. now rewrite Hall.
Qed.

Lemma contains_char_app c a b :
  contains_char c (a ++ b) = contains_char c a || contains_char c b.
Proof.
  induction a as [| d a IH]; simpl; [reflexivity |].
  rewrite IH. now rewrite orb_assoc.
Qed.

Lemma rfind_from_found c i found s :
  rfind_from c i found s <> found -> contains_char c s = true.
Proof.
  revert i found. induction s as [| d s IH]; simpl; intros i found Hne; [congruence |].
  destruct (Ascii.eqb d c); [reflexivity |]. simpl. now apply (IH (S i) found).
Qed.

Lemma contains_char_basename_from c acc s :
  contains_char c (basename_from acc s) = true ->
  contains_char c acc = true \/ contains_char c s = true.
Proof.
  revert acc. induction s as [| d s IH]; simpl; intros acc Hc; [now left |].
  destruct (Ascii.eqb d SLASH).
  - apply IH in Hc as [Hc | Hc]; [discriminate |]. right. rewrite Hc. apply orb_true_r.
  - apply IH in Hc as [Hc | Hc].
    + rewrite contains_char_app in Hc. apply orb_prop in Hc as [Hc | Hc]; [now left |].
      right. simpl in Hc. rewrite orb_false_r in Hc. now rewrite Hc.
    + right. rewrite Hc. apply orb_true_r.
Qed.

Lemma split_on_plain sep s : contains_char sep s = false -> split_on sep s = [s].
Proof.
  induction s as [| c s IH]; simpl; [reflexivity |].
  intros H. apply orb_false_iff in H as [Hc Hs]. rewrite Hc, (IH Hs). reflexivity.
Qed.

Lemma path_root_relative name :
  contains_char SLASH name = false -> path_root name = EmptyString.
Proof.
  destruct name as [| c rest]; [reflexivity |].
  intros H. simpl in H. apply orb_false_iff in H as [Hc _].
  destruct c as [[] [] [] [] [] [] [] []]; try reflexivity; discriminate.
Qed.

(** Joining with a plain name appends it. *)
Lemma path_join_plain parent name :
  name <> EmptyString -> name <> "." -> contains_char SLASH name = false ->
  path_join parent name = (parent ++ "/" ++ name)%string.
Proof.
  intros Hne Hdot Hslash. unfold path_join, path_parts.
  rewrite (path_root_relative name Hslash), (split_on_plain _ _ Hslash).
  cbn [List.filter].
  apply String.eqb_neq in Hne. apply String.eqb_neq in Hdot.
  rewrite Hne, Hdot. reflexivity.
Qed.

(** The path matplotlib writes always has a dot. *)
Lemma savefig_target_has_dot path : contains_char DOT (savefig_target path) = true.
Proof.
  unfold savefig_target. destruct (extension path) as [| c e] eqn:Hext.
  - rewrite contains_char_app. apply orb_true_r.
  - unfold extension in Hext.
    destruct (rfind DOT (basename path)) as [i |] eqn:Hfind; [| discriminate].
    assert (contains_char DOT (basename path) = true) as Hc.
    { apply (rfind_from_found DOT 0 None). unfold rfind in Hfind. congruence. }
    apply contains_char_basename_from in Hc as [Hc | Hc]; [discriminate | exact Hc].
Qed.

Lemma float_of_Z_exact n : n < 2 ^ 53 -> float_of_Z n = Finite n.
Proof.
  intros Hn. unfold float_of_Z.
  destruct (Z.ltb_spec n (2 ^ 53)); [reflexivity | lia].
Qed.

(** ** Frames *)

Lemma position_nth name cols i :
  position name cols = Some i -> (i < length cols)%nat /\ nth i cols EmptyString = name.
Proof.
  revert i. induction cols as [| c cols IH]; simpl; intros i; [discriminate |].
  destruct (String.eqb_spec c name) as [-> | Hne].
  - intros [= <-]. split; [lia | reflexivity].
  - destruct (position name cols) as [j |]; simpl; [| discriminate].
    intros [= <-]. destruct (IH j eq_refl) as [Hlt Hnth]. split; [lia | exact Hnth].
Qed.

Lemma position_ne n1 n2 cols i j :
  n1 <> n2 -> position n1 cols = Some i -> position n2 cols = Some j -> i <> j.
Proof.
  intros Hne H1 H2 ->.
  apply position_nth in H1 as [_ H1]. apply position_nth in H2 as [_ H2]. congruence.
Qed.

Lemma position_app_l name cols extra i :
  position name cols = Some i -> position name (cols ++ extra)%list = Some i.
Proof.
  revert i. induction cols as [| c cols IH]; simpl; intros i; [discriminate |].
  destruct (String.eqb c name); [trivial |].
  destruct (position name cols) as [j |]; simpl; [| discriminate].
  intros [= <-]. now rewrite (IH j eq_refl).
Qed.

Lemma position_app_new name cols :
  position name cols = None -> position name (cols ++ [name])%list = Some (length cols).
Proof.
  induction cols as [| c cols IH]; simpl.
  - now rewrite String.eqb_refl.
  - destruct (String.eqb c name); [discriminate |].
    destruct (position name cols); simpl; [discriminate |].
    intros _. now rewrite IH.
Qed.

Lemma position_app_other name other cols :
  other <> name -> position other cols = None ->
  position other (cols ++ [name])%list = None.
Proof.
  intros Hne. induction cols as [| c cols IH]; simpl.
  - destruct (String.eqb_spec name other); [congruence | reflexivity].
  - destruct (String.eqb c other); [discriminate |].
    destruct (position other cols); simpl; [discriminate |].
    intros _. now rewrite IH.
Qed.

Lemma rows_setitem df name dt s :
  rows (setitem df name dt s)
  = map (fun r => (fst r, set_cell df name (lookup_label (fst r) s) (snd r))) (rows df).
Proof.
  unfold setitem, set_cell. destruct (position name (columns df)); reflexivity.
Qed.

Lemma labels_setitem df name dt s : map fst (rows (setitem df name dt s)) = map fst (rows df).
Proof. rewrite rows_setitem, map_map. reflexivity. Qed.

Lemma cell_at_setitem_same df name dt s v cs :
  length cs = length (columns df) ->
  cell_at (setitem df name dt s) name (set_cell df name v cs) = v.
Proof.
  intros Hlen. unfold cell_at, setitem, set_cell.
  destruct (position name (columns df)) as [i |] eqn:Hpos; simpl.
  - rewrite Hpos. destruct (position_nth _ _ _ Hpos) as [Hlt _].
    apply nth_lookup_Some with (d := NaN). apply list_lookup_insert_eq. lia.
  - rewrite (position_app_new _ _ Hpos), <- Hlen.
    rewrite app_nth2 by lia. now rewrite Nat.sub_diag.
Qed.

Lemma cell_at_setitem_other df name dt s other v cs :
  other <> name -> length cs = length (columns df) ->
  cell_at (setitem df name dt s) other (set_cell df name v cs) = cell_at df other cs.
Proof.
  intros Hne Hlen. unfold cell_at, setitem, set_cell.
  destruct (position name (columns df)) as [i |] eqn:Hpos; simpl.
  - destruct (position other (columns df)) as [j |] eqn:Hother; [| reflexivity].
    assert (j <> i) by (eapply position_ne; eauto).
    rewrite !nth_lookup, list_lookup_insert_ne by congruence. reflexivity.
  - destruct (position other (columns df)) as [j |] eqn:Hother.
    + rewrite (position_app_l _ _ _ _ Hother).
      destruct (position_nth _ _ _ Hother) as [Hlt _].
      apply app_nth1. lia.
    + now rewrite (position_app_other _ _ _ Hne Hother).
Qed.

Lemma length_set_cell df name dt s v cs :
  length cs = length (columns df) ->
  length (set_cell df name v cs) = length (columns (setitem df name dt s)).
Proof.
  intros Hlen. unfold setitem, set_cell.
  destruct (position name (columns df)); simpl.
  - now rewrite length_insert.
  - rewrite !length_app. simpl. lia.
Qed.

Lemma wf_setitem df name dt s : wf_frame df -> wf_frame (setitem df name dt s).
Proof.
  unfold wf_frame. rewrite rows_setitem, Forall_map. intros Hwf.
  eapply Forall_impl; [exact Hwf |].
  intros r Hr. simpl. now apply (length_set_cell df name dt).
Qed.

Lemma getitem_Returned df name s :
  getitem df name = Returned s ->
  is_Some (position name (columns df)) /\
  s = map (fun r => (fst r, cell_at df name (snd r))) (rows df).
Proof.
  unfold getitem, cell_at. destruct (position name (columns df)) as [i |]; [| discriminate].
  intros [= <-]. split; [eauto | reflexivity].
Qed.

Lemma getitem_position df name i :
  position name (columns df) = Some i ->
  getitem df name = Returned (map (fun r => (fst r, cell_at df name (snd r))) (rows df)).
Proof. intros Hpos. unfold getitem, cell_at. now rewrite Hpos. Qed.

Lemma getitem_not_Exited df name c : getitem df name <> Exited c.
Proof. unfold getitem. destruct (position name (columns df)); discriminate. Qed.

(** Selecting by a mask computed from the rows keeps the rows that
    satisfy the test. *)
Lemma filter_combine_map {A} (q : A -> bool) (l : list A) :
  map fst (List.filter snd (combine l (map q l))) = List.filter q l.
Proof.
  induction l as [| x l IH]; simpl; [reflexivity |].
  destruct (q x); simpl; now rewrite IH.
Qed.

Lemma rows_getitem_mask df (h : cell * list cell -> cell) v :
  rows (getitem_mask df (eq_mask (map (fun r => (fst r, h r)) (rows df)) v))
  = List.filter (fun r => bool_decide (h r = v)) (rows df).
Proof.
  unfold getitem_mask, eq_mask. simpl. rewrite map_map. simpl.
  apply filter_combine_map.
Qed.

(** Alignment by label: with distinct labels, a row finds its own value. *)
Lemma lookup_label_filter (rws : list (cell * list cell)) (p : cell * list cell -> bool)
    (h : cell * list cell -> cell) r :
  NoDup (map fst rws) -> In r rws ->
  lookup_label (fst r) (map (fun r => (fst r, h r)) (List.filter p rws))
  = if p r then h r else NaN.
Proof.
  induction rws as [| x rws IH]; simpl; [tauto |].
  intros Hnd [-> | Hin].
  - apply NoDup_cons in Hnd as [Hnotin _].
    destruct (p r) eqn:Hp; simpl.
    + destruct (decide (fst r = fst r)); [reflexivity | congruence].
    + clear IH. induction rws as [| y rws IH]; simpl; [reflexivity |].
      assert (fst y <> fst r).
      { intros Heq. apply Hnotin. rewrite <- Heq. apply list_elem_of_In. simpl. now left. }
      assert (fst r ∉ map fst rws).
      { intros Hin. apply Hnotin. simpl. now right. }
      destruct (p y); simpl; [| now apply IH].
      destruct (decide (fst y = fst r)); [congruence | now apply IH].
  - apply NoDup_cons in Hnd as [Hnotin Hnd].
    destruct (p x); simpl; [| now apply IH].
    destruct (decide (fst x = fst r)) as [Heq | Hne]; [| now apply IH].
    exfalso. apply Hnotin. rewrite Heq. apply list_elem_of_In, in_map. exact Hin.
Qed.

Lemma lookup_label_map (rws : list (cell * list cell)) (h : cell * list cell -> cell) r :
  NoDup (map fst rws) -> In r rws ->
  lookup_label (fst r) (map (fun r => (fst r, h r)) rws) = h r.
Proof.
  intros Hnd Hin.
  pose proof (lookup_label_filter rws (fun _ => true) h r Hnd Hin) as Hf.
  simpl in Hf. rewrite <- Hf. f_equal. f_equal.
  clear. induction rws; simpl; congruence.
Qed.

Lemma labels_label_from {A} (i : Z) (l : list A) :
  map fst (label_from i l) = map (fun k => Int (i + Z.of_nat k)) (seq 0 (length l)).
Proof.
  revert i. induction l as [| x l IH]; intros i; simpl; [reflexivity |].
  rewrite IH, <- seq_shift, map_map. f_equal; [f_equal; lia |].
  apply map_ext. intros k. f_equal. lia.
Qed.

Lemma NoDup_label_from {A} (i : Z) (l : list A) : NoDup (map fst (label_from i l)).
Proof.
  rewrite labels_label_from. apply NoDup_fmap_2.
  - intros j k [=]. lia.
  - apply NoDup_ListNoDup, seq_NoDup.
Qed.

Lemma NoDup_labels_filter {A} (p : cell * A -> bool) (l : list (cell * A)) :
  NoDup (map fst l) -> NoDup (map fst (List.filter p l)).
Proof.
  induction l as [| x l IH]; simpl; [trivial |].
  intros Hnd. apply NoDup_cons in Hnd as [Hnotin Hnd].
  destruct (p x); simpl; [| now apply IH].
  apply NoDup_cons. split; [| now apply IH].
  intros Hin. apply Hnotin.
  apply list_elem_of_In in Hin. apply list_elem_of_In.
  apply in_map_iff in Hin as (y & Hy & Hin). apply in_map_iff.
  exists y. split; [exact Hy |]. apply filter_In in Hin. tauto.
Qed.

Lemma traverse_map {A B} (f : A -> outcome B) (g : A -> B) (l : list A) :
  (forall x, In x l -> f x = Returned (g x)) -> traverse f l = Returned (map g l).
Proof.
  induction l as [| x l IH]; simpl; intros Hf; [reflexivity |].
  rewrite (Hf x) by now left. rewrite IH; [reflexivity |].
  intros y Hy. apply Hf. now right.
Qed.

Lemma traverse_not_Exited {A B} (f : A -> outcome B) (l : list A) c :
  (forall x c', f x <> Exited c') -> traverse f l <> Exited c.
Proof.
  intros Hf. induction l as [| x l IH]; simpl; [discriminate |].
  destruct (f x) eqn:Hx; [| discriminate | now apply Hf in Hx].
  destruct (traverse f l); [discriminate | discriminate | congruence].
Qed.



Section PandasFacts.
Context {P : Platform}.

Lemma astype_float_extract (s : Series) :
  astype_float (str_extract_digits s)
  = Returned (map (fun r => (fst r, minutes_cell (snd r))) s).
Proof.
  unfold astype_float, str_extract_digits.
  rewrite (traverse_map _ (fun r => (fst r, match snd r with
                                             | Str ds => Float (float_of_Z (int_of_digits ds))
                                             | _ => NaN
                                             end))).
  - rewrite map_map. f_equal. apply map_ext. intros [l c]. simpl.
    destruct c as [| t | | | |]; try reflexivity.
    simpl. destruct (search_digits t); reflexivity.
  - intros [l c] Hin. apply in_map_iff in Hin as ([l' c'] & Heq & _).
    simpl in Heq. injection Heq as <- <-. simpl.
    destruct c' as [| t | | | |]; try reflexivity.
    destruct (search_digits t) as [ds |] eqn:Hs; [| reflexivity].
    now rewrite (float_of_str_digits _ _ Hs).
Qed.

Lemma genre_series (s : Series) :
  str_get 0 (str_split "," s) = map (fun r => (fst r, genre_cell (snd r))) s.
Proof.
  unfold str_get, str_split. rewrite map_map. apply map_ext. intros [l c].
  destruct c as [| t | | | |]; cbn [fst snd genre_cell]; try reflexivity.
  now rewrite nth_error_split_on_0.
Qed.

Lemma to_datetime_year_not_Exited (s : Series) c : to_datetime_year s <> Exited c.
Proof.
  unfold to_datetime_year.
  match goal with |- context [traverse ?f s] =>
    pose proof (traverse_not_Exited f s) as Hne; destruct (traverse f s) eqn:Ht end.
  - destruct (forallb _ _); discriminate.
  - discriminate.
  - exfalso. eapply Hne; [| reflexivity].
    intros [l x] c'. simpl. destruct x as [| t | | | | t]; try discriminate.
    + destruct (parse_year t); discriminate.
    + destruct (number_year t); discriminate.
Qed.



Lemma str_accessor_Returned dt (s s' : Series) :
  str_accessor dt s = Returned s' -> dt = object /\ s' = s.
Proof. destruct dt; simpl; [intros [= <-]; auto | discriminate]. Qed.

(** When every value is a date that parses, the years come out as integers. *)
Lemma to_datetime_year_parsed (s : Series) :
  (forall l c, In (l, c) s -> exists t y, c = Str t /\ parse_year t = Some y) ->
  exists years, to_datetime_year s = Returned years /\ map fst years = map fst s.
Proof.
  intros Hs. unfold to_datetime_year.
  rewrite (traverse_map _ (fun r => (fst r, match snd r with
                                             | Str t => parse_year t
                                             | _ => None
                                             end))).
  - destruct (forallb _ _); eexists; (split; [reflexivity |]);
      rewrite !map_map; reflexivity.
  - intros [l c] Hin. destruct (Hs l c Hin) as (t & y & -> & Hy). simpl. now rewrite Hy.
Qed.

End PandasFacts.

(** ** [load_and_clean_data] *)

Section Load.
Context {P : Platform}.

Lemma read_csv_inv path w df w' :
  read_csv path w = (Returned df, w') ->
  exists t, fs w !! path = Some (File (Csv t)) /\ rectangular t /\
            df = frame_of_csv t /\ w' = w.
Proof.
  unfold read_csv, rectangular.
  destruct (fs w !! path) as [[| [t | f | p]] |]; try discriminate.
  destruct (header t) as [| c cols] eqn:Hh; [discriminate |]. rewrite <- Hh.
  destruct (existsb _ _) eqn:Hlong; [discriminate |].
  intros [= <- <-]. exists t. auto.
Qed.

Lemma read_csv_Csv path w t :
  fs w !! path = Some (File (Csv t)) -> rectangular t -> header t <> [] ->
  read_csv path w = (Returned (frame_of_csv t), w).
Proof.
  intros Hfs Hrect Hh. unfold read_csv. rewrite Hfs.
  destruct (header t) as [| c cols] eqn:Hc; [congruence |]. rewrite <- Hc.
  unfold rectangular in Hrect. now rewrite Hrect.
Qed.

(** The dtypes of the frame as read, and what the assignments leave of
    them. *)
Lemma length_dtypes_frame_of_csv t :
  length (dtypes (frame_of_csv t)) = length (columns (frame_of_csv t)).
Proof. unfold frame_of_csv. simpl. now rewrite length_map, length_seq. Qed.

Lemma dtype_of_cleaned t name j :
  position name (header t) = Some j ->
  dtype_of (dropna (frame_of_csv t)) name = column_dtype t j.
Proof.
  intros Hpos. destruct (position_nth _ _ _ Hpos) as [Hlt _].
  unfold dtype_of. simpl. rewrite Hpos.
  rewrite (nth_indep _ object (column_dtype t 0))
    by (rewrite length_map, length_seq; lia).
  rewrite map_nth, seq_nth by lia. reflexivity.
Qed.

Lemma dtype_of_setitem_other df name dt s other :
  other <> name -> length (dtypes df) = length (columns df) ->
  dtype_of (setitem df name dt s) other = dtype_of df other.
Proof.
  intros Hne Hlen. unfold dtype_of, setitem.
  destruct (position name (columns df)) as [i |] eqn:Hpos; simpl.
  - destruct (position other (columns df)) as [j |] eqn:Hother; [| reflexivity].
    assert (j <> i) by (eapply position_ne; eauto).
    rewrite !nth_lookup, list_lookup_insert_ne by congruence. reflexivity.
  - destruct (position other (columns df)) as [j |] eqn:Hother.
    + rewrite (position_app_l _ _ _ _ Hother).
      destruct (position_nth _ _ _ Hother) as [Hlt _].
      apply app_nth1. lia.
    + now rewrite (position_app_other _ _ _ Hne Hother).
Qed.

(** What has happened when [load_and_clean_data] returns a frame. *)
Lemma load_and_clean_data_steps path w df w' :
  load_and_clean_data path w = (Returned df, w') ->
  exists t years,
    fs w !! path = Some (File (Csv t)) /\ rectangular t /\
    let cleaned := dropna (frame_of_csv t) in
    let derived := with_genre (with_minutes cleaned) in
    (is_Some (position "type" (columns cleaned)) /\
     is_Some (position "duration" (columns cleaned)) /\
     is_Some (position "listed_in" (columns (with_minutes cleaned))) /\
     is_Some (position "date_added" (columns derived)) /\
     to_datetime_year (date_series derived) = Returned years /\
     df = setitem derived "year_added" numeric years /\
     w' = set_log (log w ++ [(INFO, "Data loaded and cleaned successfully.")])%list w) /\
    dtype_of cleaned "duration" = object /\
    dtype_of (with_minutes cleaned) "listed_in" = object.
Proof.
  intros Hload. unfold load_and_clean_data, try_except in Hload.
  match type of Hload with
  | context [bind ?m ?k w] => destruct (bind m k w) as [[d | e | c] w1] eqn:Hbody
  end.
  2: { destruct (is_FileNotFoundError e); discriminate. }
  2: discriminate.
  injection Hload as -> ->.
  apply bind_inv in Hbody as (df0 & w0 & Hread & Hbody).
  apply read_csv_inv in Hread as (t & Hfs & Hrect & -> & ->).
  cbv zeta in Hbody.
  apply bind_inv in Hbody as (type_col & w0 & Htype & Hbody).
  apply lift_inv in Htype as [Htype ->].
  apply getitem_Returned in Htype as [Hpos_type ->].
  apply bind_inv in Hbody as (duration & w0 & Hduration & Hbody).
  apply lift_inv in Hduration as [Hduration ->].
  apply getitem_Returned in Hduration as [Hpos_duration ->].
  apply bind_inv in Hbody as (duration_str & w0 & Hstr & Hbody).
  apply lift_inv in Hstr as [Hstr ->].
  apply str_accessor_Returned in Hstr as [Hdt_duration ->].
  apply bind_inv in Hbody as (minutes & w0 & Hminutes & Hbody).
  apply lift_inv in Hminutes as [Hminutes ->].
  rewrite astype_float_extract in Hminutes.
  apply Returned_inj in Hminutes. subst minutes.
  rewrite rows_getitem_mask, map_map in Hbody. cbn [fst snd] in Hbody.
  change (setitem (dropna (frame_of_csv t)) "duration_min" _ _)
    with (with_minutes (dropna (frame_of_csv t))) in Hbody.
  apply bind_inv in Hbody as (listed_in & w0 & Hlisted & Hbody).
  apply lift_inv in Hlisted as [Hlisted ->].
  apply getitem_Returned in Hlisted as [Hpos_listed ->].
  apply bind_inv in Hbody as (listed_in_str & w0 & Hstr & Hbody).
  apply lift_inv in Hstr as [Hstr ->].
  apply str_accessor_Returned in Hstr as [Hdt_listed ->].
  rewrite genre_series, map_map in Hbody. cbn [fst snd] in Hbody.
  change (setitem (with_minutes (dropna (frame_of_csv t))) "genre" _ _)
    with (with_genre (with_minutes (dropna (frame_of_csv t)))) in Hbody.
  apply bind_inv in Hbody as (date_added & w0 & Hdate & Hbody).
  apply lift_inv in Hdate as [Hdate ->].
  apply getitem_Returned in Hdate as [Hpos_date ->].
  apply bind_inv in Hbody as (years & w0 & Hyears & Hbody).
  apply lift_inv in Hyears as [Hyears ->].
  apply bind_inv in Hbody as ([] & w0 & Hlog & Hret).
  unfold logger_info, modify in Hlog.
  assert (w0 = set_log (log w ++ [(INFO, "Data loaded and cleaned successfully.")])%list w)
    as -> by congruence.
  unfold ret in Hret.
  assert (df = setitem (with_genre (with_minutes (dropna (frame_of_csv t))))
                       "year_added" numeric years)
    as -> by congruence.
  assert (w' = set_log (log w ++ [(INFO, "Data loaded and cleaned successfully.")])%list w)
    as -> by congruence.
  exists t, years. repeat split; assumption || reflexivity.
Qed.

Lemma load_and_clean_data_inv path w df w' :
  load_and_clean_data path w = (Returned df, w') ->
  exists t years,
    fs w !! path = Some (File (Csv t)) /\ rectangular t /\
    let cleaned := dropna (frame_of_csv t) in
    let derived := with_genre (with_minutes cleaned) in
    is_Some (position "type" (columns cleaned)) /\
    is_Some (position "duration" (columns cleaned)) /\
    is_Some (position "listed_in" (columns (with_minutes cleaned))) /\
    is_Some (position "date_added" (columns derived)) /\
    to_datetime_year (date_series derived) = Returned years /\
    df = setitem derived "year_added" numeric years /\
    w' = set_log (log w ++ [(INFO, "Data loaded and cleaned successfully.")])%list w.
Proof.
  intros Hload.
  destruct (load_and_clean_data_steps _ _ _ _ Hload) as (t & years & Hfs & Hrect & H & _).
  exists t, years. split; [exact Hfs |]. split; [exact Hrect |]. exact H.
Qed.

Lemma length_fields width r : length (fields width r) = width.
Proof. unfold fields. now rewrite length_map, length_seq. Qed.

Lemma In_label_from {A} (i : Z) (l : list A) lbl x :
  In (lbl, x) (label_from i l) -> In x l.
Proof.
  revert i. induction l as [| y l IH]; simpl; intros i; [tauto |].
  intros [[= _ <-] | Hin]; [now left | right; eauto].
Qed.


Lemma wf_frame_of_csv t : wf_frame (frame_of_csv t).
Proof.
  unfold wf_frame, frame_of_csv. simpl. apply Forall_forall.
  intros [l cs] Hin. apply list_elem_of_In, In_label_from, in_map_iff in Hin as (r & <- & _).
  simpl. unfold cells_of_record. now rewrite length_map, length_seq.
Qed.

Lemma wf_dropna df : wf_frame df -> wf_frame (dropna df).
Proof.
  unfold wf_frame, dropna. simpl. rewrite !Forall_forall. intros Hwf r Hin.
  apply Hwf. apply list_elem_of_In in Hin. apply list_elem_of_In.
  apply filter_In in Hin. tauto.
Qed.

Lemma NoDup_labels_cleaned t : NoDup (map fst (rows (dropna (frame_of_csv t)))).
Proof. unfold dropna, frame_of_csv. simpl. apply NoDup_labels_filter, NoDup_label_from. Qed.

Lemma row_complete_fields t r :
  row_complete (cells_of_record t r) = negb (record_incomplete t r).
Proof.
  unfold row_complete, record_incomplete, cells_of_record, fields.
  induction (seq 0 (length (header t))) as [| j js IH]; simpl; [reflexivity |].
  rewrite IH. destruct (nth j r None); [destruct (column_dtype t j) |]; reflexivity.
Qed.

(** The rows of the cleaned frame are the complete records. *)
Lemma cleaned_row t l cs :
  In (l, cs) (rows (dropna (frame_of_csv t))) ->
  exists r, In r (records t) /\ record_incomplete t r = false /\
            cs = cells_of_record t r.
Proof.
  unfold dropna, frame_of_csv. simpl. intros Hin.
  apply filter_In in Hin as [Hin Hc]. simpl in Hc.
  apply In_label_from, in_map_iff in Hin as (r & <- & Hr).
  exists r. rewrite row_complete_fields in Hc.
  repeat split; [exact Hr | now destruct (record_incomplete t r)].
Qed.

Lemma nth_fields width r i :
  (i < width)%nat -> nth i (fields width r) None = nth i r None.
Proof.
  intros Hlt. unfold fields.
  rewrite (nth_indep _ None (nth 0%nat r None))
    by (rewrite length_map, length_seq; lia).
  change (nth 0%nat r None) with ((fun i => nth i r None) 0%nat).
  rewrite map_nth, seq_nth by lia. reflexivity.
Qed.

Lemma nth_cells_of_record t r i :
  (i < length (header t))%nat ->
  nth i (cells_of_record t r) NaN = cell_of_field (column_dtype t i) (nth i r None).
Proof.
  intros Hlt. unfold cells_of_record.
  rewrite (nth_indep _ NaN (cell_of_field (column_dtype t 0) (nth 0%nat r None)))
    by (rewrite length_map, length_seq; lia).
  change (cell_of_field (column_dtype t 0) (nth 0%nat r None))
    with ((fun j => cell_of_field (column_dtype t j) (nth j r None)) 0%nat).
  rewrite map_nth, seq_nth by lia. reflexivity.
Qed.

(** A complete record has a field in every column. *)
Lemma complete_record_field t r i :
  record_incomplete t r = false -> (i < length (header t))%nat ->
  exists s, nth i r None = Some s.
Proof.
  intros Hc Hlt. destruct (nth i r None) as [s |] eqn:Hnth; [eauto |].
  exfalso. unfold record_incomplete in Hc.
  apply not_true_iff_false in Hc. apply Hc. apply existsb_exists.
  exists None. split; [| now apply bool_decide_eq_true].
  rewrite <- Hnth, <- (nth_fields (length (header t))) by exact Hlt.
  apply nth_In. now rewrite length_fields.
Qed.

(** In a complete record every column holds the cell of a field. *)
Lemma cleaned_cell t l cs name i :
  In (l, cs) (rows (dropna (frame_of_csv t))) ->
  position name (header t) = Some i ->
  exists r s, In r (records t) /\ record_incomplete t r = false /\
              nth i r None = Some s /\
              cell_at (dropna (frame_of_csv t)) name cs
              = cell_of_field (column_dtype t i) (Some s).
Proof.
  intros Hin Hpos. destruct (cleaned_row _ _ _ Hin) as (r & Hr & Hc & ->).
  destruct (position_nth _ _ _ Hpos) as [Hlt _].
  destruct (complete_record_field t r i Hc Hlt) as [s Hs].
  exists r, s. repeat split; [exact Hr | exact Hc | exact Hs |].
  unfold cell_at. simpl. rewrite Hpos.
  now rewrite nth_cells_of_record, Hs by exact Hlt.
Qed.

(** In a column kept as text it is the text of the field. *)
Lemma cleaned_cell_text t l cs name i :
  In (l, cs) (rows (dropna (frame_of_csv t))) ->
  position name (header t) = Some i ->
  column_dtype t i = object ->
  exists r s, In r (records t) /\ record_incomplete t r = false /\
              nth i r None = Some s /\
              cell_at (dropna (frame_of_csv t)) name cs = Str s.
Proof.
  intros Hin Hpos Hdt.
  destruct (cleaned_cell t l cs name i Hin Hpos) as (r & s & Hr & Hc & Hs & Hcell).
  exists r, s. rewrite Hcell, Hdt. auto.
Qed.


(** One assignment of a column, seen from a row of the result. *)
Lemma setitem_row df name dt s r' :
  wf_frame df -> In r' (rows (setitem df name dt s)) ->
  exists r, In r (rows df) /\ fst r' = fst r /\
    cell_at (setitem df name dt s) name (snd r') = lookup_label (fst r) s /\
    (forall other, other <> name ->
       cell_at (setitem df name dt s) other (snd r') = cell_at df other (snd r)).
Proof.
  intros Hwf Hin. rewrite rows_setitem in Hin.
  apply in_map_iff in Hin as (r & <- & Hr). exists r.
  assert (length (snd r) = length (columns df)) as Hlen.
  { unfold wf_frame in Hwf. rewrite Forall_forall in Hwf.
    apply (Hwf r). now apply list_elem_of_In. }
  simpl. repeat split; [exact Hr | now apply cell_at_setitem_same |].
  intros other Hne. now apply cell_at_setitem_other.
Qed.

Lemma lookup_minutes df r :
  NoDup (map fst (rows df)) -> In r (rows df) ->
  lookup_label (fst r)
    (map (fun r => (fst r, minutes_cell (cell_at df "duration" (snd r))))
         (List.filter (fun r => bool_decide (cell_at df "type" (snd r) = Str "Movie"))
                      (rows df)))
  = minutes_of df (snd r).
Proof.
  intros Hnd Hin.
  rewrite (lookup_label_filter _ _ (fun r => minutes_cell (cell_at df "duration" (snd r)))
             r Hnd Hin).
  reflexivity.
Qed.

(** The derived cells of a row of the returned frame, in terms of the row
    of the cleaned frame it comes from. *)
Lemma load_and_clean_data_row path w df w' l cs :
  load_and_clean_data path w = (Returned df, w') ->
  In (l, cs) (rows df) ->
  exists t cs0,
    fs w !! path = Some (File (Csv t)) /\
    let cleaned := dropna (frame_of_csv t) in
    In (l, cs0) (rows cleaned) /\
    cell_at df "duration_min" cs = minutes_of cleaned cs0 /\
    cell_at df "genre" cs = genre_cell (cell_at cleaned "listed_in" cs0) /\
    (forall name, name <> "duration_min" -> name <> "genre" -> name <> "year_added" ->
       cell_at df name cs = cell_at cleaned name cs0) /\
    is_Some (position "type" (header t)) /\
    is_Some (position "duration" (header t)) /\
    is_Some (position "listed_in" (header t)).
Proof.
  intros Hload Hin.
  apply load_and_clean_data_inv in Hload
    as (t & years & Hfs & Hrect & Htype & Hduration & Hlisted & Hdate & Hyears & -> & ->).
  set (cleaned := dropna (frame_of_csv t)) in *.
  assert (wf_frame cleaned) as Hwf0 by apply wf_dropna, wf_frame_of_csv.
  assert (wf_frame (with_minutes cleaned)) as Hwf1 by now apply wf_setitem.
  assert (wf_frame (with_genre (with_minutes cleaned))) as Hwf2 by now apply wf_setitem.
  destruct (setitem_row _ _ _ _ _ Hwf2 Hin) as ([l2 cs2] & Hin2 & Hl2 & _ & Hother2).
  destruct (setitem_row _ _ _ _ _ Hwf1 Hin2) as ([l1 cs1] & Hin1 & Hl1 & Hsame1 & Hother1).
  destruct (setitem_row _ _ _ _ _ Hwf0 Hin1) as ([l0 cs0] & Hin0 & Hl0 & Hsame0 & Hother0).
  cbn [fst snd] in Hl2, Hl1, Hl0, Hother2, Hother1, Hother0, Hsame1, Hsame0.
  subst l2 l1 l0.
  change (setitem cleaned "duration_min" _ _) with (with_minutes cleaned) in Hsame0, Hother0.
  change (setitem (with_minutes cleaned) "genre" _ _)
    with (with_genre (with_minutes cleaned)) in Hsame1, Hother1.
  exists t, cs0. split; [exact Hfs |]. cbv zeta. fold cleaned.
  assert (NoDup (map fst (rows cleaned))) as Hnd0 by apply NoDup_labels_cleaned.
  assert (NoDup (map fst (rows (with_minutes cleaned)))) as Hnd1.
  { unfold with_minutes. now rewrite labels_setitem. }
  repeat split.
  - exact Hin0.
  - rewrite Hother2, Hother1 by discriminate. rewrite Hsame0.
    exact (lookup_minutes cleaned (l, cs0) Hnd0 Hin0).
  - rewrite Hother2 by discriminate. rewrite Hsame1.
    pose proof (lookup_label_map _
                  (fun r => genre_cell (cell_at (with_minutes cleaned) "listed_in" (snd r)))
                  (l, cs1) Hnd1 Hin1) as Hg.
    cbn [fst snd] in Hg. rewrite Hg. now rewrite Hother0 by discriminate.
  - intros name H1 H2 H3. now rewrite Hother2, Hother1, Hother0.
  - exact Htype.
  - exact Hduration.
  - destruct Hlisted as [i Hi]. unfold with_minutes, setitem in Hi.
    destruct (position "duration_min" (columns cleaned)) eqn:Hdm; simpl in Hi; [eauto |].
    destruct (position "listed_in" (columns cleaned)) eqn:Hli; [eauto |].
    rewrite position_app_other in Hi; [discriminate | discriminate | exact Hli].
Qed.

Lemma bind_lift {S A B} (o : outcome A) (k : A -> M S B) (s : S) a :
  o = Returned a -> bind (lift o) k s = k a s.
Proof. intros ->. reflexivity. Qed.

Lemma position_setitem_other df name dt s other :
  is_Some (position other (columns df)) ->
  is_Some (position other (columns (setitem df name dt s))).
Proof.
  intros [i Hi]. unfold setitem.
  destruct (position name (columns df)); simpl; [eauto |].
  rewrite (position_app_l _ _ _ _ Hi). eauto.
Qed.




Lemma has_columns_header t : has_columns t -> header t <> [].
Proof. intros [[i Hi] _] Heq. rewrite Heq in Hi. discriminate. Qed.

(** The dtypes of the two columns on which the script uses [.str], at the
    places where it does. *)
Lemma dtype_of_duration t j :
  position "duration" (header t) = Some j ->
  dtype_of (dropna (frame_of_csv t)) "duration" = column_dtype t j.
Proof. apply dtype_of_cleaned. Qed.

Lemma dtype_of_listed_in t k :
  position "listed_in" (header t) = Some k ->
  dtype_of (with_minutes (dropna (frame_of_csv t))) "listed_in" = column_dtype t k.
Proof.
  intros Hk. unfold with_minutes.
  rewrite dtype_of_setitem_other
    by (discriminate || exact (length_dtypes_frame_of_csv t)).
  now apply dtype_of_cleaned.
Qed.

(** A call that returns has found both kept as text. *)
Lemma load_and_clean_data_text path w df w' t :
  fs w !! path = Some (File (Csv t)) ->
  load_and_clean_data path w = (Returned df, w') ->
  text_column t "duration" /\ text_column t "listed_in".
Proof.
  intros Hfs Hload.
  destruct (load_and_clean_data_steps _ _ _ _ Hload)
    as (t' & years & Hfs' & _ & _ & Hdur & Hlisted).
  assert (t' = t) as -> by congruence.
  split; intros j Hj.
  - now rewrite <- (dtype_of_duration t j Hj).
  - now rewrite <- (dtype_of_listed_in t j Hj).
Qed.

(** With the four columns present, those the script treats as text kept as
    text, and dates that parse, the call returns. *)
Lemma load_and_clean_data_returns path w t :
  fs w !! path = Some (File (Csv t)) -> rectangular t -> has_columns t ->
  text_columns t -> dates_parse t ->
  exists df w', load_and_clean_data path w = (Returned df, w').
Proof.
  intros Hfs Hrect Hcols (Htdur & Htlisted & Htdate) Hparse.
  pose proof (has_columns_header t Hcols) as Hh.
  destruct Hcols as (Htype & Hdur & Hlisted & Hdate).
  unfold load_and_clean_data, try_except.
  rewrite (bind_returned _ _ _ _ _ (read_csv_Csv path w t Hfs Hrect Hh)). cbv zeta.
  set (cleaned := dropna (frame_of_csv t)).
  assert (wf_frame cleaned) as Hwf0 by apply wf_dropna, wf_frame_of_csv.
  assert (NoDup (map fst (rows cleaned))) as Hnd0 by apply NoDup_labels_cleaned.
  destruct Htype as [i Hi]. rewrite (bind_lift _ _ _ _ (getitem_position cleaned "type" i Hi)).
  destruct Hdur as [j Hj].
  rewrite (bind_lift _ _ _ _ (getitem_position (getitem_mask cleaned _) "duration" j Hj)).
  match goal with
  | |- context [str_accessor ?d _] =>
      replace d with object
        by (symmetry; exact (eq_trans (dtype_of_duration t j Hj) (Htdur j Hj)))
  end.
  cbn [str_accessor]. step_lift.
  rewrite (bind_lift _ _ _ _ (astype_float_extract _)).
  rewrite rows_getitem_mask, map_map. cbn [fst snd].
  change (setitem cleaned "duration_min" _ _) with (with_minutes cleaned).
  assert (wf_frame (with_minutes cleaned)) as Hwf1 by now apply wf_setitem.
  destruct (position_setitem_other cleaned "duration_min" numeric
              (map (fun r => (fst r, minutes_cell (cell_at cleaned "duration" (snd r))))
                   (List.filter (fun r => bool_decide (cell_at cleaned "type" (snd r) = Str "Movie"))
                                (rows cleaned)))
              "listed_in" Hlisted) as [k Hk].
  rewrite (bind_lift _ _ _ _ (getitem_position (with_minutes cleaned) "listed_in" k Hk)).
  match goal with
  | |- context [str_accessor ?d _] =>
      replace d with object
        by (symmetry; destruct Hlisted as [k0 Hk0];
            exact (eq_trans (dtype_of_listed_in t k0 Hk0) (Htlisted k0 Hk0)))
  end.
  cbn [str_accessor]. step_lift.
  rewrite genre_series, map_map. cbn [fst snd].
  change (setitem (with_minutes cleaned) "genre" _ _) with (with_genre (with_minutes cleaned)).
  set (derived := with_genre (with_minutes cleaned)).
  assert (is_Some (position "date_added" (columns derived))) as [d Hd].
  { apply position_setitem_other, position_setitem_other. exact Hdate. }
  rewrite (bind_lift _ _ _ _ (getitem_position derived "date_added" d Hd)).
  destruct (to_datetime_year_parsed
              (map (fun r => (fst r, cell_at derived "date_added" (snd r))) (rows derived)))
    as (years & Hyears & _).
  { intros l c Hin. apply in_map_iff in Hin as ([l2 cs2] & Heq & Hin2).
    cbn [fst snd] in Heq. injection Heq as -> <-.
    destruct (setitem_row _ _ _ _ _ Hwf1 Hin2) as ([l1 cs1] & Hin1 & _ & _ & Hother1).
    destruct (setitem_row _ _ _ _ _ Hwf0 Hin1) as ([l0 cs0] & Hin0 & _ & _ & Hother0).
    cbn [fst snd] in Hother1, Hother0.
    change (setitem cleaned "duration_min" _ _) with (with_minutes cleaned) in Hother0.
    change (setitem (with_minutes cleaned) "genre" _ _) with derived in Hother1.
    rewrite Hother1, Hother0 by discriminate.
    destruct Hdate as [e He].
    destruct (cleaned_cell_text t l0 cs0 "date_added" e Hin0 He (Htdate e He))
      as (r & s & Hr & Hc & Hnth & Hcell).
    destruct (Hparse r e s Hr Hc He Hnth) as [y Hy].
    exists s, y. split; [exact Hcell | exact Hy]. }
  rewrite (bind_lift _ _ _ _ Hyears).
  unfold bind, logger_info, modify, ret. eauto.
Qed.

Lemma calm_bind_lift {A B} (o : outcome A) (k : A -> M world B) w :
  pure_calm o -> (forall a, o = Returned a -> calm w (k a w)) ->
  calm w (bind (lift o) k w).
Proof.
  intros Ho Hk. unfold bind, lift. destruct o as [a | e | c]; simpl in *.
  - now apply Hk.
  - auto.
  - destruct Ho.
Qed.

Lemma calm_try_except {A} (body : M world A) handler w :
  calm w (body w) -> calm w (try_except body is_FileNotFoundError handler w).
Proof.
  unfold try_except, calm. destruct (body w) as [[a | e | c] w1]; auto.
  intros [He ->]. now rewrite He.
Qed.

Lemma getitem_calm df name : pure_calm (getitem df name).
Proof. unfold getitem. destruct (position name (columns df)); simpl; auto. Qed.

Lemma traverse_calm {A B} (f : A -> outcome B) (l : list A) :
  (forall x, pure_calm (f x)) -> pure_calm (traverse f l).
Proof.
  intros Hf. induction l as [| x l IH]; simpl; [exact I |].
  pose proof (Hf x) as Hx. destruct (f x); simpl in *; auto.
  destruct (traverse f l); simpl in *; auto.
Qed.

Lemma str_accessor_calm dt (s : Series) : pure_calm (str_accessor dt s).
Proof. destruct dt; simpl; auto. Qed.

Lemma to_datetime_year_calm s : pure_calm (to_datetime_year s).
Proof.
  unfold to_datetime_year.
  match goal with |- context [traverse ?f s] =>
    pose proof (traverse_calm f s) as Hc; destruct (traverse f s) eqn:Ht end.
  - destruct (forallb _ _); exact I.
  - apply Hc. intros [l x]. simpl. destruct x as [| t | | | | t]; simpl; auto.
    + destruct (parse_year t); simpl; auto.
    + destruct (number_year t); simpl; auto.
  - apply Hc. intros [l x]. simpl. destruct x as [| t | | | | t]; simpl; auto.
    + destruct (parse_year t); simpl; auto.
    + destruct (number_year t); simpl; auto.
Qed.

(** On a path that holds a CSV file the call never exits, and when it
    raises, the exception is not the one the handler takes and the world is
    as before. *)
Lemma load_and_clean_data_calm path w t :
  fs w !! path = Some (File (Csv t)) -> calm w (load_and_clean_data path w).
Proof.
  intros Hfs. unfold load_and_clean_data. apply calm_try_except.
  unfold bind at 1. unfold read_csv. rewrite Hfs.
  destruct (header t) as [| c cols] eqn:Hh; [simpl; auto |]. rewrite <- Hh.
  destruct (existsb _ _); [simpl; auto |].
  cbv zeta.
  apply calm_bind_lift; [apply getitem_calm | intros type_col _].
  apply calm_bind_lift; [apply getitem_calm | intros duration _].
  apply calm_bind_lift; [apply str_accessor_calm | intros duration_str _].
  apply calm_bind_lift; [rewrite astype_float_extract; exact I | intros minutes _].
  apply calm_bind_lift; [apply getitem_calm | intros listed_in _].
  apply calm_bind_lift; [apply str_accessor_calm | intros listed_in_str _].
  apply calm_bind_lift; [apply getitem_calm | intros date_added _].
  apply calm_bind_lift; [apply to_datetime_year_calm | intros years _].
  exact I.
Qed.

(** What [open] raises for a path under which nothing is: the error of a
    file that is not there, or another one. *)
Lemma missing_path_error_FileNotFound f path :
  path_refused path = None -> below_a_file f path = false ->
  missing_path_error f path = FileNotFoundError path.
Proof. intros Href Hbelow. unfold missing_path_error. now rewrite Href, Hbelow. Qed.

Lemma missing_path_error_cases f path :
  (path_refused path = None /\ below_a_file f path = false /\
   missing_path_error f path = FileNotFoundError path) \/
  is_FileNotFoundError (missing_path_error f path) = false.
Proof.
  unfold missing_path_error.
  destruct (path_refused path) as [e |] eqn:Href.
  - right. exact (path_refused_other path e Href).
  - destruct (below_a_file f path); [right; reflexivity | left; auto].
Qed.

Lemma load_and_clean_data_missing path w :
  fs w !! path = None -> path_refused path = None -> below_a_file (fs w) path = false ->
  load_and_clean_data path w = (Exited 1, after_load_error path w).
Proof.
  intros Hfs Href Hbelow. unfold load_and_clean_data, try_except.
  assert (read_csv path w = (Raised (FileNotFoundError path), w)) as Hread.
  { unfold read_csv. now rewrite Hfs, missing_path_error_FileNotFound. }
  rewrite (bind_raised _ _ _ _ _ Hread). reflexivity.
Qed.

(** A path that cannot be opened for another reason: the exception is not
    the one the handler takes. *)
Lemma load_and_clean_data_unopenable path w :
  fs w !! path = None ->
  is_FileNotFoundError (missing_path_error (fs w) path) = false ->
  load_and_clean_data path w = (Raised (missing_path_error (fs w) path), w).
Proof.
  intros Hfs Hother. unfold load_and_clean_data, try_except.
  assert (read_csv path w = (Raised (missing_path_error (fs w) path), w)) as Hread.
  { unfold read_csv. now rewrite Hfs. }
  rewrite (bind_raised _ _ _ _ _ Hread). now rewrite Hother.
Qed.


End Load.

(** ** The claims about [load_and_clean_data] *)

Section LoadClaims.
Context {P : Platform}.



Lemma leading_integer_Some s n :
  leading_integer s = Some n ->
  search_digits s = Some (take_digits s) /\ n = int_of_digits (take_digits s).
Proof.
  unfold leading_integer. intros Hn.
  assert (take_digits s <> EmptyString) as Hne by (destruct (take_digits s); congruence).
  split; [now apply search_digits_leading |].
  destruct (take_digits s); congruence.
Qed.

Lemma take_digits_run ds rest :
  all_digits ds = true -> starts_with_digit rest = false ->
  take_digits (ds ++ rest) = ds.
Proof.
  unfold all_digits. induction ds as [| c ds IH]; simpl; intros Hall Hrest.
  - destruct rest as [| c rest]; simpl in *; [reflexivity | now rewrite Hrest].
  - apply andb_prop in Hall as [Hc Hall]. rewrite Hc. now rewrite IH.
Qed.

(** The first run of digits of a text is what the search finds. *)
Lemma search_digits_first_run pre ds rest :
  digit_free pre = true -> ds <> EmptyString -> all_digits ds = true ->
  starts_with_digit rest = false ->
  search_digits (pre ++ ds ++ rest) = Some ds.
Proof.
  unfold digit_free. intros Hpre Hne Hall Hrest.
  induction pre as [| c pre IH]; simpl in *.
  - destruct ds as [| c ds]; [congruence |].
    pose proof (take_digits_run (String c ds) rest Hall Hrest) as Htake.
    unfold all_digits in Hall. simpl in Hall. apply andb_prop in Hall as [Hc _].
    simpl. rewrite Hc. simpl in Htake. rewrite Hc in Htake. now rewrite Htake.
  - apply andb_prop in Hpre as [Hc Hpre].
    destruct (is_digit c); [discriminate |]. now apply IH.
Qed.

(** C2, as the code has it.  In the returned frame a row whose type is
    "Movie" holds a text in [duration], and for a text of ASCII characters
    its [duration_min] is the float of the number that the first run of
    decimal digits anywhere in that text denotes, missing when the text has
    no digit.  When the text starts with digits this is its leading integer
    as a float, the integer itself below 2^53.  A row of any other type
    holds a missing value there. *)
Theorem duration_min_of_cleaned_rows (path : string) (w w' : world) (df : DataFrame)
    (l : cell) (cs : list cell) :
  load_and_clean_data path w = (Returned df, w') ->
  In (l, cs) (rows df) ->
  (cell_at df "type" cs = Str "Movie" ->
     exists d, cell_at df "duration" cs = Str d /\
       (is_ascii d = true ->
          cell_at df "duration_min" cs = minutes_cell (Str d) /\
          (forall pre ds rest,
             d = (pre ++ ds ++ rest)%string -> digit_free pre = true ->
             ds <> EmptyString -> all_digits ds = true ->
             starts_with_digit rest = false ->
             cell_at df "duration_min" cs = Float (float_of_Z (int_of_digits ds))) /\
          (digit_free d = true -> cell_at df "duration_min" cs = NaN) /\
          (forall n, leading_integer d = Some n ->
             cell_at df "duration_min" cs = Float (float_of_Z n) /\
             (n < 2 ^ 53 -> cell_at df "duration_min" cs = Float (Finite n))))) /\
  (cell_at df "type" cs <> Str "Movie" -> cell_at df "duration_min" cs = NaN).
Proof.
  intros Hload Hin.
  destruct (load_and_clean_data_row _ _ _ _ _ _ Hload Hin)
    as (t & cs0 & Hfs & Hin0 & Hmin & _ & Hother & _ & [j Hj] & _).
  destruct (load_and_clean_data_text _ _ _ _ _ Hfs Hload) as [Htext _].
  cbv zeta in *.
  rewrite Hmin, (Hother "type") by discriminate.
  rewrite (Hother "duration") by discriminate.
  unfold minutes_of. split.
  - intros Hmovie. rewrite Hmovie. rewrite bool_decide_eq_true_2 by reflexivity.
    destruct (cleaned_cell_text t l cs0 "duration" j Hin0 Hj (Htext j Hj))
      as (_ & d & _ & _ & _ & Hd).
    exists d. rewrite Hd. split; [reflexivity |]. intros _.
    split; [reflexivity |]. split; [| split].
    + intros pre ds rest -> Hpre Hne Hall Hrest. simpl.
      now rewrite (search_digits_first_run pre ds rest Hpre Hne Hall Hrest).
    + intros Hfree. simpl.
      assert (search_digits d = None) as ->; [| reflexivity].
      unfold digit_free in Hfree. clear - Hfree.
      induction d as [| c d IH]; simpl in *; [reflexivity |].
      apply andb_prop in Hfree as [Hc Hfree].
      destruct (is_digit c); [discriminate | now apply IH].
    + intros n Hn. apply leading_integer_Some in Hn as [Hs ->].
      simpl. rewrite Hs. split; [reflexivity |].
      intros Hlt. now rewrite float_of_Z_exact.
  - intros Hother_type. now rewrite bool_decide_eq_false_2.
Qed.

(** C8.  In the returned frame every row holds a text in [listed_in], and
    its [genre] is the prefix of that text up to (excluding) the first
    comma, the entire text when it contains no comma. *)
Theorem genre_is_prefix_before_first_comma (path : string) (w w' : world)
    (df : DataFrame) (l : cell) (cs : list cell) :
  load_and_clean_data path w = (Returned df, w') ->
  In (l, cs) (rows df) ->
  exists s, cell_at df "listed_in" cs = Str s /\
            cell_at df "genre" cs = Str (prefix_before_first_comma s).
Proof.
  intros Hload Hin.
  destruct (load_and_clean_data_row _ _ _ _ _ _ Hload Hin)
    as (t & cs0 & Hfs & Hin0 & _ & Hgenre & Hother & _ & _ & [k Hk]).
  destruct (load_and_clean_data_text _ _ _ _ _ Hfs Hload) as [_ Htext].
  cbv zeta in *.
  destruct (cleaned_cell_text t l cs0 "listed_in" k Hin0 Hk (Htext k Hk))
    as (_ & s & _ & _ & _ & Hs).
  exists s. rewrite Hgenre, (Hother "listed_in"), Hs by discriminate.
  split; [reflexivity |]. simpl. now rewrite prefix_before_first_comma_eq.
Qed.


End LoadClaims.

(** ** [create_chart] *)

Section ChartFacts.
Context {P : Platform}.
Local Open Scope prog_scope.

Lemma chart_path_not_dir_name filename :
  chart_target filename <> "img/slides" /\ chart_target filename <> "img".
Proof.
  pose proof (savefig_target_has_dot (path_join "img/slides" filename)) as Hdot.
  fold (chart_target filename) in Hdot.
  split; intros Heq; rewrite Heq in Hdot; discriminate.
Qed.



Lemma can_save_true path : can_save path = true -> save_error path = None.
Proof. unfold can_save. now destruct (save_error path). Qed.

(** What [savefig] does when matplotlib can write the path. *)
Lemma plt_savefig_writes path w :
  can_save (savefig_target path) = true ->
  fs w !! savefig_target path <> Some Dir ->
  plt_savefig path w
  = (Returned tt,
     set_fs (<[savefig_target path :=
                 File (Image (match figures w with
                              | fg :: _ => fg
                              | [] => new_figure default_figsize
                              end))]> (fs w)) w).
Proof.
  intros Hsave Hdir. unfold plt_savefig. cbv zeta.
  rewrite (can_save_true _ Hsave).
  destruct (fs w !! savefig_target path) as [[| c] |]; congruence.
Qed.


(** Making the chart directory leaves every other path alone. *)
Lemma mkdir_parents_chart_dir w :
  chart_dir_available (fs w) ->
  exists w1, mkdir_parents "img" "slides" w = (Returned tt, w1) /\
    log w1 = log w /\ figures w1 = figures w /\ sns_style w1 = sns_style w /\
    fs w1 !! "img/slides" = Some Dir /\
    forall p, p <> "img/slides" -> p <> "img" -> fs w1 !! p = fs w !! p.
Proof.
  unfold chart_dir_available, mkdir_parents.
  change (path_join "img" "slides") with "img/slides".
  destruct (fs w !! "img/slides") as [[| c] |] eqn:Hdir; [| tauto |].
  - intros _. exists w. auto 10.
  - destruct (fs w !! "img") as [[| c] |] eqn:Himg; [| tauto |]; intros _;
      eexists; (split; [reflexivity |]); simpl; repeat split;
      try (apply lookup_insert_eq);
      intros p H1 H2; rewrite ?lookup_insert_ne by congruence; reflexivity.
Qed.




End ChartFacts.

Section ChartClaims.
Context {P : Platform}.

Lemma create_chart_unfold data title filename kind figsize :
  create_chart data title filename kind figsize
  = bind (plt_figure figsize) (fun _ =>
      bind (sns_set_style "whitegrid") (fun _ =>
        bind (plot_branch data kind) (fun _ => finish_chart title filename))).
Proof. reflexivity. Qed.





End ChartClaims.

(** ** [customize_slide_master] *)

(** What a slide formats directly does not depend on what its layout
    provides. *)
Lemma effective_font_direct (direct inherited inherited' : Font) c z :
  font_color direct = Some c -> font_size direct = Some z ->
  font_color (effective_font direct inherited) = Some c /\
  font_size (effective_font direct inherited) = Some z /\
  font_color (effective_font direct inherited')
  = font_color (effective_font direct inherited) /\
  font_size (effective_font direct inherited')
  = font_size (effective_font direct inherited).
Proof.
  intros Hc Hz. unfold effective_font. simpl. rewrite Hc, Hz. auto.
Qed.

Section Theme.

Lemma theme_frame_refl prs : theme_frame prs prs.
Proof. unfold theme_frame. auto. Qed.

Lemma theme_frame_trans prs1 prs2 prs3 :
  theme_frame prs1 prs2 -> theme_frame prs2 prs3 -> theme_frame prs1 prs3.
Proof.
  intros (Hs1 & Hn1 & Ho1 & Hi1) (Hs2 & Hn2 & Ho2 & Hi2). repeat split.
  - congruence.
  - congruence.
  - intros i j Hij. now rewrite Ho2, Ho1.
  - intros i j. now rewrite Hi2, Hi1.
Qed.

(** Sequencing keeps the frame, and lets the second step use what the first
    one is known to return. *)
Lemma theme_frame_bind {A B} (m : M Presentation A) (k : A -> M Presentation B)
    (Q : A -> Prop) prs o prs' :
  (forall a prs1, m prs = (Returned a, prs1) -> Q a) ->
  (forall o1 prs1, m prs = (o1, prs1) -> theme_frame prs prs1) ->
  (forall a prs1 o2 prs2, Q a -> k a prs1 = (o2, prs2) -> theme_frame prs1 prs2) ->
  bind m k prs = (o, prs') -> theme_frame prs prs'.
Proof.
  intros HQ Hm Hk. unfold bind.
  destruct (m prs) as [[a | e | c] prs1] eqn:Hrun; intros Hrest.
  - eapply theme_frame_trans; [eapply Hm; reflexivity |].
    eapply Hk; [eapply HQ; reflexivity | exact Hrest].
  - injection Hrest as <- <-. eapply Hm; reflexivity.
  - injection Hrest as <- <-. eapply Hm; reflexivity.
Qed.

Lemma set_background_frame f prs : theme_frame prs (set_background f prs).
Proof. unfold theme_frame, set_background, placeholder_at. simpl. auto. Qed.

Lemma placeholder_at_set_layout_font prs i0 j0 g i j :
  placeholder_at (set_layouts (alter (alter_layout_font g j0) i0 (slide_layouts prs)) prs) i j
  = if decide (i = i0 /\ j = j0)
    then option_map (fun lp => {| lph_idx := lph_idx lp; lph_type := lph_type lp;
                                  lph_font := g (lph_font lp) |})
                    (placeholder_at prs i j)
    else placeholder_at prs i j.
Proof.
  unfold placeholder_at, set_layouts. simpl.
  destruct (decide (i = i0)) as [-> | Hi].
  - rewrite list_lookup_alter_eq.
    destruct (slide_layouts prs !! i0) as [l |]; simpl.
    + destruct (decide (j = j0)) as [-> | Hj].
      * rewrite list_lookup_alter_eq. rewrite decide_True by auto.
        destruct (layout_placeholders l !! j0); reflexivity.
      * rewrite list_lookup_alter_ne by congruence. rewrite decide_False by tauto.
        reflexivity.
    + now destruct (decide _).
  - rewrite list_lookup_alter_ne by congruence. rewrite decide_False by tauto.
    reflexivity.
Qed.

Lemma set_layout_font_frame i0 j0 g prs :
  styled i0 j0 ->
  theme_frame prs (set_layouts (alter (alter_layout_font g j0) i0 (slide_layouts prs)) prs).
Proof.
  intros Hstyled. unfold theme_frame. repeat split.
  - simpl. clear Hstyled. revert i0.
    induction (slide_layouts prs) as [| l ls IH]; intros [| i0]; simpl; try reflexivity.
    f_equal. apply IH.
  - intros i j Hij. rewrite placeholder_at_set_layout_font.
    rewrite decide_False; [reflexivity |]. intros [-> ->]. now apply Hij.
  - intros i j. rewrite placeholder_at_set_layout_font.
    destruct (decide _); [| reflexivity].
    destruct (placeholder_at prs i j); reflexivity.
Qed.

End Theme.

Section ThemeClaims.

Lemma modify_frame (f : Presentation -> Presentation) prs o prs' :
  (forall s, theme_frame s (f s)) -> modify f prs = (o, prs') -> theme_frame prs prs'.
Proof. intros Hf. unfold modify. intros [= <- <-]. apply Hf. Qed.

Lemma layout_placeholder_font_run i j prs o prs' :
  layout_placeholder_font i j prs = (o, prs') ->
  prs' = prs /\ forall a, o = Returned a -> a = (i, j).
Proof.
  unfold layout_placeholder_font.
  destruct (slide_layouts prs !! i) as [l |]; [| intros [= <- <-]; split; [auto | discriminate]].
  destruct (layout_placeholders l !! j); intros [= <- <-]; split; auto; try discriminate.
  now intros a [= <-].
Qed.

Lemma set_layout_font_run ref g prs o prs' :
  styled (fst ref) (snd ref) ->
  set_layout_font ref g prs = (o, prs') -> theme_frame prs prs'.
Proof.
  intros Hstyled. unfold set_layout_font. apply modify_frame.
  intros s. now apply set_layout_font_frame.
Qed.

(** The steps of [customize_slide_master] on one styled placeholder. *)
Lemma style_steps_frame i j (fonts : list (Font -> Font))
    (rest : nat * nat -> M Presentation unit) prs o prs' :
  styled i j ->
  (forall s o1 s1, rest (i, j) s = (o1, s1) -> theme_frame s s1) ->
  bind (layout_placeholder_font i j)
       (fun ref => fold_right (fun g k => bind (set_layout_font ref g) (fun _ => k))
                              (rest ref) fonts) prs = (o, prs') ->
  theme_frame prs prs'.
Proof.
  intros Hstyled Hrest.
  apply (theme_frame_bind (layout_placeholder_font i j) _ (fun ref => ref = (i, j))).
  - intros a prs1 Hrun. apply layout_placeholder_font_run in Hrun as [_ Ha].
    now apply Ha.
  - intros o1 prs1 Hrun. apply layout_placeholder_font_run in Hrun as [-> _].
    apply theme_frame_refl.
  - intros ref prs1 o2 prs2 ->. clear prs o prs'. revert prs1 o2 prs2.
    induction fonts as [| g fonts IH]; simpl; intros prs1 o2 prs2.
    + apply Hrest.
    + apply (theme_frame_bind (set_layout_font (i, j) g) _ (fun _ => True)); [auto | |].
      * intros o1 s1. now apply set_layout_font_run.
      * intros _ s1 o3 s3 _. apply IH.
Qed.

Lemma customize_slide_master_steps :
  customize_slide_master
  = bind (modify (set_background (SolidFill None))) (fun _ =>
    bind (modify (set_background (SolidFill (Some LIGHT_BLUE)))) (fun _ =>
    bind (layout_placeholder_font 0 0) (fun ref =>
      fold_right (fun g k => bind (set_layout_font ref g) (fun _ => k))
        ((fun _ =>
            bind (layout_placeholder_font 1 1) (fun ref =>
              fold_right (fun g k => bind (set_layout_font ref g) (fun _ => k))
                ((fun ref => set_layout_font ref (with_color (0, 0, 0))) ref)
                [with_name "Arial"; with_size (Pt 18)])) ref)
        [with_name "Arial"; with_size (Pt 44); with_color DARK_BLUE]))).
Proof. reflexivity. Qed.

(** C7.  However [customize_slide_master] ends, it has changed nothing
    but the background fill of the slide master and the fonts of the first
    placeholder of the first layout and the second placeholder of the
    second layout: the slides are the same list as before (same count, each
    slide with the shapes, texts and direct formatting it had), the layouts
    keep their names, and every placeholder keeps its idx and type. *)
Theorem customize_slide_master_frame (prs prs' : Presentation) (o : outcome unit) :
  customize_slide_master prs = (o, prs') ->
  theme_frame prs prs' /\
  length (slides prs') = length (slides prs) /\
  (forall sid, slides prs' !! sid = slides prs !! sid).
Proof.
  intros Hrun.
  assert (theme_frame prs prs') as Hframe.
  { rewrite customize_slide_master_steps in Hrun. revert Hrun.
    apply (theme_frame_bind _ _ (fun _ => True)); [auto | |].
    { intros o1 prs1. apply modify_frame. intros s. apply set_background_frame. }
    intros _ prs1 o2 prs2 _.
    apply (theme_frame_bind _ _ (fun _ => True)); [auto | |].
    { intros o1 prs3. apply modify_frame. intros s. apply set_background_frame. }
    intros _ prs3 o3 prs4 _.
    apply (style_steps_frame 0 0
             [with_name "Arial"; with_size (Pt 44); with_color DARK_BLUE]);
      [left; auto |].
    intros s o1 s1.
    apply (style_steps_frame 1 1 [with_name "Arial"; with_size (Pt 18)]
             (fun ref => set_layout_font ref (with_color (0, 0, 0))));
      [right; auto |].
    intros s2 o4 s3. apply set_layout_font_run. right; auto. }
  split; [exact Hframe |]. destruct Hframe as (Hslides & _). rewrite Hslides. auto.
Qed.

End ThemeClaims.

(** ** Text of shapes *)

Lemma join_lines_cons t l :
  l <> [] -> join_lines (t :: l) = t ++ String LF (join_lines l).
Proof. destruct l; [congruence | reflexivity]. Qed.

Lemma join_lines_split_on s : join_lines (split_on LF s) = s.
Proof.
  induction s as [| c s IH]; [reflexivity |].
  cbn [split_on]. destruct (Ascii.eqb_spec c LF) as [-> | Hne].
  - rewrite join_lines_cons by apply split_on_nonempty. simpl. now rewrite IH.
  - destruct (split_on LF s) as [| t ts] eqn:Hs; [now apply split_on_nonempty in Hs |].
    destruct ts as [| t' ts].
    + simpl in *. now rewrite IH.
    + rewrite join_lines_cons by discriminate.
      rewrite join_lines_cons in IH by discriminate.
      rewrite <- IH. reflexivity.
Qed.

Lemma escape_ctrl_chars_plain t : plain_text t = true -> escape_ctrl_chars t = t.
Proof.
  unfold plain_text. induction t as [| c t IH]; simpl; [reflexivity |].
  intros Hplain. apply andb_true_iff in Hplain as [Hc Ht].
  apply negb_true_iff in Hc. rewrite Hc. now rewrite IH.
Qed.

Lemma plain_text_split_on s :
  plain_text s = true -> Forall (fun t => plain_text t = true) (split_on LF s).
Proof.
  unfold plain_text. induction s as [| c s IH]; simpl.
  - intros _. repeat constructor.
  - intros Hplain. apply andb_true_iff in Hplain as [Hc Hs].
    specialize (IH Hs).
    destruct (Ascii.eqb c LF).
    + constructor; [reflexivity | exact IH].
    + destruct (split_on LF s) as [| t ts]; [repeat constructor; simpl; now rewrite Hc |].
      apply Forall_cons in IH as [Ht Hts].
      constructor; [simpl; now rewrite Hc, Ht | exact Hts].
Qed.

(** A text without escaped control characters is read back as it was
    assigned. *)
Lemma stored_text_plain s : plain_text s = true -> stored_text s = s.
Proof.
  intros Hplain. unfold stored_text, text_of_paragraphs, paragraphs_of_text.
  rewrite map_map. cbn [p_text].
  rewrite <- (join_lines_split_on s) at 2. f_equal.
  apply plain_text_split_on in Hplain.
  induction Hplain as [| t ts Ht _ IH]; simpl; [reflexivity |].
  now rewrite IH, escape_ctrl_chars_plain.
Qed.

Lemma paragraphs_of_text_cons text :
  exists t ps, paragraphs_of_text text = {| p_text := t; p_font := inherited_font |} :: ps.
Proof.
  unfold paragraphs_of_text.
  destruct (split_on LF text) eqn:Hs; [now apply split_on_nonempty in Hs |].
  simpl. eauto.
Qed.

(** ** Slides *)

Lemma find_index_Some {A} (p : A -> bool) (l : list A) i :
  find_index p l = Some i -> exists x, l !! i = Some x /\ p x = true.
Proof.
  revert i. induction l as [| y l IH]; simpl; intros i; [discriminate |].
  destruct (p y) eqn:Hy.
  - intros [= <-]. eauto.
  - destruct (find_index p l) as [j |]; simpl; [| discriminate].
    intros [= <-]. apply (IH j eq_refl).
Qed.

Lemma find_index_insert {A} (p : A -> bool) (l : list A) pos x x' :
  l !! pos = Some x -> p x' = p x -> find_index p (<[pos := x']> l) = find_index p l.
Proof.
  revert pos. induction l as [| y l IH]; intros [| pos]; simpl; try discriminate.
  - intros [= ->] ->. reflexivity.
  - intros Hpos Hp. now rewrite (IH pos Hpos Hp).
Qed.

Lemma find_index_app_l {A} (p : A -> bool) (l extra : list A) i :
  find_index p l = Some i -> find_index p (l ++ extra)%list = Some i.
Proof.
  revert i. induction l as [| y l IH]; simpl; intros i; [discriminate |].
  destruct (p y); [trivial |].
  destruct (find_index p l) as [j |]; simpl; [| discriminate].
  intros [= <-]. now rewrite (IH j eq_refl).
Qed.

Lemma find_index_app_None (l : list Shape) idx img a b c d :
  find_index (is_placeholder_idx idx) l = None ->
  find_index (is_placeholder_idx idx) (l ++ [Picture img a b c d])%list = None.
Proof.
  induction l as [| y l IH]; simpl; [reflexivity |].
  destruct (is_placeholder_idx idx y); [discriminate |].
  destruct (find_index _ l); simpl; [discriminate |].
  intros _. now rewrite IH.
Qed.

Lemma has_placeholder_find l idx :
  has_placeholder l idx = true ->
  exists pos ty, find_index (is_placeholder_idx idx) (new_shapes (layout_placeholders l)) = Some pos /\
    new_shapes (layout_placeholders l) !! pos
    = Some (Placeholder idx ty [{| p_text := EmptyString; p_font := inherited_font |}]).
Proof.
  unfold has_placeholder, new_shapes.
  induction (layout_placeholders l) as [| lp lps IH]; simpl; [discriminate |].
  destruct (latent (lph_type lp)) eqn:Hlat; simpl.
  - rewrite andb_false_r. exact IH.
  - rewrite andb_true_r. destruct (Nat.eqb_spec (lph_idx lp) idx) as [<- | Hne]; simpl.
    + intros _. exists 0%nat, (lph_type lp). split; reflexivity.
    + intros Hrest. destruct (IH Hrest) as (pos & ty & Hfind & Hlook).
      exists (S pos), ty. rewrite Hfind. split; [reflexivity | exact Hlook].
Qed.

Lemma has_placeholder_None l idx :
  has_placeholder l idx = false ->
  find_index (is_placeholder_idx idx) (new_shapes (layout_placeholders l)) = None.
Proof.
  unfold has_placeholder, new_shapes.
  induction (layout_placeholders l) as [| lp lps IH]; simpl; [reflexivity |].
  destruct (latent (lph_type lp)) eqn:Hlat; simpl.
  - rewrite andb_false_r. exact IH.
  - rewrite andb_true_r. destruct (Nat.eqb (lph_idx lp) idx); simpl; [discriminate |].
    intros Hrest. now rewrite (IH Hrest).
Qed.

(** *** Steps on the slide added last *)

Section LastSlide.
Variables (old : list Slide) (prs : Presentation) (layout : nat).

Abbreviation deck shs :=
  (set_slides (old ++ [{| slide_layout := layout; shapes := shs |}])%list prs).

Lemma lookup_last_slide (sl : Slide) : (old ++ [sl])%list !! length old = Some sl.
Proof. now apply list_lookup_middle. Qed.

Lemma insert_last_slide (sl sl' : Slide) :
  <[length old := sl']> (old ++ [sl])%list = (old ++ [sl'])%list.
Proof.
  rewrite insert_app_r_alt by lia. now rewrite Nat.sub_diag.
Qed.

Lemma shapes_title_last shs :
  shapes_title (length old) (deck shs)
  = (Returned (find_index (is_placeholder_idx 0) shs), deck shs).
Proof.
  unfold shapes_title. cbn [slides set_slides]. now rewrite lookup_last_slide.
Qed.

Lemma placeholders_getitem_last shs idx :
  placeholders_getitem (length old) idx (deck shs)
  = match find_index (is_placeholder_idx idx) shs with
    | Some pos => (Returned (Some pos), deck shs)
    | None => (Raised (KeyError ("no placeholder on this slide with idx == "
                                  ++ decimal idx)), deck shs)
    end.
Proof.
  unfold placeholders_getitem. cbn [slides set_slides]. now rewrite lookup_last_slide.
Qed.

Lemma update_shape_last shs pos sh sh' f :
  shs !! pos = Some sh -> f sh = Returned sh' ->
  update_shape (length old) (Some pos) f (deck shs)
  = (Returned tt, deck (<[pos := sh']> shs)).
Proof.
  intros Hpos Hf. unfold update_shape. cbn [slides set_slides].
  rewrite lookup_last_slide. cbn [shapes slide_layout]. rewrite Hpos, Hf.
  rewrite insert_last_slide. reflexivity.
Qed.

Lemma set_text_last shs pos idx ty ps text :
  shs !! pos = Some (Placeholder idx ty ps) ->
  set_text (length old) (Some pos) text (deck shs)
  = (Returned tt, deck (<[pos := Placeholder idx ty (paragraphs_of_text text)]> shs)).
Proof. intros Hpos. unfold set_text. now apply update_shape_last with (sh := Placeholder idx ty ps). Qed.

Lemma set_text_None sid text s :
  set_text sid None text s = (Raised AttributeError, s).
Proof. reflexivity. Qed.

Lemma set_paragraph0_font_last shs pos idx ty p ps g :
  shs !! pos = Some (Placeholder idx ty (p :: ps)) ->
  set_paragraph0_font (length old) (Some pos) g (deck shs)
  = (Returned tt,
     deck (<[pos := Placeholder idx ty
                      ({| p_text := p_text p; p_font := g (p_font p) |} :: ps)]> shs)).
Proof.
  intros Hpos. unfold set_paragraph0_font.
  now apply update_shape_last with (sh := Placeholder idx ty (p :: ps)).
Qed.

Lemma add_slide_run l :
  slide_layouts prs !! layout = Some l -> slides prs = old ->
  add_slide layout prs = (Returned (length old), deck (new_shapes (layout_placeholders l))).
Proof. intros Hl <-. unfold add_slide. now rewrite Hl. Qed.

End LastSlide.

Lemma slide_layouts_getitem_run prs i :
  slide_layouts_getitem i prs
  = match slide_layouts prs !! i with
    | Some _ => (Returned i, prs)
    | None => (Raised IndexError, prs)
    end.
Proof. reflexivity. Qed.

Lemma on_prs_run {A} (m : M Presentation A) w prs r prs' :
  m prs = (r, prs') -> on_prs m (w, prs) = (r, (w, prs')).
Proof. intros Hm. unfold on_prs. simpl. now rewrite Hm. Qed.

(** A found placeholder shape is a placeholder of that idx. *)
Lemma find_placeholder shs idx pos :
  find_index (is_placeholder_idx idx) shs = Some pos ->
  exists ty ps, shs !! pos = Some (Placeholder idx ty ps).
Proof.
  intros Hfind. apply find_index_Some in Hfind as (sh & Hlook & Hidx).
  destruct sh as [idx' ty ps |]; [| discriminate].
  simpl in Hidx. apply Nat.eqb_eq in Hidx as ->. eauto.
Qed.

(** Replacing a placeholder by one of the same idx moves no placeholder. *)
Lemma find_index_replace shs pos idx ty ps ty' ps' i :
  shs !! pos = Some (Placeholder idx ty ps) ->
  find_index (is_placeholder_idx i) (<[pos := Placeholder idx ty' ps']> shs)
  = find_index (is_placeholder_idx i) shs.
Proof. intros Hpos. now apply find_index_insert with (x := Placeholder idx ty ps). Qed.

(** What replacing a placeholder by one of the same idx does to the
    shapes. *)
Lemma replace_placeholder shs pos idx ty ps ty' ps' :
  shs !! pos = Some (Placeholder idx ty ps) ->
  <[pos := Placeholder idx ty' ps']> shs !! pos = Some (Placeholder idx ty' ps') /\
  (forall q, q <> pos -> <[pos := Placeholder idx ty' ps']> shs !! q = shs !! q) /\
  (forall i, find_index (is_placeholder_idx i) (<[pos := Placeholder idx ty' ps']> shs)
             = find_index (is_placeholder_idx i) shs).
Proof.
  intros Hpos. repeat split.
  - apply list_lookup_insert_eq. now apply lookup_lt_Some in Hpos.
  - intros q Hq. now apply list_lookup_insert_ne.
  - intros i. now apply find_index_replace with (ty := ty) (ps := ps).
Qed.

(** ** [add_title_slide] *)

(** What [add_title_slide] does when the first layout offers a title
    placeholder and a placeholder of idx 1. *)
Lemma add_title_slide_run (prs : Presentation) (title subtitle : string)
    (l0 : SlideLayout) :
  slide_layouts prs !! 0%nat = Some l0 ->
  has_placeholder l0 0 = true ->
  has_placeholder l0 1 = true ->
  exists sl,
    add_title_slide title subtitle prs
    = (Returned tt, set_slides (slides prs ++ [sl])%list prs) /\
    length (slides prs ++ [sl])%list = S (length (slides prs)) /\
    slide_layout sl = 0%nat /\
    placeholder_text sl 0 = Some (stored_text title) /\
    placeholder_text sl 1 = Some (stored_text subtitle) /\
    (plain_text title = true -> placeholder_text sl 0 = Some title) /\
    (plain_text subtitle = true -> placeholder_text sl 1 = Some subtitle) /\
    title_font sl = Some {| font_name := None; font_size := Some (Pt 44);
                            font_color := Some DARK_BLUE |}.
Proof.
  intros Hl0 Ht Hs.
  destruct (has_placeholder_find l0 0 Ht) as (pt & tyt & Hfpt & Hlpt).
  destruct (has_placeholder_find l0 1 Hs) as (ps & tys & Hfps & Hlps).
  set (shs0 := new_shapes (layout_placeholders l0)) in *.
  assert (pt <> ps) as Hne by (intros ->; rewrite Hlpt in Hlps; discriminate).
  destruct (paragraphs_of_text_cons title) as (t0 & pars & Hpars).
  destruct (replace_placeholder shs0 pt 0 tyt _ tyt (paragraphs_of_text title) Hlpt)
    as (H1t & H1o & F1).
  set (shs1 := <[pt := Placeholder 0 tyt (paragraphs_of_text title)]> shs0) in *.
  assert (shs1 !! ps = Some (Placeholder 1 tys [{| p_text := EmptyString; p_font := inherited_font |}]))
    as H1s by (rewrite H1o by congruence; exact Hlps).
  destruct (replace_placeholder shs1 ps 1 tys _ tys (paragraphs_of_text subtitle) H1s)
    as (H2s & H2o & F2).
  set (shs2 := <[ps := Placeholder 1 tys (paragraphs_of_text subtitle)]> shs1) in *.
  assert (shs2 !! pt = Some (Placeholder 0 tyt ({| p_text := t0; p_font := inherited_font |} :: pars)))
    as H2t by (rewrite H2o by congruence; rewrite H1t, Hpars; reflexivity).
  destruct (replace_placeholder shs2 pt 0 tyt _ tyt
              ({| p_text := t0; p_font := with_color DARK_BLUE inherited_font |} :: pars) H2t)
    as (H3t & H3o & F3).
  set (shs3 := <[pt := _]> shs2) in H3t, H3o, F3.
  destruct (replace_placeholder shs3 pt 0 tyt _ tyt
              ({| p_text := t0;
                  p_font := with_size (Pt 44) (with_color DARK_BLUE inherited_font) |} :: pars) H3t)
    as (H4t & H4o & F4).
  set (shs4 := <[pt := _]> shs3) in H4t, H4o, F4.
  exists {| slide_layout := 0%nat; shapes := shs4 |}.
  assert (placeholder_text {| slide_layout := 0%nat; shapes := shs4 |} 0 = Some (stored_text title))
    as Htitle.
  { unfold placeholder_text, placeholder_shape. cbn [shapes].
    rewrite F4, F3, F2, F1, Hfpt, H4t. cbn [shape_text].
    unfold stored_text. rewrite Hpars. reflexivity. }
  assert (placeholder_text {| slide_layout := 0%nat; shapes := shs4 |} 1 = Some (stored_text subtitle))
    as Hsub.
  { unfold placeholder_text, placeholder_shape. cbn [shapes].
    rewrite F4, F3, F2, F1, Hfps, H4o, H3o, H2s by congruence. reflexivity. }
  repeat split.
  - unfold add_title_slide.
    rewrite (bind_returned _ _ _ 0%nat prs)
      by (rewrite slide_layouts_getitem_run, Hl0; reflexivity).
    rewrite (bind_returned _ _ _ _ _ (add_slide_run (slides prs) prs 0 l0 Hl0 eq_refl)).
    fold shs0.
    rewrite (bind_returned _ _ _ _ _ (shapes_title_last _ _ _ _)), Hfpt.
    rewrite (bind_returned _ _ _ _ _ (set_text_last _ _ _ _ _ _ _ _ title Hlpt)).
    fold shs1.
    rewrite (bind_returned _ _ _ (Some ps) (set_slides (slides prs ++ [{| slide_layout := 0%nat; shapes := shs1 |}])%list prs))
      by (rewrite placeholders_getitem_last, F1, Hfps; reflexivity).
    rewrite (bind_returned _ _ _ _ _ (set_text_last _ _ _ _ _ _ _ _ subtitle H1s)).
    fold shs2.
    rewrite (bind_returned _ _ _ _ _ (shapes_title_last _ _ _ _)), F2, F1, Hfpt.
    rewrite (bind_returned _ _ _ _ _
               (set_paragraph0_font_last _ _ _ _ _ _ _ _ _ (with_color DARK_BLUE) H2t)).
    cbn [p_text p_font]. fold shs3.
    rewrite (set_paragraph0_font_last _ _ _ _ _ _ _ _ _ (with_size (Pt 44)) H3t).
    reflexivity.
  - rewrite length_app. simpl. lia.
  - exact Htitle.
  - exact Hsub.
  - intros Hplain. now rewrite Htitle, stored_text_plain.
  - intros Hplain. now rewrite Hsub, stored_text_plain.
  - unfold title_font, placeholder_shape. cbn [shapes].
    rewrite F4, F3, F2, F1, Hfpt, H4t. reflexivity.
Qed.

(** C9, as the code has it.  When the first layout of the presentation has
    a title placeholder (idx 0) and a placeholder of idx 1 that slides take
    over, as in the default template, and neither text holds a control
    character that python-pptx escapes, [add_title_slide] returns with
    exactly one slide more, added last, the slides that were there as
    before; on the new slide the title placeholder reads the given title
    and the placeholder of idx 1 the given subtitle, the title in dark
    blue at 44 pt. *)
Theorem add_title_slide_appends (prs : Presentation) (title subtitle : string)
    (l0 : SlideLayout) :
  slide_layouts prs !! 0%nat = Some l0 ->
  has_placeholder l0 0 = true ->
  has_placeholder l0 1 = true ->
  plain_text title = true ->
  plain_text subtitle = true ->
  exists sl,
    add_title_slide title subtitle prs
    = (Returned tt, set_slides (slides prs ++ [sl])%list prs) /\
    length (slides prs ++ [sl])%list = S (length (slides prs)) /\
    (slides prs ++ [sl])%list !! length (slides prs) = Some sl /\
    (forall i sl', slides prs !! i = Some sl' -> (slides prs ++ [sl])%list !! i = Some sl') /\
    placeholder_text sl 0 = Some title /\
    placeholder_text sl 1 = Some subtitle /\
    title_font sl = Some {| font_name := None; font_size := Some (Pt 44);
                            font_color := Some DARK_BLUE |}.
Proof.
  intros Hl0 Ht Hs Hplain_title Hplain_subtitle.
  destruct (add_title_slide_run prs title subtitle l0 Hl0 Ht Hs)
    as (sl & Hrun & Hlen & _ & _ & _ & Htitle & Hsub & Hfont).
  exists sl. repeat split; auto.
  - apply lookup_last_slide.
  - intros i sl' Hi. now apply lookup_app_l_Some.
Qed.

(** ** [add_content_slide] *)

Section ContentSlide.
Context {P : Platform}.

Lemma add_picture_last old prs layout shs w path a b c d :
  add_picture (length old) path a b c d
    (w, set_slides (old ++ [{| slide_layout := layout; shapes := shs |}])%list prs)
  = match image_at w path with
    | Some img =>
        (Returned tt,
         (w, set_slides (old ++ [{| slide_layout := layout;
                                    shapes := (shs ++ [Picture img a b c d])%list |}])%list prs))
    | None =>
        (Raised (match fs w !! path with
                 | None => missing_path_error (fs w) path
                 | Some Dir => IsADirectoryError path
                 | Some (File _) => UnidentifiedImageError path
                 end),
         (w, set_slides (old ++ [{| slide_layout := layout; shapes := shs |}])%list prs))
    end.
Proof.
  unfold add_picture, image_at. cbn [fst snd slides set_slides].
  destruct (fs w !! path) as [[| [t | img | p]] |]; try reflexivity.
  rewrite lookup_last_slide, insert_last_slide. reflexivity.
Qed.

Lemma pictures_new_shapes phs :
  List.filter is_picture (new_shapes phs) = [].
Proof.
  unfold new_shapes. induction (List.filter _ phs) as [| lp lps IH]; simpl; auto.
Qed.

Lemma pictures_insert_placeholder shs pos idx ty ps :
  List.filter is_picture shs = [] ->
  List.filter is_picture (<[pos := Placeholder idx ty ps]> shs) = [].
Proof.
  revert pos. induction shs as [| sh shs IH]; intros pos; simpl; [auto |].
  destruct (is_picture sh) eqn:Hsh; [discriminate |].
  intros Hrest. destruct pos as [| pos]; simpl.
  - exact Hrest.
  - rewrite Hsh. now apply IH.
Qed.

(** What [add_content_slide] does, case by case: without a sixth layout,
    or without a title placeholder on it, or without a readable image
    under the path, it raises; otherwise it returns with one slide more. *)
Lemma add_content_slide_run (w : world) (prs : Presentation) (title image_path : string) :
  match slide_layouts prs !! 5%nat with
  | None =>
      exists e extra,
        add_content_slide title image_path (w, prs)
        = (Raised e, (w, set_slides (slides prs ++ extra)%list prs))
  | Some l5 =>
      if has_placeholder l5 0
      then match image_at w image_path with
           | Some img =>
               exists sl,
                 add_content_slide title image_path (w, prs)
                 = (Returned tt, (w, set_slides (slides prs ++ [sl])%list prs)) /\
                 slide_layout sl = 5%nat /\
                 placeholder_text sl 0 = Some (stored_text title) /\
                 pictures sl = [placed_picture img] /\
                 title_font sl = Some {| font_name := None; font_size := Some (Pt 32);
                                         font_color := Some DARK_BLUE |}
           | None =>
               exists e extra,
                 add_content_slide title image_path (w, prs)
                 = (Raised e, (w, set_slides (slides prs ++ extra)%list prs))
           end
      else exists e extra,
             add_content_slide title image_path (w, prs)
             = (Raised e, (w, set_slides (slides prs ++ extra)%list prs))
  end.
Proof.
  unfold add_content_slide.
  destruct (slide_layouts prs !! 5%nat) as [l5 |] eqn:Hl5.
  2: { exists IndexError, []. rewrite (bind_raised _ _ _ IndexError (w, prs)).
       - rewrite app_nil_r. now destruct prs.
       - apply on_prs_run. now rewrite slide_layouts_getitem_run, Hl5. }
  rewrite (bind_returned _ _ _ 5%nat (w, prs))
    by (apply on_prs_run; now rewrite slide_layouts_getitem_run, Hl5).
  rewrite (bind_returned _ _ _ _ _
             (on_prs_run _ w _ _ _ (add_slide_run (slides prs) prs 5 l5 Hl5 eq_refl))).
  set (shs0 := new_shapes (layout_placeholders l5)).
  rewrite (bind_returned _ _ _ _ _ (on_prs_run _ w _ _ _ (shapes_title_last _ _ _ _))).
  destruct (has_placeholder l5 0) eqn:Ht.
  2: { fold shs0. unfold shs0 at 1. rewrite (has_placeholder_None l5 0 Ht).
       do 2 eexists. apply bind_raised. apply on_prs_run. apply set_text_None. }
  destruct (has_placeholder_find l5 0 Ht) as (pt & tyt & Hfpt & Hlpt).
  fold shs0 in Hfpt, Hlpt. rewrite Hfpt.
  rewrite (bind_returned _ _ _ _ _
             (on_prs_run _ w _ _ _ (set_text_last _ _ _ _ _ _ _ _ title Hlpt))).
  destruct (paragraphs_of_text_cons title) as (t0 & pars & Hpars).
  destruct (replace_placeholder shs0 pt 0 tyt _ tyt (paragraphs_of_text title) Hlpt)
    as (H1t & H1o & F1).
  set (shs1 := <[pt := Placeholder 0 tyt (paragraphs_of_text title)]> shs0) in *.
  cbv zeta.
  destruct (image_at w image_path) as [img |] eqn:Himg.
  2: { unfold bind at 1. rewrite add_picture_last, Himg. do 2 eexists. reflexivity. }
  unfold bind at 1. rewrite add_picture_last, Himg.
  set (pic := Picture img (Inches 1 1) (Inches 3 2) (Inches 8 1) (Inches 11 2)).
  assert (find_index (is_placeholder_idx 0) (shs1 ++ [pic])%list = Some pt) as F2.
  { apply find_index_app_l. now rewrite F1. }
  assert ((shs1 ++ [pic])%list !! pt
          = Some (Placeholder 0 tyt ({| p_text := t0; p_font := inherited_font |} :: pars)))
    as H2t.
  { rewrite <- Hpars. now apply lookup_app_l_Some. }
  destruct (replace_placeholder _ pt 0 tyt _ tyt
              ({| p_text := t0; p_font := with_color DARK_BLUE inherited_font |} :: pars) H2t)
    as (H3t & H3o & F3).
  set (shs3 := <[pt := _]> (shs1 ++ [pic])%list) in H3t, H3o, F3.
  destruct (replace_placeholder shs3 pt 0 tyt _ tyt
              ({| p_text := t0;
                  p_font := with_size (Pt 32) (with_color DARK_BLUE inherited_font) |} :: pars) H3t)
    as (H4t & H4o & F4).
  set (shs4 := <[pt := _]> shs3) in H4t, H4o, F4.
  exists {| slide_layout := 5%nat; shapes := shs4 |}. repeat split.
  - rewrite (bind_returned _ _ _ _ _ (on_prs_run _ w _ _ _ (shapes_title_last _ _ _ _))), F2.
    rewrite (bind_returned _ _ _ _ _
               (on_prs_run _ w _ _ _
                  (set_paragraph0_font_last _ _ _ _ _ _ _ _ _ (with_color DARK_BLUE) H2t))).
    cbn [p_text p_font]. fold shs3.
    apply on_prs_run.
    rewrite (set_paragraph0_font_last _ _ _ _ _ _ _ _ _ (with_size (Pt 32)) H3t).
    reflexivity.
  - unfold placeholder_text, placeholder_shape. cbn [shapes].
    rewrite F4, F3, F2, H4t. cbn [shape_text]. unfold stored_text. now rewrite Hpars.
  - unfold pictures. cbn [shapes]. unfold shs4, shs3.
    assert (pt < length shs1)%nat as Hlt by (now apply lookup_lt_Some in H1t).
    rewrite !insert_app_l by (rewrite ?length_insert; exact Hlt).
    rewrite List.filter_app. cbn [List.filter is_picture pic].
    match goal with |- (?l ++ _)%list = _ => assert (l = []) as -> end; [| reflexivity].
    do 2 apply pictures_insert_placeholder. unfold shs1.
    apply pictures_insert_placeholder, pictures_new_shapes.
  - unfold title_font, placeholder_shape. cbn [shapes].
    rewrite F4, F3, F2, H4t. reflexivity.
Qed.

(** C10, as the code has it.  When the sixth layout of the presentation
    (index 5) has a title placeholder that slides take over, as in the
    default template, the path holds a readable image, and the title holds
    no control character that python-pptx escapes, [add_content_slide]
    returns with exactly one slide more, added last; the slides that were
    there are the same as before, in the same places, and the world is the
    same.  The new slide's title reads the given title, in dark blue at
    32 pt, and its only picture is the image, at the fixed place and
    size. *)
Theorem add_content_slide_appends (w : world) (prs : Presentation)
    (title image_path : string) (l5 : SlideLayout) (img : figure) :
  slide_layouts prs !! 5%nat = Some l5 ->
  has_placeholder l5 0 = true ->
  image_at w image_path = Some img ->
  plain_text title = true ->
  exists sl,
    add_content_slide title image_path (w, prs)
    = (Returned tt, (w, set_slides (slides prs ++ [sl])%list prs)) /\
    length (slides prs ++ [sl])%list = S (length (slides prs)) /\
    (slides prs ++ [sl])%list !! length (slides prs) = Some sl /\
    (forall i sl', slides prs !! i = Some sl' -> (slides prs ++ [sl])%list !! i = Some sl') /\
    placeholder_text sl 0 = Some title /\
    pictures sl = [placed_picture img] /\
    title_font sl = Some {| font_name := None; font_size := Some (Pt 32);
                            font_color := Some DARK_BLUE |}.
Proof.
  intros Hl5 Ht Himg Hplain.
  pose proof (add_content_slide_run w prs title image_path) as Hrun.
  rewrite Hl5, Ht, Himg in Hrun.
  destruct Hrun as (sl & Hrun & _ & Htext & Hpics & Hfont).
  exists sl. repeat split; try assumption.
  - rewrite length_app. simpl. lia.
  - apply lookup_last_slide.
  - intros i sl' Hi. now apply lookup_app_l_Some.
  - now rewrite Htext, stored_text_plain.
Qed.

End ContentSlide.

(** ** The deck-building loop *)

Section DeckFacts.
Context {P : Platform}.

Lemma add_content_slide_Returned w prs title image_path s' :
  add_content_slide title image_path (w, prs) = (Returned tt, s') ->
  exists sl img,
    s' = (w, set_slides (slides prs ++ [sl])%list prs) /\
    image_at w image_path = Some img /\
    slide_layout sl = 5%nat /\
    placeholder_text sl 0 = Some (stored_text title) /\
    pictures sl = [placed_picture img].
Proof.
  intros Hret. pose proof (add_content_slide_run w prs title image_path) as Hrun.
  destruct (slide_layouts prs !! 5%nat) as [l5 |];
    [| destruct Hrun as (e & extra & Hrun); congruence].
  destruct (has_placeholder l5 0); [| destruct Hrun as (e & extra & Hrun); congruence].
  destruct (image_at w image_path) as [img |];
    [| destruct Hrun as (e & extra & Hrun); congruence].
  destruct Hrun as (sl & Hrun & Hlayout & Htext & Hpics & _).
  exists sl, img. repeat split; try assumption. congruence.
Qed.

(** The loop adds one slide per path, in the order of the paths. *)
Lemma for_each_content_slides (paths : list string) w prs s' :
  for_each paths (fun img_path => add_content_slide (slide_title img_path) img_path) (w, prs)
  = (Returned tt, s') ->
  exists new,
    s' = (w, set_slides (slides prs ++ new)%list prs) /\
    Forall2 (content_slide_for w) paths new.
Proof.
  revert prs. induction paths as [| path paths IH]; intros prs; simpl.
  - unfold ret. intros [= <-]. exists []. split; [| constructor].
    rewrite app_nil_r. now destruct prs.
  - intros Hrun. apply bind_inv in Hrun as ([] & s1 & Hadd & Hrest).
    apply add_content_slide_Returned in Hadd as (sl & img & -> & Himg & Hlayout & Htext & Hpics).
    apply IH in Hrest as (new & -> & Hnew).
    exists (sl :: new). split.
    + cbn [slides set_slides]. rewrite <- app_assoc. reflexivity.
    + constructor; [| exact Hnew]. exists img. auto.
Qed.

Lemma iterdir_Returned dir w paths w' :
  iterdir dir w = (Returned paths, w') ->
  w' = w /\ paths = enumerate (entries (fs w) dir) /\ fs w !! dir = Some Dir.
Proof.
  unfold iterdir. destruct (fs w !! dir) as [[| c] |]; try discriminate.
  intros [= <- <-]. auto.
Qed.

Lemma new_presentation_title_layout :
  exists l0, slide_layouts new_presentation !! 0%nat = Some l0 /\
             has_placeholder l0 0 = true /\ has_placeholder l0 1 = true.
Proof. eexists. repeat split. Qed.

(** [build_deck] on a new presentation: the title slide, then one content
    slide per entry of the chart directory, in the order of enumeration. *)
Lemma build_deck_Returned w s' :
  build_deck (w, new_presentation) = (Returned tt, s') ->
  exists first new,
    s' = (w, set_slides (first :: new) new_presentation) /\
    placeholder_text first 0 = Some "Netflix Content Analysis" /\
    placeholder_text first 1
    = Some "Insights from the Netflix Movies and TV Shows Dataset" /\
    Forall2 (content_slide_for w) (enumerate (entries (fs w) "img/slides")) new /\
    length (first :: new) = S (length (entries (fs w) "img/slides")).
Proof.
  unfold build_deck. intros Hrun.
  destruct new_presentation_title_layout as (l0 & Hl0 & Ht & Hs).
  destruct (add_title_slide_run new_presentation "Netflix Content Analysis"
              "Insights from the Netflix Movies and TV Shows Dataset" l0 Hl0 Ht Hs)
    as (first & Hadd & _ & _ & _ & _ & Htitle & Hsub & _).
  rewrite (bind_returned _ _ _ _ _ (on_prs_run _ w _ _ _ Hadd)) in Hrun.
  apply bind_inv in Hrun as (paths & s1 & Hiter & Hloop).
  unfold on_world in Hiter. cbn [fst snd] in Hiter.
  destruct (iterdir "img/slides" w) as [o w1] eqn:Hdir.
  assert (o = Returned paths /\ s1 = (w1, set_slides (slides new_presentation ++ [first])%list
                                            new_presentation)) as [-> ->]
    by (split; congruence).
  apply iterdir_Returned in Hdir as (-> & -> & _).
  apply for_each_content_slides in Hloop as (new & -> & Hnew).
  exists first, new. repeat split.
  - apply Htitle. reflexivity.
  - apply Hsub. reflexivity.
  - exact Hnew.
  - simpl. f_equal. rewrite <- (Forall2_length _ _ _ Hnew).
    apply Permutation_length, enumerate_perm.
Qed.

Lemma for_each_content_slides_returns (paths : list string) w prs l5 :
  slide_layouts prs !! 5%nat = Some l5 ->
  has_placeholder l5 0 = true ->
  (forall p, In p paths -> is_Some (image_at w p)) ->
  exists s',
    for_each paths (fun img_path => add_content_slide (slide_title img_path) img_path) (w, prs)
    = (Returned tt, s').
Proof.
  intros Hl5 Ht. revert prs Hl5.
  induction paths as [| path paths IH]; intros prs Hl5 Himages; simpl.
  - unfold ret. eauto.
  - destruct (Himages path (or_introl eq_refl)) as [img Himg].
    pose proof (add_content_slide_run w prs (slide_title path) path) as Hrun.
    rewrite Hl5, Ht, Himg in Hrun. destruct Hrun as (sl & Hrun & _).
    rewrite (bind_returned _ _ _ _ _ Hrun).
    apply IH; [exact Hl5 |]. intros p Hp. apply Himages. now right.
Qed.

(** With the chart directory in place and a readable image under each of
    its entries, [build_deck] returns. *)
Lemma build_deck_returns w :
  fs w !! "img/slides" = Some Dir ->
  (forall p, In p (entries (fs w) "img/slides") -> is_Some (image_at w p)) ->
  exists s', build_deck (w, new_presentation) = (Returned tt, s').
Proof.
  intros Hdir Himages. unfold build_deck.
  destruct new_presentation_title_layout as (l0 & Hl0 & Ht & Hs).
  destruct (add_title_slide_run new_presentation "Netflix Content Analysis"
              "Insights from the Netflix Movies and TV Shows Dataset" l0 Hl0 Ht Hs)
    as (first & Hadd & _).
  rewrite (bind_returned _ _ _ _ _ (on_prs_run _ w _ _ _ Hadd)).
  assert (on_world (iterdir "img/slides")
            (w, set_slides (slides new_presentation ++ [first])%list new_presentation)
          = (Returned (enumerate (entries (fs w) "img/slides")),
             (w, set_slides (slides new_presentation ++ [first])%list new_presentation)))
    as Hiter.
  { unfold on_world, iterdir. cbn [fst snd]. now rewrite Hdir. }
  rewrite (bind_returned _ _ _ _ _ Hiter).
  eapply for_each_content_slides_returns.
  - reflexivity.
  - reflexivity.
  - intros p Hp. apply Himages.
    apply (Permutation_in _ (enumerate_perm (entries (fs w) "img/slides"))). exact Hp.
Qed.

End DeckFacts.

(** ** [main] *)

Section MainClaims.
Context {P : Platform}.

Lemma save_Returned path w prs s' :
  save path (w, prs) = (Returned tt, s') ->
  s' = (set_fs (<[path := File (Deck prs)]> (fs w)) w, prs).
Proof.
  unfold save. cbn [fst snd].
  destruct (fs w !! path) as [[| c] |]; try discriminate; now intros [= <-].
Qed.

Lemma on_prs_Returned {A} (m : M Presentation A) w prs a s' :
  on_prs m (w, prs) = (Returned a, s') ->
  exists prs', m prs = (Returned a, prs') /\ s' = (w, prs').
Proof.
  unfold on_prs. cbn [fst snd]. destruct (m prs) as [o prs'].
  intros [= -> <-]. eauto.
Qed.

Lemma entries_insert_other (f : gmap string node) dir k v :
  is_entry dir k = false -> entries (<[k := v]> f) dir = entries f dir.
Proof.
  intros Hk. unfold entries. rewrite map_filter_insert_not; [reflexivity |].
  intros y. simpl. now rewrite Hk.
Qed.

(** C5.  When [main] returns, the presentation it saved first, under
    [Netflix_Content_Analysis.pptx], holds the title slide followed by
    exactly one content slide for each entry the chart directory had when
    the deck was built (after the charts were written), in the order in
    which the directory was enumerated: each with the picture of that file
    and the title made from its name.  Its slide count is 1 plus the number
    of those entries, which are still the entries of the directory when
    [main] ends. *)
Theorem main_deck_follows_chart_directory (w w' : world) :
  main w = (Returned tt, w') ->
  exists df w1 wb first new,
    load_and_clean_data "./data/netflix_titles.csv"
      (set_log (log w ++ [(INFO, "Starting Netflix content analysis...")])%list w)
    = (Returned df, w1) /\
    generate_charts df w1 = (Returned tt, wb) /\
    fs w' !! "Netflix_Content_Analysis.pptx"
    = Some (File (Deck (set_slides (first :: new) new_presentation))) /\
    placeholder_text first 0 = Some "Netflix Content Analysis" /\
    Forall2 (content_slide_for wb) (enumerate (entries (fs wb) "img/slides")) new /\
    length (first :: new) = S (length (entries (fs wb) "img/slides")) /\
    entries (fs w') "img/slides" = entries (fs wb) "img/slides".
Proof.
  unfold main. intros Hrun.
  apply bind_inv in Hrun as ([] & w0 & Hstart & Hrun).
  unfold logger_info, modify in Hstart. apply pair_equal_spec in Hstart as [_ <-].
  apply bind_inv in Hrun as (df & w1 & Hload & Hrun).
  apply bind_inv in Hrun as ([] & wb & Hcharts & Hrun).
  unfold with_presentation in Hrun.
  match type of Hrun with context [bind ?m ?k (wb, new_presentation)] =>
    destruct (bind m k (wb, new_presentation)) as [o s6] eqn:Hdeck end.
  assert (o = Returned tt /\ w' = fst s6) as [-> ->] by (split; congruence).
  clear Hrun.
  apply bind_inv in Hdeck as ([] & s1 & Hbuild & Hdeck).
  apply build_deck_Returned in Hbuild as (first & new & -> & Htitle & _ & Hnew & Hlen).
  apply bind_inv in Hdeck as ([] & s2 & Hsave & Hdeck).
  apply save_Returned in Hsave as ->.
  apply bind_inv in Hdeck as ([] & s3 & Hlog & Hdeck).
  unfold on_world, logger_info, modify in Hlog. cbn [fst snd] in Hlog.
  apply pair_equal_spec in Hlog as [_ <-].
  apply bind_inv in Hdeck as ([] & s4 & Htheme & Hdeck).
  apply on_prs_Returned in Htheme as (themed & _ & ->).
  apply bind_inv in Hdeck as ([] & s5 & Hsave2 & Hdeck).
  apply save_Returned in Hsave2 as ->.
  unfold on_world, logger_info, modify in Hdeck. cbn [fst snd] in Hdeck.
  apply pair_equal_spec in Hdeck as [_ <-].
  exists df, w1, wb, first, new. cbn [fst snd fs set_fs set_log].
  repeat split; try assumption.
  - rewrite lookup_insert_ne by discriminate. apply lookup_insert_eq.
  - rewrite !entries_insert_other by reflexivity. reflexivity.
Qed.

(** C4, as the code has it.  Take a path under which nothing is.  When
    opening it fails because the file is not there (the system accepts the
    path, and the path does not lead through a regular file),
    [load_and_clean_data] logs one error and ends the process with exit
    status 1: nothing that would follow the call runs, and the file system
    is as before, so no image or document has been written; for [main],
    whose path is fixed, the whole run ends with status 1, the file system
    untouched.  When opening it fails for another reason, the exception is
    not the one the handler takes: it leaves the function, nothing is
    logged and the process does not end with [sys.exit(1)]. *)
Theorem missing_input_file_exits (path : string) (w : world) :
  fs w !! path = None ->
  (path_refused path = None -> below_a_file (fs w) path = false ->
   load_and_clean_data path w = (Exited 1, after_load_error path w) /\
   fs (after_load_error path w) = fs w /\
   log (after_load_error path w)
   = (log w ++ [(ERROR, ("Error loading data: "
                         ++ exn_message (FileNotFoundError path))%string)])%list /\
   (forall A (rest : DataFrame -> M world A),
      bind (load_and_clean_data path) rest w = (Exited 1, after_load_error path w)) /\
   (path = "./data/netflix_titles.csv" ->
    exists w', main w = (Exited 1, w') /\ fs w' = fs w /\
               log w' = (log w ++ [(INFO, "Starting Netflix content analysis...");
                                   (ERROR, ("Error loading data: "
                                            ++ exn_message (FileNotFoundError path))%string)])%list)) /\
  (is_Some (path_refused path) \/ below_a_file (fs w) path = true ->
   exists e, load_and_clean_data path w = (Raised e, w) /\
             is_FileNotFoundError e = false).
Proof.
  intros Hmissing. split.
  - intros Href Hbelow. repeat split.
    + now apply load_and_clean_data_missing.
    + intros A rest. apply bind_exited. now apply load_and_clean_data_missing.
    + intros ->. unfold main.
      unfold bind at 1. unfold logger_info at 1, modify.
      match goal with |- context [bind _ _ ?w0] =>
        rewrite (bind_exited _ _ w0 1 (after_load_error "./data/netflix_titles.csv" w0))
          by (now apply load_and_clean_data_missing) end.
      eexists. split; [reflexivity |]. split; [reflexivity |].
      cbn [log after_load_error set_log]. rewrite <- app_assoc. reflexivity.
  - intros Hother.
    assert (is_FileNotFoundError (missing_path_error (fs w) path) = false) as He.
    { destruct (missing_path_error_cases (fs w) path) as [(Href & Hbelow & _) | He];
        [| exact He].
      destruct Hother as [[e Hsome] | Hb]; congruence. }
    exists (missing_path_error (fs w) path). split; [| exact He].
    now apply load_and_clean_data_unopenable.
Qed.

End MainClaims.

(** ** When [main] returns *)

Section MainReturns.
Context {P : Platform}.

Lemma In_entries (f : gmap string node) dir p :
  In p (entries f dir) <-> is_Some (f !! p) /\ is_entry dir p = true.
Proof.
  unfold entries. rewrite in_map_iff. split.
  - intros ([k v] & <- & Hin). apply list_elem_of_In, elem_of_map_to_list in Hin.
    apply map_lookup_filter_Some in Hin as [Hk Hp]. simpl in *. eauto.
  - intros [[v Hv] Hp]. exists (p, v). split; [reflexivity |].
    apply list_elem_of_In, elem_of_map_to_list, map_lookup_filter_Some. auto.
Qed.

Lemma append_inv_l (dir a b : string) : (dir ++ a)%string = (dir ++ b)%string -> a = b.
Proof.
  induction dir as [| c dir IH]; cbn [String.append].
  - trivial.
  - intros [= H]. now apply IH.
Qed.

(** The charts of [main] have plain names with the extension [png]: they
    are written under these names, inside the chart directory. *)
Lemma chart_file_target f :
  In f chart_files ->
  chart_target f = ("img/slides/" ++ f)%string /\
  path_join "img/slides" f = ("img/slides/" ++ f)%string.
Proof.
  unfold chart_files. simpl. intros H.
  repeat (destruct H as [<- | H]; [split; reflexivity |]). destruct H.
Qed.

Lemma strip_prefix_Some q p name : strip_prefix q p = Some name -> p = q ++ name.
Proof.
  revert p. induction q as [| c q IH]; intros p; simpl.
  - now intros [= ->].
  - destruct p as [| d p]; [discriminate |].
    destruct (Ascii.eqb_spec c d) as [-> | _]; [| discriminate].
    intros Hp. change (String d p = String d (q ++ name)). f_equal. now apply IH.
Qed.

Lemma append_slash dir name : (dir ++ "/") ++ name = dir ++ "/" ++ name.
Proof.
  induction dir as [| c dir IH]; [reflexivity |].
  change (String c ((dir ++ "/") ++ name) = String c (dir ++ "/" ++ name)).
  now rewrite IH.
Qed.

Lemma is_entry_prefix dir p :
  is_entry dir p = true -> exists name, p = (dir ++ "/" ++ name)%string.
Proof.
  unfold is_entry, entry_name. intros H. apply bool_decide_eq_true in H.
  destruct (strip_prefix (dir ++ "/") p) as [name |] eqn:Hstrip; [| now destruct H].
  exists name. apply strip_prefix_Some in Hstrip. now rewrite <- append_slash.
Qed.

(** One chart more keeps the world writable. *)
Lemma writable_charted filename w w' :
  In filename chart_files -> writable w -> charted filename w w' -> writable w'.
Proof.
  intros Hfile (Hdir & Hpaths & Himages & Hplain & Hthemed) (Hfig & Hslides & Himg & Hother).
  destruct (chart_file_target filename Hfile) as [Htarget Hjoin].
  unfold writable, chart_dir_available. rewrite Hslides.
  repeat split.
  - intros f Hf. destruct (chart_file_target f Hf) as [_ Hjf].
    destruct (decide (f = filename)) as [-> | Hne].
    + destruct Himg as [img Himg]. unfold image_at in Himg.
      rewrite Hjoin, <- Htarget.
      destruct (fs w' !! chart_target filename) as [[| c] |]; congruence.
    + rewrite Hother.
      * now apply Hpaths.
      * rewrite Htarget, Hjf. intros Heq. now apply append_inv_l in Heq.
      * rewrite Hjf. discriminate.
      * rewrite Hjf. discriminate.
  - intros p Hp. apply In_entries in Hp as [Hsome Hentry].
    destruct (decide (p = chart_target filename)) as [-> | Hne]; [exact Himg |].
    destruct (is_entry_prefix _ _ Hentry) as [name ->].
    assert (fs w' !! ("img/slides" ++ "/" ++ name)%string
            = fs w !! ("img/slides" ++ "/" ++ name)%string) as Heq.
    { apply Hother; [exact Hne | |]; discriminate. }
    unfold image_at. rewrite Heq. apply (Himages ("img/slides" ++ "/" ++ name)%string).
    apply In_entries. rewrite <- Heq. auto.
  - rewrite Hother; [exact Hplain | | |]; rewrite ?Htarget; discriminate.
  - rewrite Hother; [exact Hthemed | | |]; rewrite ?Htarget; discriminate.
Qed.

(** A chart whose plotting branch returns is written. *)
Lemma create_chart_charted data title filename kind figsize w w1 :
  writable w -> In filename chart_files ->
  can_save (path_join "img/slides" filename) = true ->
  plot_branch data kind
    (set_style (Some "whitegrid") (set_figures (new_figure figsize :: figures w) w))
  = (Returned tt, w1) ->
  fs w1 = fs w ->
  (exists fg, figures w1 = fg :: figures w) ->
  exists w', create_chart data title filename kind figsize w = (Returned tt, w') /\
             charted filename w w'.
Proof.
  intros (Hdir & Hpaths & _) Hfile Hsave Hbranch Hfs [fg Hfig].
  destruct (chart_file_target filename Hfile) as [Htarget Hjoin].
  assert (chart_target filename = path_join "img/slides" filename) as Hsame by congruence.
  rewrite create_chart_unfold.
  unfold plt_figure, sns_set_style, modify.
  unfold bind at 1. unfold bind at 1. rewrite (bind_returned _ _ _ _ _ Hbranch).
  unfold finish_chart, plt_title, plt_xlabel, plt_xticks, plt_tight_layout,
    on_current_figure, modify.
  unfold bind at 1. rewrite Hfig.
  unfold bind at 1. cbn [figures set_figures].
  unfold bind at 1. cbn [figures set_figures].
  unfold bind at 1. cbn [figures set_figures].
  match goal with |- context [bind (mkdir_parents _ _) _ ?w0] =>
    destruct (mkdir_parents_chart_dir w0) as (w2 & Hmk & Hlog2 & Hfig2 & _ & Hslides2 & Hfs2) end.
  { cbn [fs set_figures]. now rewrite Hfs. }
  rewrite (bind_returned _ _ _ _ _ Hmk).
  destruct (chart_path_not_dir_name filename) as [Hne1 Hne2].
  cbn [fs log figures set_figures] in Hfs2, Hlog2, Hfig2.
  assert (can_save (savefig_target (path_join "img/slides" filename)) = true) as Hsave'.
  { fold (chart_target filename). now rewrite Hsame. }
  assert (fs w2 !! savefig_target (path_join "img/slides" filename) <> Some Dir) as Hfree.
  { fold (chart_target filename). rewrite (Hfs2 _ Hne1 Hne2), Hfs, Hsame.
    exact (Hpaths filename Hfile). }
  rewrite (bind_returned _ _ _ _ _ (plt_savefig_writes _ w2 Hsave' Hfree)).
  unfold bind, logger_info, plt_close, modify.
  eexists. split; [reflexivity |].
  unfold charted, image_at. cbn [fs set_fs set_log set_figures log figures].
  fold (chart_target filename).
  rewrite Hfig2. repeat split.
  - rewrite lookup_insert_ne by congruence. exact Hslides2.
  - rewrite lookup_insert_eq. eauto.
  - intros p H1 H2 H3. rewrite lookup_insert_ne by congruence.
    rewrite (Hfs2 p H2 H3). now rewrite Hfs.
Qed.

Lemma draw_returns p w :
  renders p = true ->
  exists w1, draw p w = (Returned tt, w1) /\ fs w1 = fs w /\
             forall fg rest, figures w = fg :: rest -> figures w1 = with_plot p fg :: rest.
Proof.
  intros Hp. unfold draw. rewrite Hp. unfold on_current_figure, modify.
  eexists. split; [reflexivity |]. split.
  - destruct (figures w); reflexivity.
  - intros fg rest Hfig. rewrite Hfig. reflexivity.
Qed.

Lemma plot_branch_returns data kind w fg rest :
  (forall p, renders p = true) ->
  In kind code_kinds ->
  (kind = "count" -> exists order, rating_order data = Returned order) ->
  figures w = fg :: rest ->
  exists w1, plot_branch data kind w = (Returned tt, w1) /\ fs w1 = fs w /\
             exists fg', figures w1 = fg' :: rest.
Proof.
  intros Hrenders Hkind Hcount Hfig. unfold code_kinds in Hkind. simpl in Hkind.
  destruct Hkind as [<- | [<- | [<- | [<- | [<- | []]]]]];
    cbn [plot_branch String.eqb Ascii.eqb Bool.eqb].
  1-4: match goal with |- context [draw ?p] =>
         destruct (draw_returns p w (Hrenders p)) as (w1 & Hrun & Hfs & Hfigs) end;
       exists w1; repeat split; [exact Hrun | exact Hfs | eexists; apply Hfigs; exact Hfig].
  destruct (Hcount eq_refl) as [order Horder].
  rewrite (bind_lift _ _ _ _ Horder).
  destruct (draw_returns (countplot data "rating" order) w (Hrenders _))
    as (w1 & Hrun & Hfs & Hfigs).
  exists w1. repeat split; [exact Hrun | exact Hfs | eexists; apply Hfigs; exact Hfig].
Qed.

Lemma create_chart_returns data title filename kind figsize w :
  (forall p, renders p = true) ->
  writable w -> In filename chart_files ->
  can_save (path_join "img/slides" filename) = true ->
  In kind code_kinds ->
  (kind = "count" -> exists order, rating_order data = Returned order) ->
  exists w', create_chart data title filename kind figsize w = (Returned tt, w') /\
             writable w' /\ fs w' !! "img/slides" = Some Dir.
Proof.
  intros Hrenders Hw Hfile Hsave Hkind Hcount.
  destruct (plot_branch_returns data kind
              (set_style (Some "whitegrid") (set_figures (new_figure figsize :: figures w) w))
              (new_figure figsize) (figures w) Hrenders Hkind Hcount eq_refl)
    as (w1 & Hbranch & Hfs & Hfig).
  destruct (create_chart_charted data title filename kind figsize w w1
              Hw Hfile Hsave Hbranch Hfs Hfig) as (w' & Hrun & Hcharted).
  exists w'. split; [exact Hrun |].
  split; [now apply (writable_charted filename w w') | apply Hcharted].
Qed.

Lemma position_setitem_same df name dt s :
  is_Some (position name (columns (setitem df name dt s))).
Proof.
  unfold setitem. destruct (position name (columns df)) as [i |] eqn:Hpos; simpl.
  - rewrite Hpos. eauto.
  - rewrite (position_app_new _ _ Hpos). eauto.
Qed.

(** With the columns the charts need, a renderer that draws them and paths
    matplotlib can write, the charts are all written. *)
Lemma generate_charts_returns df w :
  (forall p, renders p = true) ->
  Forall (fun f => can_save (path_join "img/slides" f) = true) chart_files ->
  Forall (fun name => is_Some (position name (columns df)))
         ["type"; "country"; "year_added"; "genre"; "duration_min"; "rating"] ->
  writable w ->
  exists wb, generate_charts df w = (Returned tt, wb) /\ writable wb /\
             fs wb !! "img/slides" = Some Dir.
Proof.
  intros Hrenders Hsave Hcols Hw. unfold chart_files in Hsave.
  repeat match goal with
         | H : Forall _ (_ :: _) |- _ => apply Forall_cons in H as [? H]
         end.
  repeat match goal with H : is_Some (position _ _) |- _ => destruct H as [? H] end.
  unfold generate_charts.
  repeat match goal with
    | |- context [bind (lift (getitem ?d ?name)) _ _] =>
        erewrite (bind_lift (getitem d name)) by (eapply getitem_position; eassumption)
    | |- context [bind (create_chart ?data ?title ?file ?kind ?size) _ ?w0] =>
        let w1 := fresh "w" in
        let Hrun := fresh "Hrun" in
        let Hw1 := fresh "Hw" in
        destruct (create_chart_returns data title file kind size w0) as (w1 & Hrun & Hw1 & _);
        [ assumption | assumption | unfold chart_files; simpl; tauto | assumption
        | unfold code_kinds; simpl; tauto | intros; discriminate
        | rewrite (bind_returned _ _ _ _ _ Hrun) ]
    end.
  apply create_chart_returns; try assumption.
  - unfold chart_files. simpl. tauto.
  - unfold code_kinds. simpl. tauto.
  - intros _. unfold rating_order. erewrite getitem_position by eassumption. eauto.
Qed.

(** [customize_slide_master] on a deck made from the default template. *)
Lemma customize_default_template (l : list Slide) :
  exists themed,
    customize_slide_master (set_slides l new_presentation) = (Returned tt, themed).
Proof. eexists. vm_compute. reflexivity. Qed.

(** [main] returns when the input file is a CSV with the columns the script
    uses, those it treats as text kept as text, and dates that parse,
    seaborn draws the charts, matplotlib can write them, and nothing in the
    file system is in the way. *)
Lemma main_returns w t :
  fs w !! "./data/netflix_titles.csv" = Some (File (Csv t)) ->
  rectangular t -> has_columns t -> text_columns t -> dates_parse t ->
  is_Some (position "country" (header t)) ->
  is_Some (position "rating" (header t)) ->
  (forall p, renders p = true) ->
  Forall (fun f => can_save (path_join "img/slides" f) = true) chart_files ->
  writable w ->
  exists w', main w = (Returned tt, w').
Proof.
  intros Hfs Hrect Hcols Htext Hdates Hcountry Hrating Hrenders Hsave Hw.
  unfold main. unfold bind at 1. unfold logger_info at 1, modify.
  set (w0 := set_log _ w).
  destruct (load_and_clean_data_returns "./data/netflix_titles.csv" w0 t
              Hfs Hrect Hcols Htext Hdates)
    as (df & w1 & Hload).
  rewrite (bind_returned _ _ _ _ _ Hload).
  pose proof Hload as Hinv.
  apply load_and_clean_data_inv in Hinv
    as (t' & years & Hfs' & _ & Htype & _ & _ & _ & _ & Hdf & Hw1).
  assert (t' = t) as -> by (cbn [fs set_log w0] in Hfs'; congruence).
  cbv zeta in Hdf, Htype.
  assert (writable w1) as Hw1' by (subst w1; exact Hw).
  destruct (generate_charts_returns df w1 Hrenders Hsave) as (wb & Hcharts & Hwb & Hslides);
    [| exact Hw1' |].
  { subst df. unfold with_genre, with_minutes.
    repeat constructor.
    - do 3 apply position_setitem_other. exact Htype.
    - do 3 apply position_setitem_other. exact Hcountry.
    - apply position_setitem_same.
    - apply position_setitem_other, position_setitem_same.
    - do 2 apply position_setitem_other. apply position_setitem_same.
    - do 3 apply position_setitem_other. exact Hrating. }
  rewrite (bind_returned _ _ _ _ _ Hcharts).
  destruct Hwb as (_ & _ & Himages & Hplain & Hthemed).
  destruct (build_deck_returns wb Hslides Himages) as (s1 & Hbuild).
  pose proof Hbuild as Hdeck.
  apply build_deck_Returned in Hdeck as (first & new & -> & _).
  destruct (customize_default_template (first :: new)) as (themed & Htheme).
  unfold with_presentation.
  rewrite (bind_returned _ _ _ _ _ Hbuild).
  assert (forall (o : option node) (a b : outcome unit * (world * Presentation)),
            o <> Some Dir -> match o with Some Dir => a | _ => b end = b) as Hcase.
  { intros [[| c] |] a b Ho; congruence. }
  unfold bind at 1. unfold save at 1. cbn [fst snd]. rewrite (Hcase _ _ _ Hplain).
  unfold bind at 1. unfold on_world at 1, logger_info at 1, modify. cbn [fst snd].
  rewrite (bind_returned _ _ _ _ _ (on_prs_run _ _ _ _ _ Htheme)).
  unfold bind at 1. unfold save at 1. cbn [fst snd fs set_fs set_log].
  rewrite lookup_insert_ne by discriminate. rewrite (Hcase _ _ _ Hthemed).
  unfold on_world, logger_info, modify. cbn [fst snd]. eauto.
Qed.

End MainReturns.

(** * Further properties *)

(** ** More on [load_and_clean_data] *)

Lemma bind_lift_Raised {S A B} (o : outcome A) (k : A -> M S B) (s : S) e :
  o = Raised e -> bind (lift o) k s = (Raised e, s).
Proof. intros ->. reflexivity. Qed.

Lemma try_except_passes {S A} (body : M S A) catches handler s e s' :
  body s = (Raised e, s') -> catches e = false ->
  try_except body catches handler s = (Raised e, s').
Proof. intros Hbody He. unfold try_except. now rewrite Hbody, He. Qed.

Lemma getitem_missing df name :
  position name (columns df) = None -> getitem df name = Raised (KeyError name).
Proof. intros Hpos. unfold getitem. now rewrite Hpos. Qed.

Lemma columns_setitem df name dt s :
  columns (setitem df name dt s)
  = if lacks (columns df) name then (columns df ++ [name])%list else columns df.
Proof. unfold setitem, lacks. destruct (position name (columns df)); reflexivity. Qed.

Lemma lacks_app_other cols name other :
  other <> name -> lacks (cols ++ [name])%list other = lacks cols other.
Proof.
  intros Hne. unfold lacks.
  destruct (position other cols) as [i |] eqn:Hpos.
  - now rewrite (position_app_l _ _ _ _ Hpos).
  - now rewrite (position_app_other _ _ _ Hne Hpos).
Qed.

Lemma lacks_setitem df name dt s other :
  other <> name -> lacks (columns (setitem df name dt s)) other = lacks (columns df) other.
Proof.
  intros Hne. rewrite columns_setitem.
  destruct (lacks (columns df) name); [now apply lacks_app_other | reflexivity].
Qed.

Lemma position_setitem_None df name dt s other :
  other <> name -> position other (columns df) = None ->
  position other (columns (setitem df name dt s)) = None.
Proof.
  intros Hne Hpos. pose proof (lacks_setitem df name dt s other Hne) as Hl.
  unfold lacks in Hl. rewrite Hpos in Hl.
  now destruct (position other (columns (setitem df name dt s))).
Qed.


Section LoadMore.
Context {P : Platform}.




End LoadMore.

Section LoadExtras.
Context {P : Platform}.

(** On a path that holds something other than a CSV text, [read_csv]
    raises, and not the exception the handler takes. *)
Lemma load_and_clean_data_unreadable path w n :
  fs w !! path = Some n -> (forall t, n <> File (Csv t)) ->
  exists e, load_and_clean_data path w = (Raised e, w) /\ is_FileNotFoundError e = false.
Proof.
  intros Hfs Hn. unfold load_and_clean_data.
  destruct n as [| [t | img | d]]; [| now destruct (Hn t) | |].
  - exists (IsADirectoryError path). split; [| reflexivity].
    apply try_except_passes; [| reflexivity].
    apply bind_raised. unfold read_csv. now rewrite Hfs.
  - exists UnicodeDecodeError. split; [| reflexivity].
    apply try_except_passes; [| reflexivity].
    apply bind_raised. unfold read_csv. now rewrite Hfs.
  - exists UnicodeDecodeError. split; [| reflexivity].
    apply try_except_passes; [| reflexivity].
    apply bind_raised. unfold read_csv. now rewrite Hfs.
Qed.

(** On a path that holds anything, the call is calm. *)
Lemma load_and_clean_data_present path w n :
  fs w !! path = Some n -> calm w (load_and_clean_data path w).
Proof.
  intros Hfs. destruct n as [| [t | img | d]].
  - destruct (load_and_clean_data_unreadable path w Dir Hfs) as (e & -> & He);
      [discriminate | simpl; auto].
  - now apply (load_and_clean_data_calm path w t).
  - destruct (load_and_clean_data_unreadable path w _ Hfs) as (e & -> & He);
      [discriminate | simpl; auto].
  - destruct (load_and_clean_data_unreadable path w _ Hfs) as (e & -> & He);
      [discriminate | simpl; auto].
Qed.

(** X1.  [load_and_clean_data] ends the process only for a missing file:
    when it exits, nothing was under the path, the status is 1, and the
    world differs from the one before by the one error line in the log. *)
Theorem load_and_clean_data_exits_only_when_missing (path : string) (w w' : world) (c : Z) :
  load_and_clean_data path w = (Exited c, w') ->
  fs w !! path = None /\ c = 1 /\ w' = after_load_error path w.
Proof.
  intros Hrun. destruct (fs w !! path) as [n |] eqn:Hfs.
  - pose proof (load_and_clean_data_present path w n Hfs) as Hcalm.
    rewrite Hrun in Hcalm. destruct Hcalm.
  - destruct (missing_path_error_cases (fs w) path) as [(Href & Hbelow & _) | Hother].
    + rewrite (load_and_clean_data_missing path w Hfs Href Hbelow) in Hrun.
      injection Hrun as <- <-. auto.
    + rewrite (load_and_clean_data_unopenable path w Hfs Hother) in Hrun. discriminate.
Qed.

(** X2.  An exception that leaves [load_and_clean_data] is never a
    [FileNotFoundError] (the handler takes those), and the world is as
    before the call: nothing is logged for it.  When nothing is under the
    path, it is the exception of a path that cannot be opened for another
    reason than a file that is not there: the system refuses the path, or
    the path leads through a regular file. *)
Theorem load_and_clean_data_escaping_exception (path : string) (w w' : world) (e : exn) :
  load_and_clean_data path w = (Raised e, w') ->
  is_FileNotFoundError e = false /\ w' = w /\
  (fs w !! path = None ->
   e = missing_path_error (fs w) path /\
   (is_Some (path_refused path) \/ below_a_file (fs w) path = true)).
Proof.
  intros Hrun. destruct (fs w !! path) as [n |] eqn:Hfs.
  - pose proof (load_and_clean_data_present path w n Hfs) as Hcalm.
    rewrite Hrun in Hcalm. destruct Hcalm as [He ->].
    split; [exact He |]. split; [reflexivity | discriminate].
  - destruct (missing_path_error_cases (fs w) path) as [(Href & Hbelow & _) | Hother].
    + rewrite (load_and_clean_data_missing path w Hfs Href Hbelow) in Hrun. discriminate.
    + rewrite (load_and_clean_data_unopenable path w Hfs Hother) in Hrun.
      injection Hrun as <- <-.
      split; [exact Hother |]. split; [reflexivity |]. intros _.
      split; [reflexivity |].
      destruct (path_refused path) as [e |] eqn:Href; [left; eauto |].
      destruct (below_a_file (fs w) path) eqn:Hbelow; [now right |].
      rewrite (missing_path_error_FileNotFound _ _ Href Hbelow) in Hother. discriminate.
Qed.

(** However [load_and_clean_data] ends. *)
Lemma load_and_clean_data_world path w o w' :
  load_and_clean_data path w = (o, w') ->
  fs w' = fs w /\ figures w' = figures w /\ sns_style w' = sns_style w /\
  exists lines, log w' = (log w ++ lines)%list /\ (length lines <= 1)%nat.
Proof.
  intros Hrun. destruct o as [df | e | c].
  - apply load_and_clean_data_inv in Hrun as (t & years & _ & _ & _ & _ & _ & _ & _ & _ & ->).
    repeat split. eexists. split; [reflexivity | simpl; lia].
  - destruct (fs w !! path) as [n |] eqn:Hfs.
    + pose proof (load_and_clean_data_present path w n Hfs) as Hcalm.
      rewrite Hrun in Hcalm. destruct Hcalm as [_ ->].
      repeat split. exists []. rewrite app_nil_r. split; [reflexivity | simpl; lia].
    + destruct (missing_path_error_cases (fs w) path) as [(Href & Hbelow & _) | Hother].
      * rewrite (load_and_clean_data_missing path w Hfs Href Hbelow) in Hrun. discriminate.
      * rewrite (load_and_clean_data_unopenable path w Hfs Hother) in Hrun.
        injection Hrun as _ <-.
        repeat split. exists []. rewrite app_nil_r. split; [reflexivity | simpl; lia].
  - destruct (fs w !! path) as [n |] eqn:Hfs.
    + pose proof (load_and_clean_data_present path w n Hfs) as Hcalm.
      rewrite Hrun in Hcalm. destruct Hcalm.
    + destruct (missing_path_error_cases (fs w) path) as [(Href & Hbelow & _) | Hother].
      * rewrite (load_and_clean_data_missing path w Hfs Href Hbelow) in Hrun.
        injection Hrun as <- <-. repeat split.
        eexists. split; [reflexivity | simpl; lia].
      * rewrite (load_and_clean_data_unopenable path w Hfs Hother) in Hrun. discriminate.
Qed.

(** X3.  However [load_and_clean_data] ends, it has written no file, left
    the figures and the plotting style alone, and added at most one line
    to the log. *)
Theorem load_and_clean_data_reads_only (path : string) (w : world) :
  fs (snd (load_and_clean_data path w)) = fs w /\
  figures (snd (load_and_clean_data path w)) = figures w /\
  sns_style (snd (load_and_clean_data path w)) = sns_style w /\
  exists lines, log (snd (load_and_clean_data path w)) = (log w ++ lines)%list /\
                (length lines <= 1)%nat.
Proof.
  destruct (load_and_clean_data path w) as [o w'] eqn:Hrun. cbn [snd].
  now apply (load_and_clean_data_world path w o w').
Qed.

(** X4.  The first thing the script finds wrong with the columns of the
    file, in the order in which it uses them (type; duration, on which it
    uses [.str]; listed_in, likewise; date_added), is what the call raises:
    a [KeyError] that names the column when the file has none of that
    name, the error of the [.str] accessor when [read_csv] has not kept the
    column as text.  The handler does not take it: no exit, no line in the
    log, the world as before.  In particular, when the columns present are
    kept as text, the [KeyError] names the first column lacking. *)
Theorem load_and_clean_data_missing_column (path : string) (w : world) (t : csv)
    (e : exn) :
  fs w !! path = Some (File (Csv t)) -> rectangular t -> header t <> [] ->
  first_refusal t = Some e ->
  load_and_clean_data path w = (Raised e, w) /\
  is_FileNotFoundError e = false /\
  (text_column t "duration" -> text_column t "listed_in" ->
   exists name, first_missing t = Some name /\ e = KeyError name).
Proof.
  intros Hfs Hrect Hh Hfirst.
  assert (is_FileNotFoundError e = false /\
          (text_column t "duration" -> text_column t "listed_in" ->
           exists name, first_missing t = Some name /\ e = KeyError name)) as Hrest.
  { unfold first_refusal, column_refusal, first_missing, required_columns, lacks in *.
    cbn [List.find].
    destruct (position "type" (header t)) as [i |];
      [| injection Hfirst as <-; split; [reflexivity | eauto]].
    assert (forall (A : Type) (a : A), match column_dtype t i with
                                        | object => a | numeric => a end = a) as Hsame
      by (intros; now destruct (column_dtype t i)).
    rewrite Hsame in Hfirst. clear Hsame.
    destruct (position "duration" (header t)) as [j |] eqn:Hj;
      [| injection Hfirst as <-; split; [reflexivity | eauto]].
    destruct (column_dtype t j) eqn:Hdj.
    2: { injection Hfirst as <-. split; [reflexivity |].
         intros Hd _. rewrite (Hd j Hj) in Hdj. discriminate. }
    destruct (position "listed_in" (header t)) as [k |] eqn:Hk;
      [| injection Hfirst as <-; split; [reflexivity | eauto]].
    destruct (column_dtype t k) eqn:Hdk.
    2: { injection Hfirst as <-. split; [reflexivity |].
         intros _ Hl. rewrite (Hl k Hk) in Hdk. discriminate. }
    destruct (position "date_added" (header t)) as [d |];
      [now destruct (column_dtype t d) |].
    injection Hfirst as <-. split; [reflexivity | eauto]. }
  split; [| exact Hrest].
  unfold load_and_clean_data. apply try_except_passes; [| apply Hrest].
  rewrite (bind_returned _ _ _ _ _ (read_csv_Csv path w t Hfs Hrect Hh)). cbv zeta.
  set (cleaned := dropna (frame_of_csv t)).
  unfold first_refusal, column_refusal in Hfirst.
  destruct (position "type" (header t)) as [i |] eqn:Hi.
  2: { injection Hfirst as <-. apply bind_lift_Raised, getitem_missing. exact Hi. }
  assert (forall (A : Type) (a : A), match column_dtype t i with
                                      | object => a | numeric => a end = a) as Hsame
    by (intros; now destruct (column_dtype t i)).
  rewrite Hsame in Hfirst. clear Hsame.
  rewrite (bind_lift _ _ _ _ (getitem_position cleaned "type" i Hi)).
  destruct (position "duration" (header t)) as [j |] eqn:Hj.
  2: { injection Hfirst as <-. apply bind_lift_Raised, getitem_missing. exact Hj. }
  rewrite (bind_lift _ _ _ _ (getitem_position (getitem_mask cleaned _) "duration" j Hj)).
  match goal with
  | |- context [str_accessor ?d _] =>
      replace d with (column_dtype t j) by (symmetry; exact (dtype_of_duration t j Hj))
  end.
  destruct (column_dtype t j).
  2: { injection Hfirst as <-. reflexivity. }
  cbn [str_accessor]. step_lift.
  rewrite (bind_lift _ _ _ _ (astype_float_extract _)).
  destruct (position "listed_in" (header t)) as [k |] eqn:Hk.
  2: { injection Hfirst as <-. apply bind_lift_Raised, getitem_missing.
       apply position_setitem_None; [discriminate | exact Hk]. }
  assert (is_Some (position "listed_in" (header t))) as Hlisted by eauto.
  rewrite rows_getitem_mask, map_map. cbn [fst snd].
  change (setitem cleaned "duration_min" _ _) with (with_minutes cleaned).
  destruct (position_setitem_other cleaned "duration_min" numeric
              (map (fun r => (fst r, minutes_cell (cell_at cleaned "duration" (snd r))))
                   (List.filter (fun r => bool_decide (cell_at cleaned "type" (snd r) = Str "Movie"))
                                (rows cleaned)))
              "listed_in" Hlisted) as [k' Hk'].
  rewrite (bind_lift _ _ _ _ (getitem_position (with_minutes cleaned) "listed_in" k' Hk')).
  match goal with
  | |- context [str_accessor ?d _] =>
      replace d with (column_dtype t k) by (symmetry; exact (dtype_of_listed_in t k Hk))
  end.
  destruct (column_dtype t k).
  2: { injection Hfirst as <-. reflexivity. }
  cbn [str_accessor]. step_lift.
  destruct (position "date_added" (header t)) as [d |] eqn:Hd;
    [now destruct (column_dtype t d) |].
  injection Hfirst as <-. apply bind_lift_Raised, getitem_missing.
  do 2 (apply position_setitem_None; [discriminate |]). exact Hd.
Qed.

(** X5.  The frame [load_and_clean_data] returns has the columns of the
    file, in their order, followed by those of duration_min, genre and
    year_added the file did not have already (a column of that name is
    replaced where it stands); and every row has one cell per column. *)
Theorem load_and_clean_data_columns (path : string) (w w' : world) (t : csv)
    (df : DataFrame) :
  fs w !! path = Some (File (Csv t)) ->
  load_and_clean_data path w = (Returned df, w') ->
  columns df = (header t ++ List.filter (lacks (header t)) derived_columns)%list /\
  wf_frame df.
Proof.
  intros Hfs Hload.
  apply load_and_clean_data_inv in Hload
    as (t' & years & Hfs' & _ & _ & _ & _ & _ & _ & -> & _).
  assert (t' = t) as -> by congruence.
  split.
  - unfold with_genre, with_minutes, derived_columns. cbn [List.filter].
    rewrite columns_setitem, !lacks_setitem by discriminate.
    rewrite columns_setitem, lacks_setitem by discriminate.
    rewrite columns_setitem.
    change (columns (dropna (frame_of_csv t))) with (header t).
    destruct (lacks (header t) "duration_min"), (lacks (header t) "genre"),
      (lacks (header t) "year_added");
      rewrite <- ?app_assoc, ?app_nil_r; reflexivity.
  - unfold with_genre, with_minutes.
    do 3 apply wf_setitem. apply wf_dropna, wf_frame_of_csv.
Qed.



End LoadExtras.

(** ** More on [create_chart] *)

Lemma untouched_refl paths w : untouched paths w w.
Proof. intros p _. reflexivity. Qed.

Lemma untouched_trans paths w1 w2 w3 :
  untouched paths w1 w2 -> untouched paths w2 w3 -> untouched paths w1 w3.
Proof. intros H12 H23 p Hp. now rewrite H23, H12. Qed.

Lemma untouched_mono paths paths' w w' :
  (forall p, In p paths -> In p paths') -> untouched paths w w' -> untouched paths' w w'.
Proof. intros Hsub Hu p Hp. apply Hu. intros Hin. apply Hp, Hsub, Hin. Qed.

Lemma untouched_same_fs paths w w' : fs w' = fs w -> untouched paths w w'.
Proof. intros Hfs p _. now rewrite Hfs. Qed.

Section ChartMore.
Context {P : Platform}.

Lemma draw_cases p w :
  draw p w = (if renders p
              then (Returned tt,
                    set_figures (match figures w with
                                 | fg :: rest => with_plot p fg :: rest
                                 | [] => [with_plot p (new_figure default_figsize)]
                                 end) w)
              else (Raised (ValueError "seaborn cannot draw this data"), w)).
Proof.
  unfold draw. destruct (renders p); [| reflexivity].
  unfold on_current_figure, modify. destruct (figures w); reflexivity.
Qed.

Lemma rating_order_not_Exited data c : rating_order data <> Exited c.
Proof.
  unfold rating_order. destruct data as [s | df].
  - destruct (List.filter _ s) as [| x [| y l]]; discriminate.
  - unfold getitem. destruct (position "rating" (columns df)); discriminate.
Qed.

(** The plotting branch: it returns with a plot on the current figure or
    none at all, or raises and leaves the world as it was. *)
Lemma plot_branch_cases data kind w fg rest o w1 :
  figures w = fg :: rest ->
  plot_branch data kind w = (o, w1) ->
  match o with
  | Returned _ =>
      fs w1 = fs w /\ log w1 = log w /\ sns_style w1 = sns_style w /\
      exists fg', figures w1 = fg' :: rest /\ fig_size fg' = fig_size fg
  | Raised _ => w1 = w
  | Exited _ => False
  end.
Proof.
  intros Hfig.
  assert (forall p o w1, draw p w = (o, w1) ->
            match o with
            | Returned _ =>
                fs w1 = fs w /\ log w1 = log w /\ sns_style w1 = sns_style w /\
                exists fg', figures w1 = fg' :: rest /\ fig_size fg' = fig_size fg
            | Raised _ => w1 = w
            | Exited _ => False
            end) as Hdraw.
  { intros p o' w' Hrun. rewrite draw_cases, Hfig in Hrun.
    destruct (renders p); injection Hrun as <- <-; [| reflexivity].
    repeat split. eexists. split; reflexivity. }
  unfold plot_branch.
  destruct (String.eqb kind "bar"); [apply Hdraw |].
  destruct (String.eqb kind "line"); [apply Hdraw |].
  destruct (String.eqb kind "hist"); [apply Hdraw |].
  destruct (String.eqb kind "scatter"); [apply Hdraw |].
  destruct (String.eqb kind "count").
  - unfold bind, lift.
    destruct (rating_order data) as [order | e | c] eqn:Horder.
    + apply Hdraw.
    + intros [= <- <-]. reflexivity.
    + now apply rating_order_not_Exited in Horder.
  - unfold ret. intros [= <- <-]. repeat split. eauto.
Qed.

Lemma mkdir_parents_cases w o w1 :
  mkdir_parents "img" "slides" w = (o, w1) ->
  log w1 = log w /\ figures w1 = figures w /\ sns_style w1 = sns_style w /\
  (forall p, p <> "img/slides" -> p <> "img" -> fs w1 !! p = fs w !! p) /\
  match o with
  | Returned _ => fs w1 !! "img/slides" = Some Dir
  | Raised _ => w1 = w
  | Exited _ => False
  end.
Proof.
  unfold mkdir_parents. change (path_join "img" "slides") with "img/slides".
  destruct (fs w !! "img/slides") as [[| c] |] eqn:Hdir.
  - intros [= <- <-]. auto.
  - intros [= <- <-]. auto.
  - destruct (fs w !! "img") as [[| c] |] eqn:Himg; intros [= <- <-]; simpl;
      repeat split; try (apply lookup_insert_eq);
      intros p H1 H2; rewrite ?lookup_insert_ne by congruence; reflexivity.
Qed.

Lemma plt_savefig_cases path w o w1 :
  plt_savefig path w = (o, w1) ->
  match o with
  | Returned _ =>
      w1 = set_fs (<[savefig_target path :=
                       File (Image (match figures w with
                                    | fg :: _ => fg
                                    | [] => new_figure default_figsize
                                    end))]> (fs w)) w
  | Raised _ => w1 = w
  | Exited _ => False
  end.
Proof.
  unfold plt_savefig. cbv zeta.
  destruct (save_error _); [intros [= <- <-]; reflexivity |].
  destruct (fs w !! savefig_target path) as [[| c] |]; intros [= <- <-]; reflexivity.
Qed.

(** [create_chart] from the title on, however it ends. *)
Lemma finish_chart_cases title filename w fg rest o w' :
  figures w = fg :: rest ->
  finish_chart title filename w = (o, w') ->
  untouched (chart_paths filename) w w' /\ sns_style w' = sns_style w /\
  match o with
  | Returned _ =>
      saved_chart w' filename = Some (decorate title fg) /\
      figures w' = rest /\
      log w' = (log w ++ [(INFO, ("Saved chart: " ++ filename)%string)])%list /\
      fs w' !! "img/slides" = Some Dir
  | Raised _ =>
      figures w' = decorate title fg :: rest /\ log w' = log w /\
      fs w' !! chart_target filename = fs w !! chart_target filename
  | Exited _ => False
  end.
Proof.
  intros Hfig. unfold finish_chart, plt_title, plt_xlabel, plt_xticks,
    plt_tight_layout, on_current_figure, modify.
  unfold bind at 1. rewrite Hfig.
  unfold bind at 1. cbn [figures set_figures].
  unfold bind at 1. cbn [figures set_figures].
  unfold bind at 1. cbn [figures set_figures].
  match goal with |- context [bind (mkdir_parents _ _) _ ?x] => set (w0 := x) end.
  assert (fs w0 = fs w /\ log w0 = log w /\ sns_style w0 = sns_style w /\
          figures w0 = decorate title fg :: rest) as (Hfs0 & Hlog0 & Hsty0 & Hfig0)
    by (repeat split).
  clearbody w0.
  destruct (chart_path_not_dir_name filename) as [Hne1 Hne2].
  unfold bind at 1.
  destruct (mkdir_parents "img" "slides" w0) as [[[] | e | c] w1] eqn:Hmk;
    apply mkdir_parents_cases in Hmk as (Hlog1 & Hfig1 & Hsty1 & Hfs1 & Hmk).
  2: { intros [= <- <-]. subst w1. repeat split; congruence. }
  2: { destruct Hmk. }
  unfold bind at 1.
  destruct (plt_savefig (path_join "img/slides" filename) w1) as [[[] | e | c] w2] eqn:Hsave;
    apply plt_savefig_cases in Hsave.
  2: { intros [= <- <-]. subst w2. split; [| split; [congruence |]].
       - intros p Hp. rewrite Hfs1, Hfs0; [reflexivity | |];
           intros Heq; apply Hp; subst p; unfold chart_paths; simpl; tauto.
       - split; [congruence |]. split; [congruence |]. now rewrite Hfs1, Hfs0. }
  2: { destruct Hsave. }
  unfold bind, logger_info, plt_close, modify. intros [= <- <-]. subst w2.
  cbn [fs set_fs set_log set_figures log figures sns_style]. rewrite Hfig1, Hfig0.
  split; [| split; [congruence |]].
  - intros p Hp. cbn [fs set_fs set_log set_figures]. rewrite lookup_insert_ne, Hfs1, Hfs0; [reflexivity | | |];
      intros Heq; apply Hp; subst p; unfold chart_paths; simpl; tauto.
  - split; [unfold saved_chart, chart_target; cbn [fs set_fs set_log set_figures];
            now rewrite lookup_insert_eq |].
    split; [reflexivity |]. split; [congruence |].
    now rewrite lookup_insert_ne.
Qed.

(** [create_chart], however it ends. *)
Lemma create_chart_cases data title filename kind figsize w o w' :
  create_chart data title filename kind figsize w = (o, w') ->
  untouched (chart_paths filename) w w' /\ sns_style w' = Some "whitegrid" /\
  match o with
  | Returned _ =>
      (exists fg, saved_chart w' filename = Some (decorate title fg) /\
                  fig_size fg = figsize) /\
      figures w' = figures w /\
      log w' = (log w ++ [(INFO, ("Saved chart: " ++ filename)%string)])%list /\
      fs w' !! "img/slides" = Some Dir
  | Raised _ =>
      (exists fg, figures w' = fg :: figures w /\ fig_size fg = figsize) /\
      log w' = log w /\
      fs w' !! chart_target filename = fs w !! chart_target filename
  | Exited _ => False
  end.
Proof.
  rewrite create_chart_unfold. unfold plt_figure, sns_set_style, modify.
  unfold bind at 1. unfold bind at 1.
  change (set_style (Some "whitegrid") (set_figures (new_figure figsize :: figures w) w))
    with (chart_opened figsize w).
  unfold bind at 1.
  destruct (plot_branch data kind (chart_opened figsize w)) as [[[] | e | c] w1] eqn:Hbranch;
    apply (plot_branch_cases data kind _ (new_figure figsize) (figures w)) in Hbranch;
    try reflexivity.
  - destruct Hbranch as (Hfs1 & Hlog1 & Hsty1 & fg' & Hfig1 & Hsize).
    intros Hrun.
    apply (finish_chart_cases title filename w1 fg' (figures w)) in Hrun
      as (Hu & Hsty & Hrun); [| exact Hfig1].
    split; [intros p Hp; now rewrite (Hu p Hp), Hfs1 |].
    split; [now rewrite Hsty, Hsty1 |].
    destruct o as [[] | e | c]; [| | exact Hrun].
    + destruct Hrun as (Hsaved & Hfig & Hlog & Hdir).
      repeat split; [eauto | exact Hfig | now rewrite Hlog, Hlog1 | exact Hdir].
    + destruct Hrun as (Hfig & Hlog & Hpath).
      repeat split; [eauto | now rewrite Hlog, Hlog1 | now rewrite Hpath, Hfs1].
  - intros [= <- <-]. subst w1.
    split; [apply untouched_same_fs; reflexivity |]. split; [reflexivity |].
    repeat split. eexists. split; reflexivity.
  - destruct Hbranch.
Qed.

End ChartMore.

Section ChartExtras.
Context {P : Platform}.

(** X8.  When [create_chart] returns, the file under the path matplotlib
    makes of [img/slides/filename] (that path when the name has an
    extension, with [.png] appended when it has none) holds a figure of the
    size asked for, titled as asked at 16 pt, with the x label removed, the
    ticks turned by 45 degrees and a tight layout; the chart directory
    exists; the figure the call opened is closed again (the open figures
    are those from before); and the log has one line more, naming the file
    as it was given. *)
Theorem create_chart_on_return (data : chart_data) (title filename kind : string)
    (figsize : Q * Q) (w w' : world) :
  create_chart data title filename kind figsize w = (Returned tt, w') ->
  (exists fg, fs w' !! savefig_target (path_join "img/slides" filename)
              = Some (File (Image (decorate title fg))) /\
              fig_size fg = figsize) /\
  figures w' = figures w /\
  log w' = (log w ++ [(INFO, ("Saved chart: " ++ filename)%string)])%list /\
  fs w' !! "img/slides" = Some Dir.
Proof.
  intros Hrun. apply create_chart_cases in Hrun as (_ & _ & (fg & Hsaved & Hsize) & Hrun).
  split; [| exact Hrun]. exists fg. split; [| exact Hsize].
  unfold saved_chart, chart_target in Hsaved.
  destruct (fs w' !! savefig_target (path_join "img/slides" filename))
    as [[| [t | img | d]] |]; congruence.
Qed.




Lemma entry_not_chart_dir p :
  is_entry "img/slides" p = true -> p <> "img/slides" /\ p <> "img".
Proof.
  intros Hentry. destruct (is_entry_prefix _ _ Hentry) as [name ->].
  split; discriminate.
Qed.


End ChartExtras.

(** ** More on the slides *)

Lemma appends_set_slides n prs extra :
  (length extra <= n)%nat -> appends_at_most n prs (set_slides (slides prs ++ extra)%list prs).
Proof. intros Hlen. unfold appends_at_most. cbn [set_slides master_background slide_layouts slides]. eauto. Qed.

Lemma appends_nothing n prs : appends_at_most n prs prs.
Proof.
  unfold appends_at_most. repeat split. exists []. rewrite app_nil_r.
  split; [reflexivity | simpl; lia].
Qed.

(** What [add_title_slide] does, case by case. *)
Lemma add_title_slide_cases (prs : Presentation) (title subtitle : string) :
  match slide_layouts prs !! 0%nat with
  | None => add_title_slide title subtitle prs = (Raised IndexError, prs)
  | Some l0 =>
      if has_placeholder l0 0
      then if has_placeholder l0 1
           then exists sl,
                  add_title_slide title subtitle prs
                  = (Returned tt, set_slides (slides prs ++ [sl])%list prs)
           else exists sl,
                  add_title_slide title subtitle prs
                  = (Raised (KeyError "no placeholder on this slide with idx == 1"),
                     set_slides (slides prs ++ [sl])%list prs) /\
                  slide_layout sl = 0%nat /\
                  placeholder_text sl 0 = Some (stored_text title) /\
                  placeholder_text sl 1 = None /\
                  title_font sl = Some inherited_font
      else add_title_slide title subtitle prs
           = (Raised AttributeError,
              set_slides (slides prs ++ [fresh_slide 0 l0])%list prs)
  end.
Proof.
  destruct (slide_layouts prs !! 0%nat) as [l0 |] eqn:Hl0.
  2: { unfold add_title_slide. apply bind_raised.
       now rewrite slide_layouts_getitem_run, Hl0. }
  destruct (has_placeholder l0 0) eqn:Ht.
  2: { unfold add_title_slide.
       rewrite (bind_returned _ _ _ 0%nat prs)
         by (rewrite slide_layouts_getitem_run, Hl0; reflexivity).
       rewrite (bind_returned _ _ _ _ _ (add_slide_run (slides prs) prs 0 l0 Hl0 eq_refl)).
       rewrite (bind_returned _ _ _ _ _ (shapes_title_last _ _ _ _)).
       rewrite (has_placeholder_None l0 0 Ht).
       apply bind_raised. apply set_text_None. }
  destruct (has_placeholder l0 1) eqn:Hs.
  { destruct (add_title_slide_run prs title subtitle l0 Hl0 Ht Hs) as (sl & Hrun & _).
    eauto. }
  destruct (has_placeholder_find l0 0 Ht) as (pt & tyt & Hfpt & Hlpt).
  pose proof (has_placeholder_None l0 1 Hs) as Hfps.
  set (shs0 := new_shapes (layout_placeholders l0)) in *.
  destruct (paragraphs_of_text_cons title) as (t0 & pars & Hpars).
  destruct (replace_placeholder shs0 pt 0 tyt _ tyt (paragraphs_of_text title) Hlpt)
    as (H1t & H1o & F1).
  set (shs1 := <[pt := Placeholder 0 tyt (paragraphs_of_text title)]> shs0) in *.
  exists {| slide_layout := 0%nat; shapes := shs1 |}.
  split; [| split; [reflexivity | split; [| split]]].
  - unfold add_title_slide.
    rewrite (bind_returned _ _ _ 0%nat prs)
      by (rewrite slide_layouts_getitem_run, Hl0; reflexivity).
    rewrite (bind_returned _ _ _ _ _ (add_slide_run (slides prs) prs 0 l0 Hl0 eq_refl)).
    fold shs0.
    rewrite (bind_returned _ _ _ _ _ (shapes_title_last _ _ _ _)), Hfpt.
    rewrite (bind_returned _ _ _ _ _ (set_text_last _ _ _ _ _ _ _ _ title Hlpt)).
    fold shs1.
    apply bind_raised. now rewrite placeholders_getitem_last, F1, Hfps.
  - unfold placeholder_text, placeholder_shape. cbn [shapes].
    now rewrite F1, Hfpt, H1t.
  - unfold placeholder_text, placeholder_shape. cbn [shapes].
    now rewrite F1, Hfps.
  - unfold title_font, placeholder_shape. cbn [shapes].
    now rewrite F1, Hfpt, H1t, Hpars.
Qed.

Section DeckMore.
Context {P : Platform}.

(** What [add_content_slide] does when it does not return. *)
Lemma add_content_slide_failures (w : world) (prs : Presentation) (title image_path : string) :
  match slide_layouts prs !! 5%nat with
  | None => add_content_slide title image_path (w, prs) = (Raised IndexError, (w, prs))
  | Some l5 =>
      if has_placeholder l5 0
      then match image_at w image_path with
           | Some img => True
           | None =>
               exists sl,
                 add_content_slide title image_path (w, prs)
                 = (Raised (image_error w image_path),
                    (w, set_slides (slides prs ++ [sl])%list prs)) /\
                 slide_layout sl = 5%nat /\
                 placeholder_text sl 0 = Some (stored_text title) /\
                 pictures sl = [] /\
                 title_font sl = Some inherited_font
           end
      else add_content_slide title image_path (w, prs)
           = (Raised AttributeError,
              (w, set_slides (slides prs ++ [fresh_slide 5 l5])%list prs))
  end.
Proof.
  unfold add_content_slide.
  destruct (slide_layouts prs !! 5%nat) as [l5 |] eqn:Hl5.
  2: { apply bind_raised. apply on_prs_run. now rewrite slide_layouts_getitem_run, Hl5. }
  rewrite (bind_returned _ _ _ 5%nat (w, prs))
    by (apply on_prs_run; now rewrite slide_layouts_getitem_run, Hl5).
  rewrite (bind_returned _ _ _ _ _
             (on_prs_run _ w _ _ _ (add_slide_run (slides prs) prs 5 l5 Hl5 eq_refl))).
  set (shs0 := new_shapes (layout_placeholders l5)).
  rewrite (bind_returned _ _ _ _ _ (on_prs_run _ w _ _ _ (shapes_title_last _ _ _ _))).
  destruct (has_placeholder l5 0) eqn:Ht.
  2: { fold shs0. unfold shs0 at 1. rewrite (has_placeholder_None l5 0 Ht).
       apply bind_raised. apply on_prs_run. apply set_text_None. }
  destruct (image_at w image_path) as [img |] eqn:Himg; [exact I |].
  destruct (has_placeholder_find l5 0 Ht) as (pt & tyt & Hfpt & Hlpt).
  fold shs0 in Hfpt, Hlpt. rewrite Hfpt.
  rewrite (bind_returned _ _ _ _ _
             (on_prs_run _ w _ _ _ (set_text_last _ _ _ _ _ _ _ _ title Hlpt))).
  destruct (paragraphs_of_text_cons title) as (t0 & pars & Hpars).
  destruct (replace_placeholder shs0 pt 0 tyt _ tyt (paragraphs_of_text title) Hlpt)
    as (H1t & H1o & F1).
  set (shs1 := <[pt := Placeholder 0 tyt (paragraphs_of_text title)]> shs0) in *.
  cbv zeta.
  exists {| slide_layout := 5%nat; shapes := shs1 |}.
  split; [| split; [reflexivity | split; [| split]]].
  - unfold bind at 1. rewrite add_picture_last, Himg. reflexivity.
  - unfold placeholder_text, placeholder_shape. cbn [shapes].
    now rewrite F1, Hfpt, H1t.
  - unfold pictures. cbn [shapes]. unfold shs1.
    apply pictures_insert_placeholder, pictures_new_shapes.
  - unfold title_font, placeholder_shape. cbn [shapes].
    now rewrite F1, Hfpt, H1t, Hpars.
Qed.

End DeckMore.

(** X13.  How [add_title_slide] fails.  Without a layout it raises
    [IndexError] and the presentation is as before.  With a first layout
    that offers no title placeholder it raises [AttributeError], with one
    that offers a title but no placeholder of idx 1 a [KeyError]; in both
    cases the slide has been added already and stays, as the layout made
    it, in the second case with the title text set but not yet styled. *)
Theorem add_title_slide_failures (prs : Presentation) (title subtitle : string) :
  (slide_layouts prs !! 0%nat = None ->
   add_title_slide title subtitle prs = (Raised IndexError, prs)) /\
  (forall l0, slide_layouts prs !! 0%nat = Some l0 -> has_placeholder l0 0 = false ->
     add_title_slide title subtitle prs
     = (Raised AttributeError, set_slides (slides prs ++ [fresh_slide 0 l0])%list prs)) /\
  (forall l0, slide_layouts prs !! 0%nat = Some l0 -> has_placeholder l0 0 = true ->
     has_placeholder l0 1 = false ->
     exists sl,
       add_title_slide title subtitle prs
       = (Raised (KeyError "no placeholder on this slide with idx == 1"),
          set_slides (slides prs ++ [sl])%list prs) /\
       slide_layout sl = 0%nat /\
       placeholder_text sl 0 = Some (stored_text title) /\
       placeholder_text sl 1 = None /\
       title_font sl = Some inherited_font).
Proof.
  pose proof (add_title_slide_cases prs title subtitle) as Hcases.
  split; [| split].
  - intros Hl0. now rewrite Hl0 in Hcases.
  - intros l0 Hl0 Ht. now rewrite Hl0, Ht in Hcases.
  - intros l0 Hl0 Ht Hs. now rewrite Hl0, Ht, Hs in Hcases.
Qed.

(** However [add_title_slide] ends. *)
Lemma add_title_slide_frame prs title subtitle o prs' :
  add_title_slide title subtitle prs = (o, prs') ->
  appends_at_most 1 prs prs' /\ forall c, o <> Exited c.
Proof.
  intros Hrun.
  pose proof (add_title_slide_cases prs title subtitle) as Hcases.
  destruct (slide_layouts prs !! 0%nat) as [l0 |].
  - destruct (has_placeholder l0 0).
    + destruct (has_placeholder l0 1).
      * destruct Hcases as (sl & Hcases). rewrite Hcases in Hrun. injection Hrun as <- <-.
        split; [now apply appends_set_slides | discriminate].
      * destruct Hcases as (sl & Hcases & _). rewrite Hcases in Hrun. injection Hrun as <- <-.
        split; [now apply appends_set_slides | discriminate].
    + rewrite Hcases in Hrun. injection Hrun as <- <-.
      split; [now apply appends_set_slides | discriminate].
  - rewrite Hcases in Hrun. injection Hrun as <- <-.
    split; [apply appends_nothing | discriminate].
Qed.

(** X15.  However [add_title_slide] ends, it has not ended the process,
    the master and the layouts are as before, the slides that were there
    are the first slides still, unchanged, and at most one slide follows
    them. *)
Theorem add_title_slide_appends_at_most_one (prs : Presentation) (title subtitle : string) :
  appends_at_most 1 prs (snd (add_title_slide title subtitle prs)) /\
  forall c, fst (add_title_slide title subtitle prs) <> Exited c.
Proof.
  destruct (add_title_slide title subtitle prs) as [o prs'] eqn:Hrun. cbn [fst snd].
  now apply (add_title_slide_frame prs title subtitle).
Qed.

Section DeckExtras.
Context {P : Platform}.

(** X14.  When no readable image is under the path, [add_content_slide]
    raises what opening the image raises ([FileNotFoundError] for a
    missing file), but only after it has added the slide and set its
    title: the slide stays in the presentation, without a picture and with
    the title not yet styled.  The world is as before. *)
Theorem add_content_slide_unreadable_image (w : world) (prs : Presentation)
    (title image_path : string) (l5 : SlideLayout) :
  slide_layouts prs !! 5%nat = Some l5 ->
  has_placeholder l5 0 = true ->
  image_at w image_path = None ->
  exists sl,
    add_content_slide title image_path (w, prs)
    = (Raised (image_error w image_path), (w, set_slides (slides prs ++ [sl])%list prs)) /\
    slide_layout sl = 5%nat /\
    placeholder_text sl 0 = Some (stored_text title) /\
    pictures sl = [] /\
    title_font sl = Some inherited_font.
Proof.
  intros Hl5 Ht Himg.
  pose proof (add_content_slide_failures w prs title image_path) as Hcases.
  now rewrite Hl5, Ht, Himg in Hcases.
Qed.

(** However [add_content_slide] ends. *)
Lemma add_content_slide_frame w prs title image_path o s' :
  add_content_slide title image_path (w, prs) = (o, s') ->
  fst s' = w /\ appends_at_most 1 prs (snd s') /\ forall c, o <> Exited c.
Proof.
  intros Hrun.
  pose proof (add_content_slide_failures w prs title image_path) as Hfail.
  pose proof (add_content_slide_run w prs title image_path) as Hok.
  destruct (slide_layouts prs !! 5%nat) as [l5 |].
  - destruct (has_placeholder l5 0).
    + destruct (image_at w image_path) as [img |].
      * destruct Hok as (sl & Hok & _). rewrite Hok in Hrun. injection Hrun as <- <-.
        cbn [fst snd]. repeat split; [now apply appends_set_slides | discriminate].
      * destruct Hfail as (sl & Hfail & _). rewrite Hfail in Hrun. injection Hrun as <- <-.
        cbn [fst snd]. repeat split; [now apply appends_set_slides | discriminate].
    + rewrite Hfail in Hrun. injection Hrun as <- <-.
      cbn [fst snd]. repeat split; [now apply appends_set_slides | discriminate].
  - rewrite Hfail in Hrun. injection Hrun as <- <-.
    cbn [fst snd]. repeat split; [| discriminate].
    apply appends_nothing.
Qed.

(** X16.  However [add_content_slide] ends, it has not ended the process,
    the world is as before (the image is only read), the master and the
    layouts are as before, the slides that were there are the first slides
    still, unchanged, and at most one slide follows them. *)
Theorem add_content_slide_appends_at_most_one (w : world) (prs : Presentation)
    (title image_path : string) :
  fst (snd (add_content_slide title image_path (w, prs))) = w /\
  appends_at_most 1 prs (snd (snd (add_content_slide title image_path (w, prs)))) /\
  forall c, fst (add_content_slide title image_path (w, prs)) <> Exited c.
Proof.
  destruct (add_content_slide title image_path (w, prs)) as [o s'] eqn:Hrun.
  cbn [fst snd]. now apply (add_content_slide_frame w prs title image_path).
Qed.

End DeckExtras.

(** ** More on [customize_slide_master] *)

Lemma layout_placeholder_font_Some prs i j lp :
  placeholder_at prs i j = Some lp ->
  layout_placeholder_font i j prs = (Returned (i, j), prs).
Proof.
  unfold placeholder_at, layout_placeholder_font.
  destruct (slide_layouts prs !! i) as [l |]; [| discriminate].
  now intros ->.
Qed.

Lemma layout_placeholder_font_None prs i j :
  placeholder_at prs i j = None ->
  layout_placeholder_font i j prs = (Raised IndexError, prs).
Proof.
  unfold placeholder_at, layout_placeholder_font.
  destruct (slide_layouts prs !! i) as [l |]; [| reflexivity].
  now intros ->.
Qed.

(** Three assignments to the attributes of one font amount to one
    assignment of the font. *)
Lemma alter_layout_font_thrice n z c j l :
  alter_layout_font (with_color c) j
    (alter_layout_font (with_size z) j (alter_layout_font (with_name n) j l))
  = alter_layout_font
      (fun _ => {| font_name := Some n; font_size := Some z; font_color := Some c |}) j l.
Proof.
  unfold alter_layout_font. cbn [layout_name layout_placeholders]. f_equal.
  rewrite !list_alter_alter_eq. apply list_alter_ext; [| reflexivity].
  intros lp _. reflexivity.
Qed.

Lemma alter_layout_font_twice f j l :
  alter_layout_font (fun _ => f) j (alter_layout_font (fun _ => f) j l)
  = alter_layout_font (fun _ => f) j l.
Proof.
  unfold alter_layout_font. cbn [layout_name layout_placeholders]. f_equal.
  rewrite list_alter_alter_eq. apply list_alter_ext; [| reflexivity].
  intros lp _. reflexivity.
Qed.

Lemma set_font_thrice n z c i j (ls : list SlideLayout) :
  alter (alter_layout_font (with_color c) j) i
    (alter (alter_layout_font (with_size z) j) i
       (alter (alter_layout_font (with_name n) j) i ls))
  = alter (alter_layout_font
             (fun _ => {| font_name := Some n; font_size := Some z; font_color := Some c |}) j)
          i ls.
Proof.
  rewrite !list_alter_alter_eq. apply list_alter_ext; [| reflexivity].
  intros l _. apply alter_layout_font_thrice.
Qed.

Lemma placeholder_at_title_styled prs i j :
  placeholder_at (set_layouts (title_styled (slide_layouts prs)) prs) i j
  = if decide (i = 0%nat /\ j = 0%nat)
    then option_map (fun lp => {| lph_idx := lph_idx lp; lph_type := lph_type lp;
                                  lph_font := title_style |})
                    (placeholder_at prs i j)
    else placeholder_at prs i j.
Proof. unfold title_styled. apply placeholder_at_set_layout_font. Qed.

(** [customize_slide_master], step by step. *)
Lemma customize_slide_master_cases (prs : Presentation) :
  customize_slide_master prs
  = match placeholder_at prs 0 0 with
    | None => (Raised IndexError, set_background (SolidFill (Some LIGHT_BLUE)) prs)
    | Some _ =>
        match placeholder_at prs 1 1 with
        | None =>
            (Raised IndexError,
             set_layouts (title_styled (slide_layouts prs))
               (set_background (SolidFill (Some LIGHT_BLUE)) prs))
        | Some _ => (Returned tt, themed prs)
        end
    end.
Proof.
  unfold customize_slide_master.
  unfold bind at 1. unfold modify at 1. unfold bind at 1. unfold modify at 1.
  set (prs1 := set_background (SolidFill (Some LIGHT_BLUE)) (set_background (SolidFill None) prs)).
  assert (prs1 = set_background (SolidFill (Some LIGHT_BLUE)) prs) as Hprs1 by reflexivity.
  assert (forall i j, placeholder_at prs1 i j = placeholder_at prs i j) as Hat by reflexivity.
  destruct (placeholder_at prs 0 0) as [a |] eqn:Ha.
  2: { rewrite <- Hprs1. apply bind_raised, layout_placeholder_font_None.
       now rewrite Hat. }
  rewrite (bind_returned _ _ _ _ _ (layout_placeholder_font_Some prs1 0 0 a
                                      (eq_trans (Hat _ _) Ha))).
  unfold set_layout_font at 1 2 3. unfold modify at 1 2 3.
  unfold bind at 1. unfold bind at 1. unfold bind at 1.
  cbn [fst snd set_layouts slide_layouts master_background slides].
  rewrite set_font_thrice. fold title_style. fold (title_styled (slide_layouts prs1)).
  match goal with |- bind _ _ ?s = _ => set (prs2 := s) end.
  assert (prs2 = set_layouts (title_styled (slide_layouts prs))
                   (set_background (SolidFill (Some LIGHT_BLUE)) prs)) as Hprs2 by reflexivity.
  assert (placeholder_at prs2 1 1 = placeholder_at prs 1 1) as Hat2.
  { rewrite Hprs2.
    change (placeholder_at (set_layouts (title_styled (slide_layouts prs1)) prs1) 1 1
            = placeholder_at prs 1 1).
    rewrite placeholder_at_title_styled. rewrite decide_False by (intros [? _]; discriminate).
    apply Hat. }
  destruct (placeholder_at prs 1 1) as [b |] eqn:Hb.
  2: { rewrite <- Hprs2. apply bind_raised, layout_placeholder_font_None. exact Hat2. }
  rewrite (bind_returned _ _ _ _ _ (layout_placeholder_font_Some prs2 1 1 b Hat2)).
  unfold set_layout_font, modify. unfold bind.
  cbn [fst snd set_layouts slide_layouts master_background slides].
  rewrite set_font_thrice. reflexivity.
Qed.

(** X17.  When the first layout has a first placeholder and the second
    layout a second one, [customize_slide_master] returns, and then the
    background of the master is a solid light blue, the first of these
    placeholders provides Arial at 44 pt in dark blue, and the second Arial
    at 18 pt in black. *)
Theorem customize_slide_master_sets_theme (prs : Presentation) (a b : LayoutPlaceholder) :
  placeholder_at prs 0 0 = Some a ->
  placeholder_at prs 1 1 = Some b ->
  exists prs',
    customize_slide_master prs = (Returned tt, prs') /\
    master_background prs' = SolidFill (Some LIGHT_BLUE) /\
    option_map lph_font (placeholder_at prs' 0 0) = Some title_style /\
    option_map lph_font (placeholder_at prs' 1 1) = Some body_style.
Proof.
  intros Ha Hb. exists (themed prs).
  rewrite customize_slide_master_cases, Ha, Hb.
  split; [reflexivity |]. split; [reflexivity |].
  unfold themed.
  change (set_layouts (alter (alter_layout_font (fun _ => body_style) 1) 1%nat
                         (title_styled (slide_layouts prs)))
            (set_background (SolidFill (Some LIGHT_BLUE)) prs))
    with (set_layouts (alter (alter_layout_font (fun _ => body_style) 1) 1%nat
                         (slide_layouts (set_layouts (title_styled (slide_layouts prs))
                                           (set_background (SolidFill (Some LIGHT_BLUE)) prs))))
            (set_layouts (title_styled (slide_layouts prs))
               (set_background (SolidFill (Some LIGHT_BLUE)) prs))).
  rewrite !placeholder_at_set_layout_font.
  rewrite decide_False by (intros [? _]; discriminate).
  rewrite decide_True by auto.
  change (placeholder_at (set_layouts (title_styled (slide_layouts prs))
                            (set_background (SolidFill (Some LIGHT_BLUE)) prs)))
    with (placeholder_at (set_layouts (title_styled (slide_layouts prs)) prs)).
  rewrite !placeholder_at_title_styled.
  rewrite decide_True by auto. rewrite decide_False by (intros [? _]; discriminate).
  rewrite Ha, Hb. split; reflexivity.
Qed.

Lemma themed_twice prs : themed (themed prs) = themed prs.
Proof.
  unfold themed, title_styled, set_layouts, set_background.
  cbn [master_background slide_layouts slides]. f_equal.
  rewrite (list_alter_alter_ne _ _ _ 0%nat 1%nat) by discriminate.
  rewrite (list_alter_alter_eq _ _ _ 0%nat).
  rewrite (list_alter_alter_eq _ _ _ 1%nat).
  apply list_alter_ext; [intros l _; apply alter_layout_font_twice |].
  apply list_alter_ext; [intros l _; apply alter_layout_font_twice | reflexivity].
Qed.

Lemma placeholder_at_themed_Some prs i j :
  is_Some (placeholder_at prs i j) -> is_Some (placeholder_at (themed prs) i j).
Proof.
  intros Hsome.
  pose proof (set_layout_font_frame 0 0 (fun _ => title_style)
                (set_background (SolidFill (Some LIGHT_BLUE)) prs)
                (or_introl (conj eq_refl eq_refl))) as (_ & _ & _ & H1).
  pose proof (set_layout_font_frame 1 1 (fun _ => body_style)
                (set_layouts (title_styled (slide_layouts prs))
                   (set_background (SolidFill (Some LIGHT_BLUE)) prs))
                (or_intror (conj eq_refl eq_refl))) as (_ & _ & _ & H2).
  specialize (H1 i j). specialize (H2 i j).
  change (placeholder_at (set_background (SolidFill (Some LIGHT_BLUE)) prs) i j)
    with (placeholder_at prs i j) in H1.
  fold (title_styled (slide_layouts (set_background (SolidFill (Some LIGHT_BLUE)) prs))) in H1.
  change (themed prs) with
    (set_layouts (alter (alter_layout_font (fun _ => body_style) 1) 1%nat
                    (slide_layouts (set_layouts (title_styled (slide_layouts prs))
                                      (set_background (SolidFill (Some LIGHT_BLUE)) prs))))
       (set_layouts (title_styled (slide_layouts prs))
          (set_background (SolidFill (Some LIGHT_BLUE)) prs))).
  destruct Hsome as [lp Hlp]. rewrite Hlp in H1.
  destruct (placeholder_at (set_layouts (title_styled _) _) i j) as [lp1 |] eqn:E1;
    [| discriminate].
  match type of H2 with
  | option_map _ ?x = _ => destruct x; [eauto | discriminate]
  end.
Qed.

(** X18.  Theming twice is theming once: on the presentation
    [customize_slide_master] has returned, a second call returns and
    changes nothing. *)
Theorem customize_slide_master_idempotent (prs prs' : Presentation) :
  customize_slide_master prs = (Returned tt, prs') ->
  customize_slide_master prs' = (Returned tt, prs').
Proof.
  rewrite customize_slide_master_cases.
  destruct (placeholder_at prs 0 0) as [a |] eqn:Ha; [| discriminate].
  destruct (placeholder_at prs 1 1) as [b |] eqn:Hb; [| discriminate].
  intros [= <-]. rewrite customize_slide_master_cases.
  destruct (placeholder_at_themed_Some prs 0 0) as [a' ->]; [eauto |].
  destruct (placeholder_at_themed_Some prs 1 1) as [b' ->]; [eauto |].
  now rewrite themed_twice.
Qed.

(** X19.  How [customize_slide_master] fails: with [IndexError], when the
    first layout has no placeholder or the second layout no second one (or
    the layout is not there).  What was assigned before stays: the
    background is light blue already, and in the second case the title
    style is set as well. *)
Theorem customize_slide_master_failures (prs : Presentation) :
  (placeholder_at prs 0 0 = None ->
   customize_slide_master prs
   = (Raised IndexError, set_background (SolidFill (Some LIGHT_BLUE)) prs)) /\
  (is_Some (placeholder_at prs 0 0) -> placeholder_at prs 1 1 = None ->
   customize_slide_master prs
   = (Raised IndexError,
      set_layouts (title_styled (slide_layouts prs))
        (set_background (SolidFill (Some LIGHT_BLUE)) prs))).
Proof.
  rewrite customize_slide_master_cases. split.
  - now intros ->.
  - intros [a ->] ->. reflexivity.
Qed.

Lemma customize_slide_master_Returned prs prs' :
  customize_slide_master prs = (Returned tt, prs') ->
  prs' = themed prs /\ is_Some (placeholder_at prs 0 0) /\ is_Some (placeholder_at prs 1 1).
Proof.
  rewrite customize_slide_master_cases.
  destruct (placeholder_at prs 0 0); [destruct (placeholder_at prs 1 1) |];
    intros [= <-]; eauto.
Qed.

(** Theming a presentation with the same layouts succeeds as well. *)
Lemma customize_slide_master_same_layouts prs q prs' :
  customize_slide_master prs = (Returned tt, prs') ->
  slide_layouts q = slide_layouts prs ->
  customize_slide_master q = (Returned tt, themed q).
Proof.
  intros Hrun Hlayouts.
  apply customize_slide_master_Returned in Hrun as (_ & [a Ha] & [b Hb]).
  rewrite customize_slide_master_cases.
  unfold placeholder_at in *. rewrite Hlayouts, Ha, Hb. reflexivity.
Qed.

(** ** The slides and the theme *)

Lemma bind_unaware {S A B} (T : S -> S) (m : M S A) (k : A -> M S B) :
  unaware T m -> (forall a, unaware T (k a)) -> unaware T (bind m k).
Proof.
  intros Hm Hk s. unfold bind. rewrite Hm.
  destruct (m s) as [[a | e | c] s1]; cbn [fst snd]; [apply Hk | reflexivity | reflexivity].
Qed.

Lemma new_shapes_same_kinds (phs phs' : list LayoutPlaceholder) :
  map (fun lp => (lph_idx lp, lph_type lp)) phs
  = map (fun lp => (lph_idx lp, lph_type lp)) phs' ->
  new_shapes phs = new_shapes phs'.
Proof.
  unfold new_shapes. revert phs'.
  induction phs as [| lp phs IH]; intros [| lp' phs']; simpl; try discriminate; [reflexivity |].
  intros [= Hidx Hty Hrest]. rewrite Hty.
  destruct (latent (lph_type lp')); simpl; [now apply IH |].
  unfold clone_placeholder at 1 3. rewrite Hidx, Hty. f_equal. now apply IH.
Qed.

Lemma kinds_alter_font g j (phs : list LayoutPlaceholder) :
  map (fun lp => (lph_idx lp, lph_type lp))
      (alter (fun lp => {| lph_idx := lph_idx lp; lph_type := lph_type lp;
                           lph_font := g (lph_font lp) |}) j phs)
  = map (fun lp => (lph_idx lp, lph_type lp)) phs.
Proof.
  revert j. induction phs as [| lp phs IH]; intros [| j]; simpl; try reflexivity.
  f_equal. apply IH.
Qed.

Lemma layout_shapes_set_layout_font g i0 j0 prs i :
  layout_shapes (set_layouts (alter (alter_layout_font g j0) i0 (slide_layouts prs)) prs) i
  = layout_shapes prs i.
Proof.
  unfold layout_shapes. cbn [set_layouts slide_layouts].
  destruct (decide (i0 = i)) as [-> | Hne].
  - rewrite list_lookup_alter_eq. destruct (slide_layouts prs !! i) as [l |]; [| reflexivity].
    simpl. f_equal. apply new_shapes_same_kinds, kinds_alter_font.
  - now rewrite list_lookup_alter_ne.
Qed.

Lemma layout_shapes_themed prs i : layout_shapes (themed prs) i = layout_shapes prs i.
Proof.
  unfold themed, title_styled.
  change (set_layouts (alter (alter_layout_font (fun _ => body_style) 1) 1%nat
                         (alter (alter_layout_font (fun _ => title_style) 0) 0%nat
                            (slide_layouts prs)))
            (set_background (SolidFill (Some LIGHT_BLUE)) prs))
    with (set_layouts (alter (alter_layout_font (fun _ => body_style) 1) 1%nat
                         (slide_layouts
                            (set_layouts (alter (alter_layout_font (fun _ => title_style) 0) 0%nat
                                            (slide_layouts prs))
                               (set_background (SolidFill (Some LIGHT_BLUE)) prs))))
            (set_layouts (alter (alter_layout_font (fun _ => title_style) 0) 0%nat
                            (slide_layouts prs))
               (set_background (SolidFill (Some LIGHT_BLUE)) prs))).
  rewrite layout_shapes_set_layout_font.
  change (set_layouts (alter (alter_layout_font (fun _ => title_style) 0) 0%nat
                         (slide_layouts prs))
            (set_background (SolidFill (Some LIGHT_BLUE)) prs))
    with (set_layouts (alter (alter_layout_font (fun _ => title_style) 0) 0%nat
                         (slide_layouts (set_background (SolidFill (Some LIGHT_BLUE)) prs)))
            (set_background (SolidFill (Some LIGHT_BLUE)) prs)).
  rewrite layout_shapes_set_layout_font. reflexivity.
Qed.

(** The steps on slides do not look at the fonts of the layouts or at the
    background of the master. *)
Section Unaware.
Variable T : Presentation -> Presentation.
Hypothesis T_slides : forall prs, slides (T prs) = slides prs.
Hypothesis T_set_slides : forall l prs, T (set_slides l prs) = set_slides l (T prs).
Hypothesis T_shapes : forall prs i, layout_shapes (T prs) i = layout_shapes prs i.

Lemma slide_layouts_getitem_unaware i : unaware T (slide_layouts_getitem i).
Proof.
  intros prs. unfold slide_layouts_getitem.
  pose proof (T_shapes prs i) as Hi. unfold layout_shapes in Hi.
  destruct (slide_layouts (T prs) !! i), (slide_layouts prs !! i);
    try discriminate; reflexivity.
Qed.

Lemma add_slide_unaware i : unaware T (add_slide i).
Proof.
  intros prs. unfold add_slide. cbn [fst snd].
  rewrite T_slides, T_set_slides. do 4 f_equal.
  pose proof (T_shapes prs i) as Hi. unfold layout_shapes in Hi.
  destruct (slide_layouts (T prs) !! i), (slide_layouts prs !! i);
    simpl in Hi; congruence.
Qed.

Lemma shapes_title_unaware sid : unaware T (shapes_title sid).
Proof. intros prs. unfold shapes_title. now rewrite T_slides. Qed.

Lemma placeholders_getitem_unaware sid idx : unaware T (placeholders_getitem sid idx).
Proof.
  intros prs. unfold placeholders_getitem. rewrite T_slides.
  destruct (slides prs !! sid) as [sl |]; [| reflexivity].
  destruct (find_index _ _); reflexivity.
Qed.

Lemma update_shape_unaware sid shape f : unaware T (update_shape sid shape f).
Proof.
  intros prs. unfold update_shape. rewrite T_slides.
  destruct shape as [pos |]; [| reflexivity].
  destruct (slides prs !! sid) as [sl |]; [| reflexivity].
  destruct (shapes sl !! pos) as [sh |]; [| reflexivity].
  destruct (f sh); cbn [fst snd]; [| reflexivity | reflexivity].
  now rewrite T_set_slides.
Qed.

Lemma add_title_slide_unaware title subtitle : unaware T (add_title_slide title subtitle).
Proof.
  unfold add_title_slide.
  apply bind_unaware; [apply slide_layouts_getitem_unaware | intros layout].
  apply bind_unaware; [apply add_slide_unaware | intros slide].
  apply bind_unaware; [apply shapes_title_unaware | intros title_ph].
  apply bind_unaware; [apply update_shape_unaware | intros _].
  apply bind_unaware; [apply placeholders_getitem_unaware | intros subtitle_ph].
  apply bind_unaware; [apply update_shape_unaware | intros _].
  apply bind_unaware; [apply shapes_title_unaware | intros title_shape].
  apply bind_unaware; [apply update_shape_unaware | intros _].
  apply update_shape_unaware.
Qed.

Lemma on_prs_unaware {A} (m : M Presentation A) : unaware T m -> unaware (on_deck T) (on_prs m).
Proof.
  intros Hm [w prs]. unfold on_prs, on_deck. cbn [fst snd]. rewrite Hm.
  destruct (m prs) as [o prs']. reflexivity.
Qed.

Context {P : Platform}.

Lemma add_picture_unaware sid path a b c d :
  unaware (on_deck T) (add_picture sid path a b c d).
Proof.
  intros [w prs]. unfold add_picture, on_deck. cbn [fst snd]. rewrite T_slides.
  destruct (fs w !! path) as [[| [t | img | p]] |]; try reflexivity.
  destruct (slides prs !! sid) as [sl |]; [| reflexivity].
  cbn [fst snd]. now rewrite T_set_slides.
Qed.

Lemma add_content_slide_unaware title image_path :
  unaware (on_deck T) (add_content_slide title image_path).
Proof.
  unfold add_content_slide.
  apply bind_unaware; [apply on_prs_unaware, slide_layouts_getitem_unaware | intros layout].
  apply bind_unaware; [apply on_prs_unaware, add_slide_unaware | intros slide].
  apply bind_unaware; [apply on_prs_unaware, shapes_title_unaware | intros title_ph].
  apply bind_unaware; [apply on_prs_unaware, update_shape_unaware | intros _].
  cbv zeta.
  apply bind_unaware; [apply add_picture_unaware | intros _].
  apply bind_unaware; [apply on_prs_unaware, shapes_title_unaware | intros title_shape].
  apply bind_unaware; [apply on_prs_unaware, update_shape_unaware | intros _].
  apply on_prs_unaware, update_shape_unaware.
Qed.

End Unaware.

(** X20.  Theming and adding the title slide can be done in either order.
    When [customize_slide_master] returns on a presentation, then
    [add_title_slide] on the themed presentation ends as it does on the
    one before theming, and the presentation it leaves is the one
    [customize_slide_master] makes of the presentation it leaves there:
    the call does not look at what the theme changes. *)
Theorem add_title_slide_commutes_with_theme (prs prs' : Presentation)
    (title subtitle : string) :
  customize_slide_master prs = (Returned tt, prs') ->
  exists q',
    customize_slide_master (snd (add_title_slide title subtitle prs)) = (Returned tt, q') /\
    add_title_slide title subtitle prs'
    = (fst (add_title_slide title subtitle prs), q').
Proof.
  intros Hrun.
  destruct (add_title_slide title subtitle prs) as [o q] eqn:Hadd. cbn [fst snd].
  exists (themed q). split.
  - apply (customize_slide_master_same_layouts prs q prs' Hrun).
    now apply add_title_slide_frame in Hadd as ((_ & Hlayouts & _) & _).
  - apply customize_slide_master_Returned in Hrun as (-> & _).
    rewrite (add_title_slide_unaware themed (fun _ => eq_refl) (fun _ _ => eq_refl)
               layout_shapes_themed title subtitle prs).
    now rewrite Hadd.
Qed.

(** X21.  The same for [add_content_slide]: on the themed presentation it
    ends as on the one before theming, with the same world, and leaves the
    presentation [customize_slide_master] makes of the one it leaves
    there. *)
Theorem add_content_slide_commutes_with_theme {P : Platform} (w : world)
    (prs prs' : Presentation) (title image_path : string) :
  customize_slide_master prs = (Returned tt, prs') ->
  exists q',
    customize_slide_master (snd (snd (add_content_slide title image_path (w, prs))))
    = (Returned tt, q') /\
    add_content_slide title image_path (w, prs')
    = (fst (add_content_slide title image_path (w, prs)),
       (fst (snd (add_content_slide title image_path (w, prs))), q')).
Proof.
  intros Hrun.
  destruct (add_content_slide title image_path (w, prs)) as [o [w1 q]] eqn:Hadd.
  cbn [fst snd].
  exists (themed q). split.
  - apply (customize_slide_master_same_layouts prs q prs' Hrun).
    now apply add_content_slide_frame in Hadd as (_ & (_ & Hlayouts & _) & _).
  - apply customize_slide_master_Returned in Hrun as (-> & _).
    pose proof (add_content_slide_unaware themed (fun _ => eq_refl) (fun _ _ => eq_refl)
                  layout_shapes_themed title image_path (w, prs)) as Hun.
    unfold on_deck in Hun. cbn [fst snd] in Hun. rewrite Hun, Hadd. reflexivity.
Qed.

(** ** More on [main] *)

Section MainMore.
Context {P : Platform}.

Lemma create_chart_has_charts data title filename kind figsize w w' files :
  In filename chart_files -> (forall f, In f files -> In f chart_files) ->
  create_chart data title filename kind figsize w = (Returned tt, w') ->
  has_charts files w -> has_charts (filename :: files) w'.
Proof.
  intros Hfile Hsub Hrun Hfiles.
  destruct (chart_file_target filename Hfile) as [Htarget Hjoin].
  apply create_chart_cases in Hrun as (Hu & _ & (fg & Hsaved & _) & _).
  intros f Hf.
  destruct (decide (f = filename)) as [-> | Hne].
  - unfold saved_chart in Hsaved. unfold image_at. rewrite Hjoin, <- Htarget.
    destruct (fs w' !! chart_target filename) as [[| [t | img | d]] |];
      try discriminate; eauto.
  - destruct Hf as [-> | Hf]; [congruence |].
    destruct (chart_file_target f (Hsub f Hf)) as [_ Hjf].
    unfold image_at. rewrite Hu; [now apply Hfiles |].
    unfold chart_paths. rewrite Htarget, Hjf. simpl. intros [Heq | [Heq | [Heq | []]]].
    + apply append_inv_l in Heq. congruence.
    + discriminate.
    + discriminate.
Qed.

Lemma chart_paths_generated filename :
  In filename chart_files -> forall p, In p (chart_paths filename) -> In p generated_paths.
Proof.
  intros Hf p Hp. unfold chart_paths in Hp. unfold generated_paths, chart_file_paths. simpl in Hp.
  destruct (chart_file_target filename Hf) as [Htarget Hjoin].
  destruct Hp as [<- | [<- | [<- | []]]].
  - right. right. rewrite Htarget, <- Hjoin. now apply in_map.
  - now left.
  - right. now left.
Qed.

End MainMore.

(** ** Relations every run keeps *)

Lemma keeps_bind {S A B} (R : S -> S -> Prop) (m : M S A) (k : A -> M S B) :
  (forall s1 s2 s3, R s1 s2 -> R s2 s3 -> R s1 s3) ->
  keeps R m -> (forall a, keeps R (k a)) -> keeps R (bind m k).
Proof.
  intros Htrans Hm Hk s o s'. unfold bind.
  destruct (m s) as [[a | e | c] s1] eqn:Hrun; intros Hrest.
  - eapply Htrans; [eapply Hm; exact Hrun | eapply Hk; exact Hrest].
  - injection Hrest as <- <-. eapply Hm; exact Hrun.
  - injection Hrest as <- <-. eapply Hm; exact Hrun.
Qed.

Lemma keeps_weaken {S A} (R R' : S -> S -> Prop) (m : M S A) :
  (forall s s', R s s' -> R' s s') -> keeps R m -> keeps R' m.
Proof. intros Hsub Hm s o s' Hrun. eapply Hsub, Hm, Hrun. Qed.

Lemma keeps_lift {S A} (R : S -> S -> Prop) (x : outcome A) :
  (forall s, R s s) -> keeps R (lift x : M S A).
Proof. intros Hrefl s o s'. unfold lift. intros [= <- <-]. apply Hrefl. Qed.

Lemma never_exits_bind {S A B} (m : M S A) (k : A -> M S B) :
  never_exits m -> (forall a, never_exits (k a)) -> never_exits (bind m k).
Proof.
  intros Hm Hk s o s' c. unfold bind.
  destruct (m s) as [[a | e | c'] s1] eqn:Hrun; intros Hrest.
  - eapply Hk; exact Hrest.
  - injection Hrest as <- <-. discriminate.
  - exfalso. eapply Hm; [exact Hrun | reflexivity].
Qed.

Lemma never_exits_lift {S A} (x : outcome A) :
  (forall c, x <> Exited c) -> never_exits (lift x : M S A).
Proof. intros Hx s o s' c. unfold lift. intros [= <- <-]. apply Hx. Qed.

Lemma never_exits_modify {S} (f : S -> S) : never_exits (modify f).
Proof. intros s o s' c. unfold modify. intros [= <- <-]. discriminate. Qed.

Lemma never_exits_on_prs {A} (m : M Presentation A) : never_exits m -> never_exits (on_prs m).
Proof.
  intros Hm [w prs] o s' c. unfold on_prs. cbn [fst snd].
  destruct (m prs) as [o1 prs1] eqn:Hrun. intros [= <- <-]. eapply Hm, Hrun.
Qed.

Lemma never_exits_on_world {A} (m : M world A) : never_exits m -> never_exits (on_world m).
Proof.
  intros Hm [w prs] o s' c. unfold on_world. cbn [fst snd].
  destruct (m w) as [o1 w1] eqn:Hrun. intros [= <- <-]. eapply Hm, Hrun.
Qed.

Lemma never_exits_for_each {S A} (l : list A) (body : A -> M S unit) :
  (forall x, never_exits (body x)) -> never_exits (for_each l body).
Proof.
  intros Hbody. induction l as [| x l IH]; simpl.
  - intros s o s' c. unfold ret. intros [= <- <-]. discriminate.
  - apply never_exits_bind; [apply Hbody | intros _; exact IH].
Qed.

Lemma keeps_for_each {S A} (R : S -> S -> Prop) (l : list A) (body : A -> M S unit) :
  (forall s, R s s) -> (forall s1 s2 s3, R s1 s2 -> R s2 s3 -> R s1 s3) ->
  (forall x, keeps R (body x)) -> keeps R (for_each l body).
Proof.
  intros Hrefl Htrans Hbody. induction l as [| x l IH]; simpl.
  - intros s o s'. unfold ret. intros [= <- <-]. apply Hrefl.
  - apply keeps_bind; [exact Htrans | apply Hbody | intros _; exact IH].
Qed.

Lemma keeps_on_prs {A} (m : M Presentation A) : keeps same_world (on_prs m).
Proof.
  intros [w prs] o s'. unfold on_prs, same_world. cbn [fst snd].
  destruct (m prs) as [o1 prs1]. now intros [= <- <-].
Qed.

Lemma same_world_trans s1 s2 s3 : same_world s1 s2 -> same_world s2 s3 -> same_world s1 s3.
Proof. unfold same_world. congruence. Qed.

Lemma deck_untouched_trans paths s1 s2 s3 :
  deck_untouched paths s1 s2 -> deck_untouched paths s2 s3 -> deck_untouched paths s1 s3.
Proof. unfold deck_untouched. apply untouched_trans. Qed.

Lemma same_world_untouched paths s s' : same_world s s' -> deck_untouched paths s s'.
Proof. unfold same_world, deck_untouched. intros ->. apply untouched_refl. Qed.

Section MainFrames.
Context {P : Platform}.

Lemma create_chart_keeps data title filename kind figsize :
  In filename chart_files ->
  keeps (untouched generated_paths) (create_chart data title filename kind figsize).
Proof.
  intros Hf w o w' Hrun. apply create_chart_cases in Hrun as (Hu & _).
  eapply untouched_mono; [| exact Hu]. now apply chart_paths_generated.
Qed.

Lemma create_chart_never_exits data title filename kind figsize :
  never_exits (create_chart data title filename kind figsize).
Proof.
  intros w o w' c Hrun ->. apply create_chart_cases in Hrun as (_ & _ & Hrun). exact Hrun.
Qed.

(** However [generate_charts] ends, it has touched nothing but the chart
    files and their directories, and it has not ended the process. *)
Lemma generate_charts_keeps df : keeps (untouched generated_paths) (generate_charts df).
Proof.
  unfold generate_charts.
  repeat first
    [ apply keeps_bind; [apply untouched_trans | apply keeps_lift, untouched_refl | intros ?]
    | apply keeps_bind;
      [apply untouched_trans
      | apply create_chart_keeps; unfold chart_files; simpl; tauto | intros ?] ].
  apply create_chart_keeps. unfold chart_files. simpl. tauto.
Qed.

Lemma generate_charts_never_exits df : never_exits (generate_charts df).
Proof.
  unfold generate_charts.
  repeat first
    [ apply never_exits_bind;
      [apply never_exits_lift; intros ?; apply getitem_not_Exited | intros ?]
    | apply never_exits_bind; [apply create_chart_never_exits | intros ?] ].
  apply create_chart_never_exits.
Qed.

Lemma lift_step {A} (x : outcome A) (k : A -> M world unit) w wb :
  bind (lift x) k w = (Returned tt, wb) -> exists a, k a w = (Returned tt, wb).
Proof.
  intros Hrun. apply bind_inv in Hrun as (a & w1 & Hx & Hrun).
  apply lift_inv in Hx as [_ ->]. eauto.
Qed.

Lemma chart_step data title filename kind figsize (k : unit -> M world unit)
    wc wb files lines w :
  In filename chart_files -> (forall f, In f files -> In f chart_files) ->
  bind (create_chart data title filename kind figsize) k wc = (Returned tt, wb) ->
  has_charts files wc -> figures wc = figures w -> log wc = (log w ++ lines)%list ->
  exists w2, k tt w2 = (Returned tt, wb) /\
    has_charts (filename :: files) w2 /\
    (forall f, In f (filename :: files) -> In f chart_files) /\
    figures w2 = figures w /\
    log w2 = (log w ++ lines ++ [(INFO, ("Saved chart: " ++ filename)%string)])%list /\
    fs w2 !! "img/slides" = Some Dir.
Proof.
  intros Hfile Hsub Hrun Hhas Hfigs Hlogs.
  apply bind_inv in Hrun as ([] & w2 & Hchart & Hrun).
  exists w2. split; [exact Hrun |].
  split; [eapply create_chart_has_charts; eassumption |].
  split; [intros f [<- | Hf]; auto |].
  apply create_chart_cases in Hchart as (_ & _ & _ & Hfig & Hlog & Hdir).
  split; [congruence |]. split; [| exact Hdir].
  rewrite Hlog, Hlogs. now rewrite <- app_assoc.
Qed.

(** When [generate_charts] returns, the seven charts are written, each
    call has logged its line, and no figure is left open. *)
Lemma generate_charts_Returned df w wb :
  generate_charts df w = (Returned tt, wb) ->
  has_charts chart_files wb /\ figures wb = figures w /\
  log wb = (log w ++ chart_lines)%list /\ fs wb !! "img/slides" = Some Dir.
Proof.
  intros Hrun. unfold generate_charts in Hrun.
  assert (has_charts [] w) as Hhas by (intros f []).
  assert (forall f, In f [] -> In f chart_files) as Hsub by (intros f []).
  assert (figures w = figures w) as Hfigs by reflexivity.
  assert (log w = (log w ++ [])%list) as Hlogs by (now rewrite app_nil_r).
  revert Hrun Hhas Hfigs Hlogs. generalize w at 1 2 3 5. intros wc Hrun Hhas Hfigs Hlogs.
  repeat match type of Hrun with
    | bind (lift _) _ _ = _ => apply lift_step in Hrun as [? Hrun]
    | bind (create_chart _ _ ?file _ _) _ _ = _ =>
        let w2 := fresh "w" in
        let Hrun2 := fresh "Hrun" in
        let Hhas2 := fresh "Hhas" in
        let Hsub2 := fresh "Hsub" in
        let Hfigs2 := fresh "Hfigs" in
        let Hlogs2 := fresh "Hlogs" in
        let Hfile := fresh "Hfile" in
        assert (In file chart_files) as Hfile by (unfold chart_files; simpl; tauto);
        destruct (chart_step _ _ _ _ _ _ _ _ _ _ _ Hfile Hsub Hrun Hhas Hfigs Hlogs)
          as (w2 & Hrun2 & Hhas2 & Hsub2 & Hfigs2 & Hlogs2 & _);
        clear Hrun Hhas Hsub Hfigs Hlogs Hfile wc;
        rename w2 into wc, Hrun2 into Hrun, Hhas2 into Hhas, Hsub2 into Hsub,
          Hfigs2 into Hfigs, Hlogs2 into Hlogs;
        cbv beta in Hrun
    end.
  assert (In "rating_distribution.png" chart_files) as Hfile
    by (unfold chart_files; simpl; tauto).
  pose proof (create_chart_has_charts _ _ _ _ _ _ _ _ Hfile Hsub Hrun Hhas) as Hall.
  apply create_chart_cases in Hrun as (_ & _ & _ & Hfig & Hlog & Hdir).
  split; [| split; [congruence | split; [| exact Hdir]]].
  - intros f Hf. apply Hall. unfold chart_files in Hf. simpl in Hf. simpl. tauto.
  - rewrite Hlog, Hlogs. rewrite <- app_assoc. reflexivity.
Qed.

End MainFrames.

Section MainExtras.
Context {P : Platform}.

Lemma add_title_slide_never_exits title subtitle : never_exits (add_title_slide title subtitle).
Proof.
  intros prs o prs' c Hrun ->.
  pose proof (add_title_slide_cases prs title subtitle) as Hcases.
  destruct (slide_layouts prs !! 0%nat) as [l0 |]; [| congruence].
  destruct (has_placeholder l0 0); [| congruence].
  destruct (has_placeholder l0 1).
  - destruct Hcases as (sl & Hcases). congruence.
  - destruct Hcases as (sl & Hcases & _). congruence.
Qed.

Lemma add_content_slide_keeps title image_path :
  keeps same_world (add_content_slide title image_path).
Proof.
  intros [w prs] o s' Hrun. unfold same_world.
  now apply add_content_slide_frame in Hrun as (Hw & _).
Qed.

Lemma add_content_slide_never_exits title image_path :
  never_exits (add_content_slide title image_path).
Proof.
  intros [w prs] o s' c Hrun.
  apply add_content_slide_frame in Hrun as (_ & _ & Hne). apply Hne.
Qed.

Lemma iterdir_keeps dir : keeps same_world (on_world (iterdir dir)).
Proof.
  intros [w prs] o s'. unfold on_world, iterdir, same_world. cbn [fst snd].
  destruct (fs w !! dir) as [[| c] |]; now intros [= <- <-].
Qed.

Lemma iterdir_never_exits dir : never_exits (iterdir dir).
Proof.
  intros w o w' c. unfold iterdir.
  destruct (fs w !! dir) as [[| f] |]; intros [= <- <-]; discriminate.
Qed.

(** However [build_deck] ends, the world is as before: the images are only
    read. *)
Lemma build_deck_keeps : keeps same_world build_deck.
Proof.
  unfold build_deck.
  apply keeps_bind; [apply same_world_trans | apply keeps_on_prs | intros _].
  apply keeps_bind; [apply same_world_trans | apply iterdir_keeps | intros paths].
  apply keeps_for_each; [reflexivity | apply same_world_trans |].
  intros path. apply add_content_slide_keeps.
Qed.

Lemma build_deck_never_exits : never_exits build_deck.
Proof.
  unfold build_deck.
  apply never_exits_bind; [apply never_exits_on_prs, add_title_slide_never_exits | intros _].
  apply never_exits_bind; [apply never_exits_on_world, iterdir_never_exits | intros paths].
  apply never_exits_for_each. intros path. apply add_content_slide_never_exits.
Qed.

Lemma save_keeps path : keeps (deck_untouched [path]) (save path).
Proof.
  intros [w prs] o s'. unfold save, deck_untouched. cbn [fst snd].
  destruct (fs w !! path) as [[| c] |]; intros [= <- <-]; cbn [fst];
    try apply untouched_refl;
    intros p Hp; cbn [fs set_fs]; rewrite lookup_insert_ne; try reflexivity;
    intros <-; apply Hp; now left.
Qed.

Lemma save_never_exits path : never_exits (save path).
Proof.
  intros [w prs] o s' c. unfold save. cbn [fst snd].
  destruct (fs w !! path) as [[| f] |]; intros [= <- <-]; discriminate.
Qed.

Lemma logger_info_keeps paths msg :
  keeps (deck_untouched paths) (on_world (logger_info msg)).
Proof.
  intros [w prs] o s'. unfold on_world, logger_info, modify. intros [= <- <-].
  now apply untouched_same_fs.
Qed.

Lemma customize_slide_master_never_exits : never_exits customize_slide_master.
Proof.
  intros prs o prs' c. rewrite customize_slide_master_cases.
  destruct (placeholder_at prs 0 0); [destruct (placeholder_at prs 1 1) |];
    intros [= <- <-]; discriminate.
Qed.

Lemma deck_block_keeps : keeps (deck_untouched [PLAIN_DECK; THEMED_DECK]) deck_block.
Proof.
  assert (forall path, In path [PLAIN_DECK; THEMED_DECK] ->
            keeps (deck_untouched [PLAIN_DECK; THEMED_DECK]) (save path)) as Hsave.
  { intros path Hpath. eapply keeps_weaken; [| apply save_keeps].
    intros s s'. unfold deck_untouched. apply untouched_mono.
    intros p [<- | []]. exact Hpath. }
  assert (forall A (m : M (world * Presentation) A),
            keeps same_world m -> keeps (deck_untouched [PLAIN_DECK; THEMED_DECK]) m) as Hsame.
  { intros A m. apply keeps_weaken. intros s s'. apply same_world_untouched. }
  unfold deck_block.
  apply keeps_bind; [apply deck_untouched_trans | apply Hsame, build_deck_keeps | intros _].
  apply keeps_bind; [apply deck_untouched_trans | apply Hsave; now left | intros _].
  apply keeps_bind; [apply deck_untouched_trans | apply logger_info_keeps | intros _].
  apply keeps_bind; [apply deck_untouched_trans | apply Hsame, keeps_on_prs | intros _].
  apply keeps_bind; [apply deck_untouched_trans | apply Hsave; right; now left | intros _].
  apply logger_info_keeps.
Qed.

Lemma deck_block_never_exits : never_exits deck_block.
Proof.
  unfold deck_block.
  apply never_exits_bind; [apply build_deck_never_exits | intros _].
  apply never_exits_bind; [apply save_never_exits | intros _].
  apply never_exits_bind;
    [apply never_exits_on_world, never_exits_modify | intros _].
  apply never_exits_bind;
    [apply never_exits_on_prs, customize_slide_master_never_exits | intros _].
  apply never_exits_bind; [apply save_never_exits | intros _].
  apply never_exits_on_world, never_exits_modify.
Qed.

Lemma main_unfold :
  main = bind (logger_info "Starting Netflix content analysis...") (fun _ =>
         bind (load_and_clean_data "./data/netflix_titles.csv") (fun df =>
         bind (generate_charts df) (fun _ =>
         with_presentation new_presentation deck_block))).
Proof. reflexivity. Qed.

Lemma with_presentation_keeps {A} paths init (m : M (world * Presentation) A) :
  keeps (deck_untouched paths) m -> keeps (untouched paths) (with_presentation init m).
Proof.
  intros Hm w o w'. unfold with_presentation.
  destruct (m (w, init)) as [o1 s1] eqn:Hrun. intros [= <- <-].
  apply Hm in Hrun. exact Hrun.
Qed.

Lemma with_presentation_never_exits {A} init (m : M (world * Presentation) A) :
  never_exits m -> never_exits (with_presentation init m).
Proof.
  intros Hm w o w' c. unfold with_presentation.
  destruct (m (w, init)) as [o1 s1] eqn:Hrun. intros [= <- <-]. eapply Hm, Hrun.
Qed.

Lemma load_and_clean_data_keeps path :
  keeps (fun w w' => fs w' = fs w) (load_and_clean_data path).
Proof.
  intros w o w' Hrun. now apply load_and_clean_data_world in Hrun as (Hfs & _).
Qed.


(** What has happened when [main] returns. *)
Lemma main_Returned_inv w w' :
  main w = (Returned tt, w') ->
  exists df w1 wb first new,
    load_and_clean_data "./data/netflix_titles.csv"
      (set_log (log w ++ [(INFO, "Starting Netflix content analysis...")])%list w)
    = (Returned df, w1) /\
    generate_charts df w1 = (Returned tt, wb) /\
    Forall2 (content_slide_for wb) (enumerate (entries (fs wb) "img/slides")) new /\
    let deck := set_slides (first :: new) new_presentation in
    fs w' = <[THEMED_DECK := File (Deck (themed deck))]>
              (<[PLAIN_DECK := File (Deck deck)]> (fs wb)) /\
    log w' = (log wb
              ++ [(INFO, "Presentation saved as Netflix_Content_Analysis.pptx");
                  (INFO, "Themed presentation saved as Netflix_Content_Analysis_Themed.pptx")])%list /\
    figures w' = figures wb.
Proof.
  unfold main. intros Hrun.
  apply bind_inv in Hrun as ([] & w0 & Hstart & Hrun).
  unfold logger_info, modify in Hstart. apply pair_equal_spec in Hstart as [_ <-].
  apply bind_inv in Hrun as (df & w1 & Hload & Hrun).
  apply bind_inv in Hrun as ([] & wb & Hcharts & Hrun).
  unfold with_presentation in Hrun.
  match type of Hrun with context [bind ?m ?k (wb, new_presentation)] =>
    destruct (bind m k (wb, new_presentation)) as [o s6] eqn:Hdeck end.
  assert (o = Returned tt /\ w' = fst s6) as [-> ->] by (split; congruence).
  clear Hrun.
  apply bind_inv in Hdeck as ([] & s1 & Hbuild & Hdeck).
  apply build_deck_Returned in Hbuild as (first & new & -> & _ & _ & Hnew & _).
  apply bind_inv in Hdeck as ([] & s2 & Hsave & Hdeck).
  apply save_Returned in Hsave as ->.
  apply bind_inv in Hdeck as ([] & s3 & Hlog & Hdeck).
  unfold on_world, logger_info, modify in Hlog. cbn [fst snd] in Hlog.
  apply pair_equal_spec in Hlog as [_ <-].
  apply bind_inv in Hdeck as ([] & s4 & Htheme & Hdeck).
  apply on_prs_Returned in Htheme as (themed_deck & Htheme & ->).
  apply customize_slide_master_Returned in Htheme as (-> & _).
  apply bind_inv in Hdeck as ([] & s5 & Hsave2 & Hdeck).
  apply save_Returned in Hsave2 as ->.
  unfold on_world, logger_info, modify in Hdeck. cbn [fst snd] in Hdeck.
  apply pair_equal_spec in Hdeck as [_ <-].
  exists df, w1, wb, first, new. cbn [fst snd fs set_fs set_log log figures].
  split; [exact Hload |]. split; [exact Hcharts |]. split; [exact Hnew |].
  split; [reflexivity |]. split; [| reflexivity].
  now rewrite <- app_assoc.
Qed.

(** X22.  When [main] returns, the two documents it has saved hold the
    same slides: the first is the deck on the default template as it is,
    the second is what [customize_slide_master] makes of that deck (light
    blue background of the master, the title and body styles), and nothing
    else differs. *)
Theorem main_saves_plain_and_themed (w w' : world) :
  main w = (Returned tt, w') ->
  exists deck deck',
    fs w' !! PLAIN_DECK = Some (File (Deck deck)) /\
    fs w' !! THEMED_DECK = Some (File (Deck deck')) /\
    customize_slide_master deck = (Returned tt, deck') /\
    slide_layouts deck = default_layouts /\
    master_background deck = InheritedFill /\
    slides deck' = slides deck /\
    master_background deck' = SolidFill (Some LIGHT_BLUE).
Proof.
  intros Hrun.
  apply main_Returned_inv in Hrun
    as (df & w1 & wb & first & new & _ & _ & _ & Hfs & _).
  cbv zeta in Hfs.
  exists (set_slides (first :: new) new_presentation),
    (themed (set_slides (first :: new) new_presentation)).
  rewrite Hfs.
  split; [rewrite lookup_insert_ne by discriminate; apply lookup_insert_eq |].
  split; [apply lookup_insert_eq |].
  split; [now rewrite customize_slide_master_cases |].
  repeat split.
Qed.

(** X23.  When [main] returns, a readable image is under the path of each
    of the seven charts, the chart directory exists, and no figure is left
    open: the open figures are those from before the run. *)
Theorem main_writes_the_charts (w w' : world) :
  main w = (Returned tt, w') ->
  has_charts chart_files w' /\
  fs w' !! "img/slides" = Some Dir /\
  figures w' = figures w.
Proof.
  intros Hrun.
  apply main_Returned_inv in Hrun
    as (df & w1 & wb & first & new & Hload & Hcharts & _ & Hfs & _ & Hfig).
  cbv zeta in Hfs.
  apply generate_charts_Returned in Hcharts as (Hhas & Hfigs & _ & Hdir).
  apply load_and_clean_data_inv in Hload as (_ & _ & _ & _ & _ & _ & _ & _ & _ & _ & ->).
  split; [| split].
  - intros f Hf. specialize (Hhas f Hf). unfold image_at in *. rewrite Hfs.
    destruct (chart_file_target f Hf) as [_ Hjoin]. rewrite Hjoin in *.
    rewrite !lookup_insert_ne by discriminate. exact Hhas.
  - rewrite Hfs. rewrite !lookup_insert_ne by discriminate. exact Hdir.
  - rewrite Hfig, Hfigs. reflexivity.
Qed.

(** X24.  The log of a run of [main] that returns: the lines that were
    there, then the start line, the line of the load, one line per chart in
    the order in which the charts are made, and the lines of the two
    documents; eleven lines, no error among them. *)
Theorem main_log_on_return (w w' : world) :
  main w = (Returned tt, w') ->
  log w' = (log w ++ main_lines)%list /\
  length main_lines = 11%nat /\
  Forall (fun line => fst line = INFO) main_lines.
Proof.
  intros Hrun.
  apply main_Returned_inv in Hrun
    as (df & w1 & wb & first & new & Hload & Hcharts & _ & _ & Hlog & _).
  apply generate_charts_Returned in Hcharts as (_ & _ & Hlogs & _).
  apply load_and_clean_data_inv in Hload as (_ & _ & _ & _ & _ & _ & _ & _ & _ & _ & ->).
  split; [| split; [reflexivity | repeat constructor]].
  rewrite Hlog, Hlogs. cbn [log set_log]. unfold main_lines.
  rewrite <- !app_assoc. reflexivity.
Qed.

(** [main], however it ends. *)
Lemma main_keeps : keeps (untouched main_paths) main.
Proof.
  assert (forall A (m : M world A),
            keeps (fun w w' => fs w' = fs w) m -> keeps (untouched main_paths) m) as Hsame.
  { intros A m. apply keeps_weaken. intros s s'. apply untouched_same_fs. }
  rewrite main_unfold.
  apply keeps_bind; [apply untouched_trans | | intros _].
  { apply Hsame. intros w o w'. unfold logger_info, modify. now intros [= <- <-]. }
  apply keeps_bind; [apply untouched_trans | apply Hsame, load_and_clean_data_keeps | intros df].
  apply keeps_bind; [apply untouched_trans | | intros _].
  { eapply keeps_weaken; [| apply generate_charts_keeps].
    intros s s'. apply untouched_mono. intros p Hp. right. right. exact Hp. }
  eapply keeps_weaken; [| apply with_presentation_keeps, deck_block_keeps].
  intros s s'. apply untouched_mono. unfold main_paths. simpl. tauto.
Qed.

(** X25.  However [main] ends, nothing in the file system has changed but,
    at most, the charts, their directories and the two documents: the
    input file is as it was, and so is any other file. *)
Theorem main_touches_only_its_outputs (w : world) :
  untouched main_paths w (snd (main w)) /\
  fs (snd (main w)) !! "./data/netflix_titles.csv" = fs w !! "./data/netflix_titles.csv".
Proof.
  assert (untouched main_paths w (snd (main w))) as Hu.
  { destruct (main w) as [o w'] eqn:Hrun. apply main_keeps in Hrun. exact Hrun. }
  split; [exact Hu |]. apply Hu.
  intros H. vm_compute in H.
  repeat (destruct H as [H | H]; [discriminate |]). exact H.
Qed.

(** X26.  [main] ends the process only through the load: with status 1,
    and only when the input file is missing. *)
Theorem main_exits_only_when_input_missing (w w' : world) (c : Z) :
  main w = (Exited c, w') ->
  c = 1 /\ fs w !! "./data/netflix_titles.csv" = None.
Proof.
  rewrite main_unfold. unfold bind at 1. unfold logger_info at 1, modify.
  set (w0 := set_log _ w). unfold bind at 1.
  destruct (load_and_clean_data "./data/netflix_titles.csv" w0) as [[df | e | c0] w1] eqn:Hload.
  - intros Hrun. exfalso.
    assert (never_exits (bind (generate_charts df)
                           (fun _ => with_presentation new_presentation deck_block))) as Hne.
    { apply never_exits_bind; [apply generate_charts_never_exits | intros _].
      apply with_presentation_never_exits, deck_block_never_exits. }
    eapply Hne; [exact Hrun | reflexivity].
  - discriminate.
  - intros [= <- <-].
    destruct (fs w0 !! "./data/netflix_titles.csv") as [n |] eqn:Hfs.
    + pose proof (load_and_clean_data_present _ _ _ Hfs) as Hcalm.
      rewrite Hload in Hcalm. destruct Hcalm.
    + destruct (missing_path_error_cases (fs w0) "./data/netflix_titles.csv")
        as [(Href & Hbelow & _) | Hother].
      * rewrite (load_and_clean_data_missing _ _ Hfs Href Hbelow) in Hload.
        injection Hload as <- _. auto.
      * rewrite (load_and_clean_data_unopenable _ _ Hfs Hother) in Hload. discriminate.
Qed.

End MainExtras.

(** ** Runs of [main] *)

Lemma Forall2_In_l {A B} (R : A -> B -> Prop) (l : list A) (l' : list B) x :
  Forall2 R l l' -> In x l -> exists y, R x y.
Proof.
  intros HR. induction HR as [| a b l l' Hab _ IH]; simpl; [tauto |].
  intros [<- | Hin]; eauto.
Qed.

Lemma chart_file_is_entry f :
  In f chart_files -> is_entry "img/slides" (path_join "img/slides" f) = true.
Proof.
  unfold chart_files. simpl.
  intros [<- | [<- | [<- | [<- | [<- | [<- | [<- | []]]]]]]]; vm_compute; reflexivity.
Qed.

Lemma entry_untouched_by_charts p w w' :
  is_entry "img/slides" p = true -> ~ In p chart_file_paths ->
  untouched generated_paths w w' -> fs w' !! p = fs w !! p.
Proof.
  intros Hentry Hp Hu. apply Hu. destruct (entry_not_chart_dir p Hentry) as [H1 H2].
  unfold generated_paths. simpl.
  intros [Heq | [Heq | Hin]]; [now apply H1 | now apply H2 | exact (Hp Hin)].
Qed.

Lemma deck_not_generated :
  ~ In PLAIN_DECK generated_paths /\ ~ In THEMED_DECK generated_paths.
Proof.
  split; intros H; vm_compute in H;
    repeat (destruct H as [H | H]; [discriminate |]); exact H.
Qed.

Lemma NoDup_entries (f : gmap string node) dir : NoDup (entries f dir).
Proof. unfold entries. apply NoDup_fst_map_to_list. Qed.

Lemma NoDup_chart_file_paths : NoDup chart_file_paths.
Proof. apply (bool_decide_unpack _). vm_compute. exact I. Qed.

Section MainRuns.
Context {P : Platform}.

(** X27.  [main] takes every entry of the chart directory for an image.
    When the directory holds, before the run, an entry that is no readable
    image and is not overwritten by a chart (a stray text file, a
    subdirectory), [main] does not return: if it gets as far as the slides
    it raises there, and neither document is written. *)
Theorem main_stops_at_foreign_entry (w w' : world) (p : string) (o : outcome unit) :
  In p (entries (fs w) "img/slides") ->
  image_at w p = None ->
  ~ In p chart_file_paths ->
  main w = (o, w') ->
  o <> Returned tt /\
  fs w' !! PLAIN_DECK = fs w !! PLAIN_DECK /\
  fs w' !! THEMED_DECK = fs w !! THEMED_DECK.
Proof.
  intros Hp Himg Hnot.
  apply In_entries in Hp as [Hsome Hentry].
  destruct deck_not_generated as [Hplain Hthemed].
  rewrite main_unfold. unfold bind at 1. unfold logger_info at 1, modify.
  set (w0 := set_log _ w). unfold bind at 1.
  destruct (load_and_clean_data "./data/netflix_titles.csv" w0) as [[df | e | c] w1] eqn:Hload;
    apply load_and_clean_data_keeps in Hload; cbn [fs set_log w0] in Hload.
  2: { intros [= <- <-]. rewrite Hload. repeat split. discriminate. }
  2: { intros [= <- <-]. rewrite Hload. repeat split. discriminate. }
  unfold bind at 1.
  destruct (generate_charts df w1) as [[[] | e | c] wb] eqn:Hcharts;
    apply generate_charts_keeps in Hcharts.
  2: { intros [= <- <-]. rewrite !Hcharts, Hload by assumption. repeat split. discriminate. }
  2: { intros [= <- <-]. rewrite !Hcharts, Hload by assumption. repeat split. discriminate. }
  unfold with_presentation, deck_block. unfold bind at 1.
  destruct (build_deck (wb, new_presentation)) as [[[] | e | c] s1] eqn:Hbuild.
  - exfalso.
    apply build_deck_Returned in Hbuild as (first & new & _ & _ & _ & Hnew & _).
    assert (fs wb !! p = fs w !! p) as Hsame.
    { rewrite <- Hload. now apply entry_untouched_by_charts. }
    assert (In p (enumerate (entries (fs wb) "img/slides"))) as Hin.
    { apply (Permutation_in _ (Permutation_sym (enumerate_perm _))).
      apply In_entries. rewrite Hsame. auto. }
    destruct (Forall2_In_l _ _ _ _ Hnew Hin) as (sl & img & Hsl & _).
    unfold image_at in Hsl, Himg. rewrite Hsame in Hsl. congruence.
  - apply build_deck_keeps in Hbuild. unfold same_world in Hbuild. cbn [fst] in Hbuild.
    intros [= <- <-]. rewrite Hbuild, !Hcharts, Hload by assumption.
    repeat split. discriminate.
  - exfalso. eapply build_deck_never_exits; [exact Hbuild | reflexivity].
Qed.

(** The entries of the chart directory once the charts are written: those
    of before, and the charts. *)
Lemma entries_after_charts df w wb p :
  generate_charts df w = (Returned tt, wb) ->
  In p (entries (fs wb) "img/slides")
  <-> In p (entries (fs w) "img/slides") \/ In p chart_file_paths.
Proof.
  intros Hcharts. pose proof (generate_charts_keeps df _ _ _ Hcharts) as Hu.
  apply generate_charts_Returned in Hcharts as (Hhas & _).
  rewrite !In_entries. split.
  - intros [Hsome Hentry].
    destruct (In_dec String.string_dec p chart_file_paths) as [Hin | Hnot]; [now right |].
    left. split; [| exact Hentry].
    now rewrite <- (entry_untouched_by_charts p w wb Hentry Hnot Hu).
  - intros [[Hsome Hentry] | Hin].
    + destruct (In_dec String.string_dec p chart_file_paths) as [Hin | Hnot].
      * unfold chart_file_paths in Hin. apply in_map_iff in Hin as (f & <- & Hf).
        split; [| now apply chart_file_is_entry].
        destruct (Hhas f Hf) as [img Himg]. unfold image_at in Himg.
        destruct (fs wb !! path_join "img/slides" f); [eauto | discriminate].
      * split; [| exact Hentry].
        now rewrite (entry_untouched_by_charts p w wb Hentry Hnot Hu).
    + unfold chart_file_paths in Hin. apply in_map_iff in Hin as (f & <- & Hf).
      split; [| now apply chart_file_is_entry].
      destruct (Hhas f Hf) as [img Himg]. unfold image_at in Himg.
      destruct (fs wb !! path_join "img/slides" f); [eauto | discriminate].
Qed.

(** X28.  A run of [main] that starts with an empty (or no) chart
    directory and returns leaves documents of eight slides: the title
    slide and one slide per chart. *)
Theorem main_clean_run_has_eight_slides (w w' : world) :
  entries (fs w) "img/slides" = [] ->
  main w = (Returned tt, w') ->
  exists deck,
    fs w' !! PLAIN_DECK = Some (File (Deck deck)) /\
    fs w' !! THEMED_DECK = Some (File (Deck (themed deck))) /\
    length (slides deck) = 8%nat /\
    length (slides (themed deck)) = 8%nat.
Proof.
  intros Hclean Hrun.
  apply main_Returned_inv in Hrun
    as (df & w1 & wb & first & new & Hload & Hcharts & Hnew & Hfs & _).
  cbv zeta in Hfs.
  apply load_and_clean_data_keeps in Hload. cbn [fs set_log] in Hload.
  assert (length new = 7%nat) as Hlen.
  { rewrite <- (Forall2_length _ _ _ Hnew), (Permutation_length (enumerate_perm _)).
    change 7%nat with (length chart_file_paths).
    apply Permutation_length, NoDup_Permutation;
      [apply NoDup_entries | apply NoDup_chart_file_paths |].
    intros p. rewrite !list_elem_of_In, (entries_after_charts df w1 wb p Hcharts).
    rewrite Hload, Hclean. simpl. tauto. }
  exists (set_slides (first :: new) new_presentation). rewrite Hfs.
  split; [rewrite lookup_insert_ne by discriminate; apply lookup_insert_eq |].
  split; [apply lookup_insert_eq |].
  cbn [slides set_slides themed set_layouts set_background length]. now rewrite Hlen.
Qed.

End MainRuns.

(** ** Titles from file names *)

Lemma replace_char_removes a b s :
  Ascii.eqb b a = false -> contains_char a (replace_char a b s) = false.
Proof.
  intros Hne. induction s as [| c s IH]; simpl; [reflexivity |].
  rewrite IH, orb_false_r.
  destruct (Ascii.eqb c a) eqn:Hc; [exact Hne | exact Hc].
Qed.

Lemma length_replace_char a b s : String.length (replace_char a b s) = String.length s.
Proof. induction s as [| c s IH]; simpl; congruence. Qed.

Lemma cased_not_underscore (c : ascii) (b : bool) :
  Ascii.eqb c UNDERSCORE = false ->
  Ascii.eqb (if is_upper c || is_lower c
             then (if b then to_lower c else to_upper c)
             else c) UNDERSCORE = false.
Proof.
  destruct c as [[] [] [] [] [] [] [] []], b; vm_compute; intros H; exact H || reflexivity.
Qed.

Lemma title_from_no_underscore b s :
  contains_char UNDERSCORE s = false -> contains_char UNDERSCORE (title_from b s) = false.
Proof.
  revert b. induction s as [| c s IH]; intros b; simpl; [reflexivity |].
  intros H. apply orb_false_iff in H as [Hc Hs].
  pose proof (cased_not_underscore c b Hc) as Hcase.
  destruct (is_upper c || is_lower c); simpl; rewrite Hcase, IH by exact Hs; reflexivity.
Qed.

Lemma length_title_from b s : String.length (title_from b s) = String.length s.
Proof.
  revert b. induction s as [| c s IH]; intros b; simpl; [reflexivity |].
  destruct (is_upper c || is_lower c); simpl; now rewrite IH.
Qed.

(** X29.  For a file name whose stem is of ASCII characters, the title the
    slide gets from it holds no underscore and has as many characters as
    the stem: the underscores become spaces, letters change case only. *)
Theorem slide_title_has_no_underscore (img_path : string) :
  is_ascii (stem img_path) = true ->
  contains_char UNDERSCORE (slide_title img_path) = false /\
  String.length (slide_title img_path) = String.length (stem img_path).
Proof.
  intros _. unfold slide_title, title_case. split.
  - apply title_from_no_underscore, replace_char_removes. reflexivity.
  - now rewrite length_title_from, length_replace_char.
Qed.

Lemma basename_from_skip acc dir s :
  basename_from acc (dir ++ String SLASH s) = basename_from EmptyString s.
Proof.
  revert acc. induction dir as [| c dir IH]; intros acc.
  - reflexivity.
  - change (String c dir ++ String SLASH s) with (String c (dir ++ String SLASH s)).
    cbn [basename_from]. destruct (Ascii.eqb c SLASH); apply IH.
Qed.

Lemma append_assoc_char acc c s : (acc ++ String c EmptyString) ++ s = acc ++ String c s.
Proof.
  induction acc as [| d acc IH]; [reflexivity |].
  change (String d ((acc ++ String c EmptyString) ++ s) = String d (acc ++ String c s)).
  now rewrite IH.
Qed.

Lemma append_empty_r s : s ++ EmptyString = s.
Proof.
  induction s as [| c s IH]; [reflexivity |].
  change (String c (s ++ EmptyString) = String c s). now rewrite IH.
Qed.

Lemma basename_from_plain acc s :
  contains_char SLASH s = false -> basename_from acc s = acc ++ s.
Proof.
  revert acc. induction s as [| c s IH]; intros acc; cbn [basename_from contains_char].
  - intros _. now rewrite append_empty_r.
  - intros H. apply orb_false_iff in H as [Hc Hs]. rewrite Hc.
    rewrite (IH _ Hs). apply append_assoc_char.
Qed.

Lemma rfind_from_app c i found s t :
  rfind_from c i found (s ++ t)
  = rfind_from c (i + String.length s) (rfind_from c i found s) t.
Proof.
  revert i found. induction s as [| d s IH]; intros i found.
  - cbn [String.length rfind_from]. rewrite Nat.add_0_r. reflexivity.
  - change (String d s ++ t) with (String d (s ++ t)).
    cbn [rfind_from String.length]. rewrite IH. f_equal. lia.
Qed.

Lemma rfind_from_none c i found s :
  contains_char c s = false -> rfind_from c i found s = found.
Proof.
  revert i found. induction s as [| d s IH]; intros i found; cbn [rfind_from contains_char].
  - reflexivity.
  - intros H. apply orb_false_iff in H as [Hd Hs]. rewrite Hd. now apply IH.
Qed.

Lemma substring_prefix s t : substring 0 (String.length s) (s ++ t) = s.
Proof.
  induction s as [| c s IH].
  - destruct t; reflexivity.
  - change (String c s ++ t) with (String c (s ++ t)).
    cbn [String.length substring]. now rewrite IH.
Qed.

Lemma length_append s t : String.length (s ++ t) = (String.length s + String.length t)%nat.
Proof.
  induction s as [| c s IH]; [reflexivity |].
  change (String c s ++ t) with (String c (s ++ t)). cbn [String.length]. now rewrite IH.
Qed.

(** X30.  The way from a chart's file name to its slide's title: for a
    name without a slash or a dot, the stem of the path [create_chart]
    writes [name.png] to, in any directory, is [name]; so the slide made
    for the file is titled with [name], its underscores turned to spaces,
    in title case. *)
Theorem chart_name_gives_slide_title (dir name : string) :
  name <> EmptyString ->
  contains_char SLASH name = false ->
  contains_char DOT name = false ->
  stem (path_join dir (name ++ ".png")) = name /\
  slide_title (path_join dir (name ++ ".png"))
  = title_case (replace_char UNDERSCORE SPACE name).
Proof.
  intros Hne Hslash Hdot.
  assert (stem (path_join dir (name ++ ".png")) = name) as Hstem.
  { rewrite path_join_plain.
    2: { destruct name; [congruence | discriminate]. }
    2: { destruct name as [| c [| d rest]]; [congruence | discriminate | discriminate]. }
    2: { rewrite contains_char_app, Hslash. reflexivity. }
    unfold stem, basename.
    change (dir ++ "/" ++ name ++ ".png") with (dir ++ String SLASH (name ++ ".png")).
    rewrite basename_from_skip, basename_from_plain
      by (rewrite contains_char_app, Hslash; reflexivity).
    change (EmptyString ++ name ++ ".png") with (name ++ ".png").
    unfold rfind. rewrite rfind_from_app, (rfind_from_none _ _ _ _ Hdot).
    cbn [rfind_from Nat.add]. change (Ascii.eqb "." DOT) with true. cbv iota.
    change (Ascii.eqb "p" DOT) with false. change (Ascii.eqb "n" DOT) with false.
    change (Ascii.eqb "g" DOT) with false. cbv iota.
    rewrite length_append. cbn [String.length].
    assert ((0 <? String.length name)%nat && (String.length name <? String.length name + 4 - 1)%nat
            = true) as ->.
    { destruct name; [congruence |]. cbn [String.length].
      apply andb_true_iff. split; apply Nat.ltb_lt; lia. }
    apply substring_prefix. }
  split; [exact Hstem |]. unfold slide_title. now rewrite Hstem.
Qed.

(** * The script on the sample *)

Module Examples.
Import Sample.
#[local] Existing Instance platform.

(** Text and numbers. *)
Example search_digits_minutes : search_digits "90 min" = Some "90".
Proof. reflexivity. Qed.

Example search_digits_inner : search_digits "about 125 min, 2 parts" = Some "125".
Proof. reflexivity. Qed.

Example search_digits_none : search_digits "unknown" = None.
Proof. reflexivity. Qed.

Example split_on_commas :
  split_on "," "Dramas, International Movies" = ["Dramas"; " International Movies"].
Proof. reflexivity. Qed.

Example split_on_empty : split_on "," "" = [""].
Proof. reflexivity. Qed.

Example float_of_Z_small : float_of_Z 90 = Finite 90.
Proof. reflexivity. Qed.

Example float_of_Z_tie_to_even : float_of_Z (2 ^ 53 + 1) = Finite (2 ^ 53).
Proof. vm_compute. reflexivity. Qed.

Example float_of_Z_rounds_up : float_of_Z (2 ^ 53 + 3) = Finite (2 ^ 53 + 4).
Proof. vm_compute. reflexivity. Qed.

Example float_of_Z_twenty_digits :
  float_of_Z 12345678901234567890 = Finite 12345678901234567168.
Proof. vm_compute. reflexivity. Qed.

Example float_of_Z_overflow : float_of_Z (2 ^ 1024) = Inf.
Proof. vm_compute. reflexivity. Qed.

Example parse_year_netflix : parse_year " August 4, 2017" = Some 2017.
Proof. vm_compute. reflexivity. Qed.

(** Paths and titles. *)
Example stem_png : stem "img/slides/content_by_year.png" = "content_by_year".
Proof. vm_compute. reflexivity. Qed.

Example stem_two_suffixes : stem "img/slides/a_b.tar.png" = "a_b.tar".
Proof. vm_compute. reflexivity. Qed.

Example stem_leading_dot : stem "img/slides/.hidden" = ".hidden".
Proof. vm_compute. reflexivity. Qed.

Example slide_title_chart : slide_title "img/slides/content_by_year.png" = "Content By Year".
Proof. vm_compute. reflexivity. Qed.

Example slide_title_digits : slide_title "img/slides/top_10countries.png" = "Top 10Countries".
Proof. vm_compute. reflexivity. Qed.

Example entry_of_chart_directory : is_entry "img/slides" "img/slides/top_genres.png" = true.
Proof. vm_compute. reflexivity. Qed.

Example no_entry_below : is_entry "img/slides" "img/slides/old/top_genres.png" = false.
Proof. vm_compute. reflexivity. Qed.

(** Text of shapes. *)
Example stored_text_two_lines :
  stored_text (String "a" (String LF "b")) = String "a" (String LF "b").
Proof. vm_compute. reflexivity. Qed.

Example stored_text_bell : stored_text bell_title = "_x0007_".
Proof. vm_compute. reflexivity. Qed.

(** Lengths. *)
Example inches_one_and_a_half : Inches 3 2 = 1371600.
Proof. reflexivity. Qed.

Example pt_44 : Pt 44 = 558800.
Proof. reflexivity. Qed.

(** The frame the sample gives. *)
Example sample_columns :
  columns sample_frame
  = (sample_header ++ ["duration_min"; "genre"; "year_added"])%list.
Proof. reflexivity. Qed.

Example sample_labels : map fst (rows sample_frame) = [Int 0; Int 1; Int 3; Int 4].
Proof. reflexivity. Qed.

Example show_has_no_minutes : cell_at sample_frame "duration_min" show_row = NaN.
Proof. vm_compute. reflexivity. Qed.

Example show_year : cell_at sample_frame "year_added" show_row = Int 2017.
Proof. vm_compute. reflexivity. Qed.

(** The run on the sample: seven charts, two documents, eleven log lines. *)
Example sample_run_charts :
  map (fun f => is_Some_image world_after_main (path_join "img/slides" f)) chart_files
  = [true; true; true; true; true; true; true].
Proof. vm_compute. reflexivity. Qed.

Example sample_run_entries : length (entries (fs world_after_main) "img/slides") = 7%nat.
Proof. vm_compute. reflexivity. Qed.

Example sample_run_log : length (log world_after_main) = 11%nat.
Proof. vm_compute. reflexivity. Qed.

Example sample_run_no_open_figure : figures world_after_main = [].
Proof. vm_compute. reflexivity. Qed.

(** The sample meets what [main_returns] asks for. *)
Example sample_dates_parse : dates_parse sample_csv.
Proof.
  intros r i s Hr _ Hpos Hnth.
  assert (i = 3%nat) as -> by (vm_compute in Hpos; congruence).
  simpl in Hr.
  destruct Hr as [<- | [<- | [<- | [<- | [<- | []]]]]];
    simpl in Hnth; injection Hnth as <-; vm_compute; eauto.
Qed.

Example sample_writable : writable sample_world.
Proof.
  unfold writable. split; [| split; [| split; [| split]]].
  - vm_compute. exact I.
  - intros f Hf. vm_compute in Hf.
    destruct Hf as [<- | [<- | [<- | [<- | [<- | [<- | [<- | []]]]]]]];
      vm_compute; discriminate.
  - intros p Hp. vm_compute in Hp. destruct Hp.
  - vm_compute. discriminate.
  - vm_compute. discriminate.
Qed.

Example sample_text_columns : text_columns sample_csv.
Proof.
  repeat split; intros j Hj; vm_compute in Hj; injection Hj as <-;
    vm_compute; reflexivity.
Qed.

Example sample_main_returns : exists w', main sample_world = (Returned tt, w').
Proof.
  apply (main_returns sample_world sample_csv).
  - reflexivity.
  - reflexivity.
  - repeat split; vm_compute; eauto.
  - exact sample_text_columns.
  - exact sample_dates_parse.
  - vm_compute. eauto.
  - vm_compute. eauto.
  - reflexivity.
  - repeat constructor.
  - exact sample_writable.
Qed.

(** On the file with the date that is none, [main] raises. *)
Example bad_date_run :
  fst (main bad_date_world)
  = Raised (ValueError "Unknown datetime string format, unable to parse: not a date").
Proof. vm_compute. reflexivity. Qed.


(** The movie of the sample lasts "90 min": 90.0 minutes. *)
Lemma duration_min_on_sample :
  In (Int 0, movie_row) (rows sample_frame) /\
  cell_at sample_frame "type" movie_row = Str "Movie" /\
  leading_integer "90 min" = Some 90 /\
  cell_at sample_frame "duration_min" movie_row = Float (Finite 90).
Proof.
  assert (load_and_clean_data INPUT sample_world = (Returned sample_frame, world_after_load))
    as Hload by (vm_compute; reflexivity).
  assert (In (Int 0, movie_row) (rows sample_frame)) as Hin by (vm_compute; auto).
  assert (cell_at sample_frame "type" movie_row = Str "Movie") as Hmovie
    by (vm_compute; reflexivity).
  assert (leading_integer "90 min" = Some 90) as Hlead by (vm_compute; reflexivity).
  split; [exact Hin |]. split; [exact Hmovie |]. split; [exact Hlead |].
  destruct (proj1 (duration_min_of_cleaned_rows INPUT sample_world world_after_load
                     sample_frame (Int 0) movie_row Hload Hin) Hmovie)
    as (d & Hd & Hascii).
  assert (d = "90 min") as -> by (vm_compute in Hd; congruence).
  destruct (Hascii eq_refl) as (_ & _ & _ & Hleading).
  apply (Hleading 90 Hlead). vm_compute. reflexivity.
Defined.

(** What the script makes of durations that do not start with their
    number, or whose number is beyond 2^53. *)
Example odd_durations_run :
  exists df w',
    load_and_clean_data INPUT odd_durations_world = (Returned df, w') /\
    map (fun r => (cell_at df "duration" (snd r), cell_at df "duration_min" (snd r)))
        (rows df)
    = [(Str "about 125 min", Float (Finite 125));
       (Str "9007199254740993 min", Float (Finite 9007199254740992))].
Proof. eexists. eexists. split; vm_compute; reflexivity. Qed.

(** C2 as stated fails: a movie whose duration text starts with the
    integer 9007199254740993 gets 9007199254740992.0 (and one whose text is
    "about 125 min", which has no leading integer, gets 125.0). *)
Lemma duration_min_counterexample :
  ~ (forall (P : Platform) (path : string) (w w' : world) (df : DataFrame)
            (l : cell) (cs : list cell),
       load_and_clean_data path w = (Returned df, w') ->
       In (l, cs) (rows df) ->
       cell_at df "type" cs = Str "Movie" ->
       exists d, cell_at df "duration" cs = Str d /\
         forall n, leading_integer d = Some n ->
                   cell_at df "duration_min" cs = Float (Finite n)).
Proof.
  intros Hclaim.
  assert (exists df w1 cs,
            load_and_clean_data INPUT odd_durations_world = (Returned df, w1) /\
            In (Int 1, cs) (rows df) /\
            cell_at df "type" cs = Str "Movie" /\
            cell_at df "duration" cs = Str "9007199254740993 min" /\
            cell_at df "duration_min" cs = Float (Finite 9007199254740992))
    as (df & w1 & cs & Hrun & Hin & Hmovie & Hduration & Hmin).
  { vm_compute. eexists. eexists. eexists.
    split; [reflexivity |]. split; [right; left; reflexivity |].
    repeat split. }
  destruct (Hclaim platform INPUT odd_durations_world w1 df (Int 1) cs Hrun Hin Hmovie)
    as (d & Hd & Hlead).
  assert (d = "9007199254740993 min") as -> by congruence.
  specialize (Hlead 9007199254740993 eq_refl). rewrite Hmin in Hlead. discriminate.
Qed.

(** The genre of the movie of the sample. *)
Lemma genre_on_sample :
  In (Int 0, movie_row) (rows sample_frame) /\
  exists s, cell_at sample_frame "listed_in" movie_row = Str s /\
            cell_at sample_frame "genre" movie_row = Str (prefix_before_first_comma s).
Proof.
  assert (load_and_clean_data INPUT sample_world = (Returned sample_frame, world_after_load))
    as Hload by (vm_compute; reflexivity).
  assert (In (Int 0, movie_row) (rows sample_frame)) as Hin by (vm_compute; auto).
  split; [exact Hin |].
  exact (genre_is_prefix_before_first_comma INPUT sample_world world_after_load
           sample_frame (Int 0) movie_row Hload Hin).
Defined.


(** Where every date is a plain number, [read_csv] reads the column as
    numbers and [to_datetime] takes them for nanoseconds from 1970: the
    call returns, although none of the fields is a date as a text. *)
Example numeric_dates_run :
  column_dtype numeric_dates_csv 3 = numeric /\
  parse_year "5" = None /\
  exists df, load_and_clean_data INPUT numeric_dates_world
             = (Returned df, set_log [(INFO, "Data loaded and cleaned successfully.")]
                               numeric_dates_world) /\
             map (fun r => cell_at df "year_added" (snd r)) (rows df)
             = [Int 1970; Int 1970].
Proof.
  split; [vm_compute; reflexivity |]. split; [vm_compute; reflexivity |].
  eexists. split; vm_compute; reflexivity.
Qed.


(** Without the input file [main] exits with status 1 and writes nothing. *)
Lemma missing_input_file_on_sample :
  fs empty_world !! INPUT = None /\
  path_refused INPUT = None /\ below_a_file (fs empty_world) INPUT = false /\
  load_and_clean_data INPUT empty_world = (Exited 1, after_load_error INPUT empty_world) /\
  exists w', main empty_world = (Exited 1, w') /\ fs w' = fs empty_world.
Proof.
  assert (fs empty_world !! INPUT = None) as Hmissing by (vm_compute; reflexivity).
  assert (path_refused INPUT = None) as Href by (vm_compute; reflexivity).
  assert (below_a_file (fs empty_world) INPUT = false) as Hbelow by (vm_compute; reflexivity).
  destruct (proj1 (@missing_input_file_exits platform INPUT empty_world Hmissing)
              Href Hbelow)
    as (Hload & _ & _ & _ & Hmain).
  split; [exact Hmissing |]. split; [exact Href |]. split; [exact Hbelow |].
  split; [exact Hload |].
  destruct (Hmain eq_refl) as (w' & Hrun & Hfs & _). eauto.
Defined.

(** Where [./data] is a regular file, nothing is under the path of the
    input either, but opening it fails otherwise. *)
Example blocked_input_run :
  fs blocked_world !! INPUT = None /\
  load_and_clean_data INPUT blocked_world = (Raised (NotADirectoryError INPUT), blocked_world) /\
  main blocked_world
  = (Raised (NotADirectoryError INPUT),
     set_log [(INFO, "Starting Netflix content analysis...")] blocked_world).
Proof. repeat split; vm_compute; reflexivity. Qed.

(** C4 as stated fails: a path that names no existing file because it
    leads through a regular file makes [read_csv] raise
    [NotADirectoryError], which the handler does not take; nothing is
    logged and the process does not exit with status 1. *)
Lemma missing_input_file_counterexample :
  ~ (forall (P : Platform) (path : string) (w : world),
       fs w !! path = None ->
       exists w', load_and_clean_data path w = (Exited 1, w') /\
                  exists line, log w' = (log w ++ [(ERROR, line)])%list).
Proof.
  intros Hclaim.
  destruct (Hclaim platform INPUT blocked_world) as (w' & Hrun & _).
  - vm_compute. reflexivity.
  - vm_compute in Hrun. discriminate.
Qed.

(** On the sample [main] returns; the deck it saved first has the title
    slide and one slide per chart: eight slides for seven charts. *)
Lemma main_deck_on_sample :
  main sample_world = (Returned tt, world_after_main) /\
  exists deck,
    fs world_after_main !! "Netflix_Content_Analysis.pptx" = Some (File (Deck deck)) /\
    length (slides deck) = 8%nat /\
    length (slides deck) = S (length (entries (fs world_after_main) "img/slides")).
Proof.
  assert (main sample_world = (Returned tt, world_after_main)) as Hmain
    by (vm_compute; reflexivity).
  split; [exact Hmain |].
  destruct (main_deck_follows_chart_directory sample_world world_after_main Hmain)
    as (df & w1 & wb & first & new & _ & _ & Hsaved & _ & _ & Hlen & Hentries).
  exists (set_slides (first :: new) new_presentation).
  split; [exact Hsaved |].
  cbn [slides set_slides]. rewrite Hlen, <- Hentries.
  split; [vm_compute; reflexivity | reflexivity].
Defined.



(** Theming the presentation with its title slide: the slide is as it
    was, its title still dark blue at 44 pt by its own formatting. *)
Lemma customize_slide_master_on_sample :
  customize_slide_master titled_presentation = (Returned tt, themed_presentation) /\
  slides themed_presentation = slides titled_presentation /\
  length (slides themed_presentation) = 1%nat /\
  master_background themed_presentation = SolidFill (Some LIGHT_BLUE).
Proof.
  assert (customize_slide_master titled_presentation = (Returned tt, themed_presentation))
    as Hrun by (vm_compute; reflexivity).
  split; [exact Hrun |].
  destruct (customize_slide_master_frame titled_presentation themed_presentation
              (Returned tt) Hrun) as ((Hslides & _) & _).
  split; [exact Hslides |]. split; reflexivity.
Defined.

(** A title slide on the new presentation. *)
Lemma add_title_slide_on_sample :
  exists sl,
    add_title_slide "Netflix Content Analysis" "Insights" new_presentation
    = (Returned tt, set_slides [sl] new_presentation) /\
    placeholder_text sl 0 = Some "Netflix Content Analysis" /\
    placeholder_text sl 1 = Some "Insights".
Proof.
  destruct (add_title_slide_appends new_presentation "Netflix Content Analysis" "Insights"
              {| layout_name := "Title Slide";
                 layout_placeholders :=
                   layout_ph 0 PhCenterTitle :: layout_ph 1 PhSubtitle :: footers |})
    as (sl & Hrun & _ & _ & _ & Htitle & Hsub & _);
    try reflexivity.
  exists sl. split; [exact Hrun |]. split; [exact Htitle | exact Hsub].
Defined.

(** C9 as stated fails: on a presentation whose first layout has no title
    placeholder the call raises; and on the default template a title with
    the control character BEL is read back as "_x0007_". *)
Lemma add_title_slide_counterexample :
  ~ (forall (prs : Presentation) (title subtitle : string),
       exists sl,
         add_title_slide title subtitle prs
         = (Returned tt, set_slides (slides prs ++ [sl])%list prs) /\
         placeholder_text sl 0 = Some title /\
         placeholder_text sl 1 = Some subtitle) /\
  ~ (forall (title subtitle : string),
       exists sl,
         add_title_slide title subtitle new_presentation
         = (Returned tt, set_slides (slides new_presentation ++ [sl])%list new_presentation) /\
         placeholder_text sl 0 = Some title /\
         placeholder_text sl 1 = Some subtitle).
Proof.
  split; intros Hclaim.
  - destruct (Hclaim blank_template "Title" "Subtitle") as (sl & Hrun & _).
    vm_compute in Hrun. discriminate.
  - destruct (Hclaim bell_title "Subtitle") as (sl & Hrun & Htitle & _).
    vm_compute in Hrun. injection Hrun as <-.
    vm_compute in Htitle. discriminate.
Qed.

(** A content slide for the chart of [picture_world]. *)
Lemma add_content_slide_on_sample :
  image_at picture_world chart_path = Some (new_figure figsize_default) /\
  exists sl,
    add_content_slide "Content Types" chart_path (picture_world, new_presentation)
    = (Returned tt, (picture_world, set_slides [sl] new_presentation)) /\
    placeholder_text sl 0 = Some "Content Types" /\
    pictures sl = [placed_picture (new_figure figsize_default)].
Proof.
  assert (image_at picture_world chart_path = Some (new_figure figsize_default)) as Himg
    by (vm_compute; reflexivity).
  split; [exact Himg |].
  destruct (add_content_slide_appends picture_world new_presentation "Content Types"
              chart_path
              {| layout_name := "Title Only";
                 layout_placeholders := layout_ph 0 PhTitle :: footers |}
              (new_figure figsize_default))
    as (sl & Hrun & _ & _ & _ & Htitle & Hpics & _);
    [reflexivity | reflexivity | exact Himg | reflexivity |].
  exists sl. split; [exact Hrun |]. split; [exact Htitle | exact Hpics].
Defined.

(** C10 as stated fails: on a presentation with fewer than six layouts the
    call raises; and on the default template a title with the control
    character BEL is read back as "_x0007_". *)
Lemma add_content_slide_counterexample :
  ~ (forall (w : world) (prs : Presentation) (title image_path : string) (img : figure),
       image_at w image_path = Some img ->
       exists sl,
         add_content_slide title image_path (w, prs)
         = (Returned tt, (w, set_slides (slides prs ++ [sl])%list prs)) /\
         placeholder_text sl 0 = Some title) /\
  ~ (forall (title : string),
       exists sl,
         add_content_slide title chart_path (picture_world, new_presentation)
         = (Returned tt,
            (picture_world, set_slides (slides new_presentation ++ [sl])%list new_presentation)) /\
         placeholder_text sl 0 = Some title).
Proof.
  split; intros Hclaim.
  - destruct (Hclaim picture_world blank_template "Content Types" chart_path
                (new_figure figsize_default)) as (sl & Hrun & _).
    + vm_compute. reflexivity.
    + vm_compute in Hrun. discriminate.
  - destruct (Hclaim bell_title) as (sl & Hrun & Htitle).
    vm_compute in Hrun. injection Hrun as <-.
    vm_compute in Htitle. discriminate.
Qed.

End Examples.

(** * More runs *)

Module ScenarioRuns.
Import Sample Scenarios.
#[local] Existing Instance platform.

(** Without the input file the load exits, with status 1. *)
Lemma exit_without_input :
  load_and_clean_data INPUT empty_world = (Exited 1, after_load_error INPUT empty_world) /\
  fs empty_world !! INPUT = None.
Proof.
  assert (load_and_clean_data INPUT empty_world
          = (Exited 1, after_load_error INPUT empty_world)) as Hrun
    by (vm_compute; reflexivity).
  split; [exact Hrun |].
  exact (proj1 (load_and_clean_data_exits_only_when_missing INPUT empty_world _ 1 Hrun)).
Defined.

(** The date that is none: a [ValueError] leaves the load.  The input
    below a regular file: a [NotADirectoryError] does. *)
Lemma exception_on_bad_date :
  load_and_clean_data INPUT bad_date_world
  = (Raised (ValueError "Unknown datetime string format, unable to parse: not a date"),
     bad_date_world) /\
  load_and_clean_data INPUT blocked_world
  = (Raised (NotADirectoryError INPUT), blocked_world) /\
  fs blocked_world !! INPUT = None /\
  below_a_file (fs blocked_world) INPUT = true.
Proof.
  assert (load_and_clean_data INPUT bad_date_world
          = (Raised (ValueError "Unknown datetime string format, unable to parse: not a date"),
             bad_date_world)) as Hrun
    by (vm_compute; reflexivity).
  assert (load_and_clean_data INPUT blocked_world
          = (Raised (NotADirectoryError INPUT), blocked_world)) as Hblocked
    by (vm_compute; reflexivity).
  assert (fs blocked_world !! INPUT = None) as Hfs by (vm_compute; reflexivity).
  split; [exact Hrun |]. split; [exact Hblocked |]. split; [exact Hfs |].
  destruct (@load_and_clean_data_escaping_exception platform INPUT blocked_world _ _ Hblocked)
    as (_ & _ & Hwhy).
  destruct (Hwhy Hfs) as [_ [[e He] | Hbelow]]; [| exact Hbelow].
  vm_compute in He. discriminate.
Defined.

(** The file without a duration column, and the file whose durations are
    numbers. *)
Lemma key_error_without_duration :
  first_refusal no_duration_csv = Some (KeyError "duration") /\
  load_and_clean_data INPUT no_duration_world
  = (Raised (KeyError "duration"), no_duration_world) /\
  first_refusal numeric_duration_csv = Some StrAccessorError /\
  load_and_clean_data INPUT numeric_duration_world
  = (Raised StrAccessorError, numeric_duration_world).
Proof.
  assert (first_refusal no_duration_csv = Some (KeyError "duration")) as Hfirst
    by (vm_compute; reflexivity).
  assert (first_refusal numeric_duration_csv = Some StrAccessorError) as Hnumeric
    by (vm_compute; reflexivity).
  split; [exact Hfirst |]. split; [| split; [exact Hnumeric |]].
  - apply (@load_and_clean_data_missing_column platform INPUT no_duration_world
             no_duration_csv).
    + vm_compute. reflexivity.
    + vm_compute. reflexivity.
    + discriminate.
    + exact Hfirst.
  - apply (@load_and_clean_data_missing_column platform INPUT numeric_duration_world
             numeric_duration_csv).
    + vm_compute. reflexivity.
    + vm_compute. reflexivity.
    + discriminate.
    + exact Hnumeric.
Defined.

(** The columns of the frame of the sample. *)
Lemma columns_of_sample :
  columns sample_frame = (sample_header ++ ["duration_min"; "genre"; "year_added"])%list /\
  wf_frame sample_frame.
Proof.
  assert (fs sample_world !! INPUT = Some (File (Csv sample_csv))) as Hfs
    by (vm_compute; reflexivity).
  assert (load_and_clean_data INPUT sample_world = (Returned sample_frame, world_after_load))
    as Hload by (vm_compute; reflexivity).
  exact (load_and_clean_data_columns INPUT sample_world world_after_load sample_csv
           sample_frame Hfs Hload).
Defined.



(** A chart that is written under a name without an extension: the file
    is [img/slides/shares.png]. *)
Lemma chart_written :
  create_chart (SeriesData []) "Shares" "shares" "bar" figsize_default sample_world
  = (Returned tt, world_after_bare_chart) /\
  (exists fg, fs world_after_bare_chart !! "img/slides/shares.png"
              = Some (File (Image (decorate "Shares" fg))) /\
              fig_size fg = figsize_default) /\
  figures world_after_bare_chart = figures sample_world /\
  fs world_after_bare_chart !! "img/slides" = Some Dir.
Proof.
  assert (create_chart (SeriesData []) "Shares" "shares" "bar" figsize_default sample_world
          = (Returned tt, world_after_bare_chart)) as Hrun
    by (vm_compute; reflexivity).
  split; [exact Hrun |].
  destruct (@create_chart_on_return platform _ _ _ _ _ _ _ Hrun)
    as (Hsaved & Hfig & _ & Hdir).
  split; [exact Hsaved |]. split; [exact Hfig | exact Hdir].
Defined.

(** Under the empty file name the path of the chart is the chart directory
    itself, and matplotlib writes to [img/slides.png]: where that is a
    directory the call raises, having made the chart directory. *)
Example chart_under_empty_name :
  path_join "img/slides" "" = "img/slides" /\
  fst (create_chart (SeriesData []) "Shares" "" "bar" figsize_default png_directory_world)
  = Raised (IsADirectoryError "img/slides.png") /\
  fs png_directory_world !! "img/slides" = None /\
  fs (snd (create_chart (SeriesData []) "Shares" "" "bar" figsize_default
             png_directory_world)) !! "img/slides" = Some Dir.
Proof. repeat split; vm_compute; reflexivity. Qed.




(** A title slide on the blank template, and on a template whose first
    layout has a title only: the slide is added, then the call raises. *)
Lemma title_slide_on_poor_templates :
  add_title_slide "Title" "Subtitle" blank_template
  = (Raised AttributeError,
     set_slides [fresh_slide 0 {| layout_name := "Blank"; layout_placeholders := footers |}]
       blank_template) /\
  exists sl,
    add_title_slide "Title" "Subtitle" title_only_template
    = (Raised (KeyError "no placeholder on this slide with idx == 1"),
       set_slides [sl] title_only_template) /\
    placeholder_text sl 0 = Some "Title".
Proof.
  split.
  - exact (proj1 (proj2 (add_title_slide_failures blank_template "Title" "Subtitle"))
             {| layout_name := "Blank"; layout_placeholders := footers |} eq_refl eq_refl).
  - destruct (proj2 (proj2 (add_title_slide_failures title_only_template "Title" "Subtitle"))
                title_only eq_refl eq_refl eq_refl) as (sl & Hrun & _ & Htitle & _).
    exists sl. split; [exact Hrun | exact Htitle].
Defined.

(** A content slide for a file that is not there. *)
Lemma content_slide_without_image :
  image_at picture_world "img/slides/missing.png" = None /\
  exists sl,
    add_content_slide "Missing" "img/slides/missing.png" (picture_world, new_presentation)
    = (Raised (FileNotFoundError "img/slides/missing.png"),
       (picture_world, set_slides [sl] new_presentation)) /\
    pictures sl = [].
Proof.
  assert (image_at picture_world "img/slides/missing.png" = None) as Himg
    by (vm_compute; reflexivity).
  split; [exact Himg |].
  destruct (add_content_slide_unreadable_image picture_world new_presentation "Missing"
              "img/slides/missing.png" title_only)
    as (sl & Hrun & _ & _ & Hpics & _);
    [reflexivity | reflexivity | exact Himg |].
  exists sl. split; [exact Hrun | exact Hpics].
Defined.

(** The theme on the default template. *)
Lemma theme_on_default_template :
  exists prs',
    customize_slide_master new_presentation = (Returned tt, prs') /\
    master_background prs' = SolidFill (Some LIGHT_BLUE) /\
    option_map lph_font (placeholder_at prs' 0 0) = Some title_style /\
    option_map lph_font (placeholder_at prs' 1 1) = Some body_style.
Proof.
  exact (customize_slide_master_sets_theme new_presentation
           (layout_ph 0 PhCenterTitle) (layout_ph 1 PhObject) eq_refl eq_refl).
Defined.

(** Theming the themed presentation again. *)
Lemma theme_twice :
  customize_slide_master titled_presentation = (Returned tt, themed_presentation) /\
  customize_slide_master themed_presentation = (Returned tt, themed_presentation).
Proof.
  assert (customize_slide_master titled_presentation = (Returned tt, themed_presentation))
    as Hrun by (vm_compute; reflexivity).
  split; [exact Hrun |].
  exact (customize_slide_master_idempotent titled_presentation themed_presentation Hrun).
Defined.

(** The theme on the blank template, which has one layout: the title
    style is set, then the call raises. *)
Lemma theme_on_blank_template :
  customize_slide_master blank_template
  = (Raised IndexError,
     set_layouts (title_styled (slide_layouts blank_template))
       (set_background (SolidFill (Some LIGHT_BLUE)) blank_template)).
Proof.
  apply (proj2 (customize_slide_master_failures blank_template)).
  - vm_compute. eauto.
  - reflexivity.
Defined.

(** The run on the sample: its two documents. *)
Lemma documents_of_sample :
  main sample_world = (Returned tt, world_after_main) /\
  exists deck deck',
    fs world_after_main !! PLAIN_DECK = Some (File (Deck deck)) /\
    fs world_after_main !! THEMED_DECK = Some (File (Deck deck')) /\
    slides deck' = slides deck.
Proof.
  assert (main sample_world = (Returned tt, world_after_main)) as Hmain
    by (vm_compute; reflexivity).
  split; [exact Hmain |].
  destruct (main_saves_plain_and_themed sample_world world_after_main Hmain)
    as (deck & deck' & Hplain & Hthemed & _ & _ & _ & Hslides & _).
  exists deck, deck'. split; [exact Hplain |]. split; [exact Hthemed | exact Hslides].
Defined.

(** Theming the default template before the title slide is added, or
    after. *)
Lemma title_slide_before_or_after_theming :
  customize_slide_master new_presentation = (Returned tt, themed new_presentation) /\
  exists q',
    customize_slide_master titled_presentation = (Returned tt, q') /\
    add_title_slide "Netflix Content Analysis"
      "Insights from the Netflix Movies and TV Shows Dataset" (themed new_presentation)
    = (Returned tt, q').
Proof.
  assert (customize_slide_master new_presentation = (Returned tt, themed new_presentation))
    as Hrun by (vm_compute; reflexivity).
  split; [exact Hrun |].
  exact (add_title_slide_commutes_with_theme new_presentation (themed new_presentation)
           "Netflix Content Analysis"
           "Insights from the Netflix Movies and TV Shows Dataset" Hrun).
Defined.

(** The same for the content slide of the chart of [picture_world]. *)
Lemma content_slide_before_or_after_theming :
  customize_slide_master new_presentation = (Returned tt, themed new_presentation) /\
  exists q',
    customize_slide_master
      (snd (snd (add_content_slide "Content Types" chart_path
                   (picture_world, new_presentation))))
    = (Returned tt, q') /\
    add_content_slide "Content Types" chart_path (picture_world, themed new_presentation)
    = (fst (add_content_slide "Content Types" chart_path (picture_world, new_presentation)),
       (fst (snd (add_content_slide "Content Types" chart_path
                    (picture_world, new_presentation))), q')).
Proof.
  assert (customize_slide_master new_presentation = (Returned tt, themed new_presentation))
    as Hrun by (vm_compute; reflexivity).
  split; [exact Hrun |].
  exact (add_content_slide_commutes_with_theme picture_world new_presentation
           (themed new_presentation) "Content Types" chart_path Hrun).
Defined.

(** The run on the sample: its charts. *)
Lemma charts_of_sample :
  main sample_world = (Returned tt, world_after_main) /\
  has_charts chart_files world_after_main /\
  figures world_after_main = figures sample_world.
Proof.
  assert (main sample_world = (Returned tt, world_after_main)) as Hmain
    by (vm_compute; reflexivity).
  split; [exact Hmain |].
  destruct (main_writes_the_charts sample_world world_after_main Hmain) as (Hhas & _ & Hfig).
  split; [exact Hhas | exact Hfig].
Defined.

(** The run on the sample: its log. *)
Lemma log_of_sample :
  main sample_world = (Returned tt, world_after_main) /\
  log world_after_main = main_lines.
Proof.
  assert (main sample_world = (Returned tt, world_after_main)) as Hmain
    by (vm_compute; reflexivity).
  split; [exact Hmain |].
  exact (proj1 (main_log_on_return sample_world world_after_main Hmain)).
Defined.

(** The run without the input file. *)
Lemma exit_of_main_without_input :
  main empty_world
  = (Exited 1, set_log [(INFO, "Starting Netflix content analysis...");
                        (ERROR, "Error loading data: [Errno 2] No such file or directory: './data/netflix_titles.csv'")]
                 empty_world) /\
  fs empty_world !! INPUT = None.
Proof.
  assert (main empty_world
          = (Exited 1, set_log [(INFO, "Starting Netflix content analysis...");
                                (ERROR, "Error loading data: [Errno 2] No such file or directory: './data/netflix_titles.csv'")]
                         empty_world)) as Hmain
    by (vm_compute; reflexivity).
  split; [exact Hmain |].
  exact (proj2 (main_exits_only_when_input_missing empty_world _ 1 Hmain)).
Defined.

(** The run with a text file in the chart directory: the charts are
    written, then the slides fail at the text file, and no document is
    written. *)
Lemma run_with_stray_file :
  main stray_world = (Raised (UnidentifiedImageError STRAY), world_after_stray) /\
  fs world_after_stray !! PLAIN_DECK = None /\
  fs world_after_stray !! THEMED_DECK = None.
Proof.
  assert (main stray_world = (Raised (UnidentifiedImageError STRAY), world_after_stray))
    as Hmain by (vm_compute; reflexivity).
  split; [exact Hmain |].
  assert (In STRAY (entries (fs stray_world) "img/slides")) as Hin by (vm_compute; auto).
  assert (image_at stray_world STRAY = None) as Himg by (vm_compute; reflexivity).
  assert (~ In STRAY chart_file_paths) as Hnot.
  { vm_compute. intros H. repeat (destruct H as [H | H]; [discriminate |]). exact H. }
  destruct (main_stops_at_foreign_entry stray_world world_after_stray STRAY _
              Hin Himg Hnot Hmain) as (_ & Hplain & Hthemed).
  split; [rewrite Hplain | rewrite Hthemed]; vm_compute; reflexivity.
Defined.

(** The run on the sample, whose chart directory is not there yet: eight
    slides. *)
Lemma eight_slides_of_sample :
  entries (fs sample_world) "img/slides" = [] /\
  exists deck,
    fs world_after_main !! PLAIN_DECK = Some (File (Deck deck)) /\
    length (slides deck) = 8%nat.
Proof.
  assert (entries (fs sample_world) "img/slides" = []) as Hclean
    by (vm_compute; reflexivity).
  assert (main sample_world = (Returned tt, world_after_main)) as Hmain
    by (vm_compute; reflexivity).
  split; [exact Hclean |].
  destruct (main_clean_run_has_eight_slides sample_world world_after_main Hclean Hmain)
    as (deck & Hplain & _ & Hlen & _).
  exists deck. split; [exact Hplain | exact Hlen].
Defined.

(** The title of the chart [content_by_year.png]: no underscore, fifteen
    characters as its stem. *)
Lemma title_without_underscore :
  is_ascii (stem "img/slides/content_by_year.png") = true /\
  slide_title "img/slides/content_by_year.png" = "Content By Year" /\
  contains_char UNDERSCORE (slide_title "img/slides/content_by_year.png") = false /\
  String.length (slide_title "img/slides/content_by_year.png") = 15%nat.
Proof.
  assert (is_ascii (stem "img/slides/content_by_year.png") = true) as Hascii
    by (vm_compute; reflexivity).
  split; [exact Hascii |]. split; [vm_compute; reflexivity |].
  destruct (slide_title_has_no_underscore "img/slides/content_by_year.png" Hascii)
    as [Hnone Hlen].
  split; [exact Hnone |]. rewrite Hlen. vm_compute. reflexivity.
Defined.

(** The chart [content_by_year.png] gives the title "Content By Year". *)
Lemma title_of_content_by_year :
  stem (path_join "img/slides" ("content_by_year" ++ ".png")) = "content_by_year" /\
  slide_title (path_join "img/slides" ("content_by_year" ++ ".png")) = "Content By Year".
Proof.
  destruct (chart_name_gives_slide_title "img/slides" "content_by_year")
    as [Hstem Htitle]; [discriminate | reflexivity | reflexivity |].
  split; [exact Hstem |]. rewrite Htitle. vm_compute. reflexivity.
Defined.

End ScenarioRuns.
